(** * TerraGenesis PC: the simulation core, embedded and verified

    A shallow embedding of the core of the game (src/core/resources.py,
    planet.py, technology.py, events.py and game_engine.py, with the limits of
    src/config/constants.py) and the properties its specification states.

    Modelling conventions.
    - Python numbers (the floats and ints of stocks, atmospheric values,
      thresholds and costs) are exact rationals [Q]; building counts, which
      the code only ever adds and subtracts as ints, are [Z]. Where the
      outcome at a boundary depends on rounding (a score of exactly 100, the
      habitability threshold, the completion of a research), the function is
      embedded a second time on binary64 doubles in [Module Double], and the
      statements about the rational model leave a margin around the boundary.
    - A dict that is only looked up by key (costs, effects, numeric
      requirements, the technology table) is a [gmap string _]; the buildings
      dict, whose iteration order the damage loop depends on, is an
      insertion-ordered association list.
    - Methods that read the wall clock, draw random numbers, mutate several
      objects or can raise run in a state-and-exception monad over a [World];
      a raised exception keeps the mutations made before it, as in Python. *)

From Stdlib Require Import QArith Qabs Qminmax Lqa ZArith Lia Bool.
From Stdlib Require PrimFloat.
From stdpp Require Import gmap strings list fin_maps.

Local Open Scope Q_scope.

(* ================================================================== *)
(** ** Numbers *)

Definition Qltb (a b : Q) : bool := negb (Qle_bool b a).

(** [max(a, b)] and [min(a, b)] of Python keep the first argument on a tie. *)
Definition py_max (a b : Q) : Q := if Qltb a b then b else a.
Definition py_min (a b : Q) : Q := if Qltb b a then b else a.
Definition py_abs (x : Q) : Q := if Qltb x 0 then - x else x.

(** The arithmetic of the score, of the habitability threshold and of a
    research step on the doubles the interpreter computes with. A decimal
    literal denotes the nearest double, as in Python. *)
Module Double.
Import PrimFloat.
#[local] Set Warnings "-inexact-float".
Local Open Scope float_scope.

(** [max(a, b)] and [min(a, b)] keep the first argument on a tie. *)
Definition py_max (a b : float) : float := if a <? b then b else a.
Definition py_min (a b : float) : float := if b <? a then b else a.

(** [Planet.calculate_habitability] as a function of the three values it
    reads. *)
Definition Planet_calculate_habitability (temperature pressure oxygen : float) : float :=
  let temp_diff := abs (temperature - 15.0) in
  let pressure_diff := abs (pressure - 1.0) in
  let oxygen_diff := abs (oxygen - 21.0) in
  let temp_score := py_max 0 (1 - temp_diff / 20.0) in
  let pressure_score := py_max 0 (1 - pressure_diff / 0.3) in
  let oxygen_score := py_max 0 (1 - oxygen_diff / 5.0) in
  let habitability :=
    (temp_score * 0.4 + pressure_score * 0.3 + oxygen_score * 0.3) * 100 in
  py_min 100 (py_max 0 habitability).

(** [Planet.is_habitable] *)
Definition Planet_is_habitable (temperature pressure oxygen : float) : bool :=
  80.0 <=? Planet_calculate_habitability temperature pressure oxygen.

(** The progress [update_research] stores for a technology at progress
    [progress], and whether it then completes the research. *)
Definition research_step (progress science_points science_cost delta_time : float)
  : float * bool :=
  let progress_per_second := science_points / science_cost * 100 in
  let progress_increase := progress_per_second * delta_time in
  let progress' := progress + progress_increase in
  (progress', 100.0 <=? progress').

End Double.

(** [d.get(k, dflt)] on a dict of numbers. *)
Definition dict_get_default (d : gmap string Q) (k : string) (dflt : Q) : Q :=
  default dflt (d !! k).

(** [k in d] *)
Definition dict_mem {A} (d : gmap string A) (k : string) : bool :=
  bool_decide (is_Some (d !! k)).

(* ================================================================== *)
(** ** Exceptions and the state monad *)

Inductive PyExn : Set :=
| ZeroDivisionError
| KeyError
| AttributeError
| IndexError.

Inductive Res (A : Type) : Type :=
| Ok (a : A)
| Raise (e : PyExn).
Arguments Ok {A} a.
Arguments Raise {A} e.

Definition M (S A : Type) : Type := S -> Res A * S.

Definition ret {S A} (a : A) : M S A := fun s => (Ok a, s).
Definition raise {S A} (e : PyExn) : M S A := fun s => (Raise e, s).
Definition bind {S A B} (m : M S A) (k : A -> M S B) : M S B :=
  fun s => match m s with
           | (Ok a, s') => k a s'
           | (Raise e, s') => (Raise e, s')
           end.
Definition get {S} : M S S := fun s => (Ok s, s).
Definition modify {S} (f : S -> S) : M S unit := fun s => (Ok tt, f s).

Notation "x <- m ;; k" := (bind m (fun x => k))
  (at level 100, m at level 50, k at level 200, right associativity).
Notation "m ;;; k" := (bind m (fun _ => k))
  (at level 100, k at level 200, right associativity).

(** [for x in xs: body x] *)
Fixpoint for_each {S A} (xs : list A) (body : A -> M S unit) : M S unit :=
  match xs with
  | [] => ret tt
  | x :: rest => body x ;;; for_each rest body
  end.

(* ================================================================== *)
(** ** config/constants.py *)

Definition INITIAL_CREDITS : Q := 1000.
Definition INITIAL_ENERGY : Q := 100.
Definition INITIAL_SCIENCE : Q := 0.

Definition MIN_TEMPERATURE : Q := -273.15.
Definition MAX_TEMPERATURE : Q := 1000.0.
Definition MIN_PRESSURE : Q := 0.0.
Definition MAX_PRESSURE : Q := 10.0.
Definition MIN_OXYGEN : Q := 0.0.
Definition MAX_OXYGEN : Q := 100.0.

Definition TARGET_TEMPERATURE : Q := 15.0.
Definition TARGET_PRESSURE : Q := 1.0.
Definition TARGET_OXYGEN : Q := 21.0.

Definition HABITABILITY_TOLERANCE : gmap string Q :=
  {[ "temperature" := 20.0; "pressure" := 0.3; "oxygen" := 5.0 ]}.

(** [HABITABILITY_TOLERANCE[k]]: the three keys the code indexes are present. *)
Definition tolerance (k : string) : Q := dict_get_default HABITABILITY_TOLERANCE k 0.

(* ================================================================== *)
(** ** core/resources.py *)

Record ResourceHistory := {
  h_credits : list Q;
  h_energy : list Q;
  h_science : list Q }.

Record ResourceManager := {
  credits : Q;
  energy : Q;
  science : Q;
  credits_per_second : Q;
  energy_per_second : Q;
  science_per_second : Q;
  energy_consumption : Q;
  max_energy : Q;
  max_science : Q;
  rm_history : ResourceHistory }.

Definition set_stocks (c e s : Q) (rm : ResourceManager) : ResourceManager :=
  {| credits := c; energy := e; science := s;
     credits_per_second := credits_per_second rm;
     energy_per_second := energy_per_second rm;
     science_per_second := science_per_second rm;
     energy_consumption := energy_consumption rm;
     max_energy := max_energy rm;
     max_science := max_science rm;
     rm_history := rm_history rm |}.

Definition ResourceManager_init : ResourceManager :=
  {| credits := INITIAL_CREDITS; energy := INITIAL_ENERGY; science := INITIAL_SCIENCE;
     credits_per_second := 0.0; energy_per_second := 0.0; science_per_second := 0.0;
     energy_consumption := 0.0;
     max_energy := 1000; max_science := 10000;
     rm_history := {| h_credits := [INITIAL_CREDITS];
                      h_energy := [INITIAL_ENERGY];
                      h_science := [INITIAL_SCIENCE] |} |}.

Definition Qgeb (a b : Q) : bool := Qle_bool b a.

Definition ResourceManager_can_afford (self : ResourceManager) (cost : gmap string Q) : bool :=
  let credits_needed := dict_get_default cost "credits" 0 in
  let energy_needed := dict_get_default cost "energy" 0 in
  let science_needed := dict_get_default cost "science" 0 in
  Qgeb (credits self) credits_needed
  && Qgeb (energy self) energy_needed
  && Qgeb (science self) science_needed.

(** Returns the flag and the manager after the call. *)
Definition ResourceManager_spend_resources (self : ResourceManager) (cost : gmap string Q)
  : bool * ResourceManager :=
  if negb (ResourceManager_can_afford self cost) then (false, self)
  else (true,
        set_stocks (credits self - dict_get_default cost "credits" 0)
                   (energy self - dict_get_default cost "energy" 0)
                   (science self - dict_get_default cost "science" 0) self).

Definition ResourceManager_add_resources (self : ResourceManager) (resources : gmap string Q)
  : ResourceManager :=
  let c := credits self + dict_get_default resources "credits" 0 in
  let e := energy self + dict_get_default resources "energy" 0 in
  let s := science self + dict_get_default resources "science" 0 in
  set_stocks (py_max 0 c)
             (py_max 0 (py_min (max_energy self) e))
             (py_max 0 (py_min (max_science self) s)) self.

(** The snapshot dict of [to_dict]; [from_dict] reads every key with a default,
    so each key may be absent. *)
Record ResourceDict := {
  rd_credits : option Q;
  rd_energy : option Q;
  rd_science : option Q;
  rd_max_energy : option Q;
  rd_max_science : option Q;
  rd_history : option ResourceHistory }.

Definition ResourceManager_to_dict (self : ResourceManager) : ResourceDict :=
  {| rd_credits := Some (credits self);
     rd_energy := Some (energy self);
     rd_science := Some (science self);
     rd_max_energy := Some (max_energy self);
     rd_max_science := Some (max_science self);
     rd_history := Some (rm_history self) |}.

Definition ResourceManager_from_dict (data : ResourceDict) : ResourceManager :=
  let manager := ResourceManager_init in
  {| credits := default INITIAL_CREDITS (rd_credits data);
     energy := default INITIAL_ENERGY (rd_energy data);
     science := default INITIAL_SCIENCE (rd_science data);
     credits_per_second := credits_per_second manager;
     energy_per_second := energy_per_second manager;
     science_per_second := science_per_second manager;
     energy_consumption := energy_consumption manager;
     max_energy := default 1000 (rd_max_energy data);
     max_science := default 10000 (rd_max_science data);
     rm_history := default (rm_history manager) (rd_history data) |}.

(* ================================================================== *)
(** ** Insertion-ordered dicts

    A Python dict iterates in insertion order: assigning to a present key
    keeps its place, assigning to a new key appends it, [del] removes it. *)

Definition odict (A : Type) : Type := list (string * A).

Fixpoint odict_get {A} (d : odict A) (k : string) : option A :=
  match d with
  | [] => None
  | (k', v) :: rest => if String.eqb k' k then Some v else odict_get rest k
  end.

Fixpoint odict_set {A} (d : odict A) (k : string) (v : A) : odict A :=
  match d with
  | [] => [(k, v)]
  | (k', v') :: rest =>
      if String.eqb k' k then (k', v) :: rest else (k', v') :: odict_set rest k v
  end.

Fixpoint odict_del {A} (d : odict A) (k : string) : odict A :=
  match d with
  | [] => []
  | (k', v') :: rest =>
      if String.eqb k' k then rest else (k', v') :: odict_del rest k
  end.

Definition odict_keys {A} (d : odict A) : list string := map fst d.
Definition odict_values {A} (d : odict A) : list A := map snd d.

(* ================================================================== *)
(** ** core/events.py: event templates and active events *)

(** The [requirements] mapping of a template, split by the type of its
    values: numeric thresholds by key, and the [planets] allow-list. *)
Record Requirements := {
  req_thresholds : gmap string Q;
  req_planets : option (list string) }.

(** A template as loaded from the events file. The constructor also stamps
    [start_time], [is_active] and [has_been_applied], which nothing reads. *)
Record GameEvent := {
  ge_id : string;
  ge_name : string;
  ge_description : string;
  ge_type : string;
  ge_probability : Q;
  ge_duration : Q;
  ge_effects : gmap string Q;
  ge_requirements : Requirements }.

Record ActiveEvent := {
  ae_event : GameEvent;
  ae_start_time : Q;
  ae_duration : Q;
  effects_applied : bool }.

Definition set_effects_applied (b : bool) (self : ActiveEvent) : ActiveEvent :=
  {| ae_event := ae_event self; ae_start_time := ae_start_time self;
     ae_duration := ae_duration self; effects_applied := b |}.

(* ================================================================== *)
(** ** core/planet.py: the planet record *)

Record PlanetHistory := {
  h_temperature : list Q;
  h_pressure : list Q;
  h_oxygen : list Q;
  h_habitability : list Q }.

Record Planet := {
  name : string;
  description : string;
  image_path : string;
  temperature : Q;
  pressure : Q;
  oxygen : Q;
  base_temperature : Q;
  base_pressure : Q;
  base_oxygen : Q;
  temperature_modifier : Q;
  pressure_modifier : Q;
  oxygen_modifier : Q;
  mass : Q;
  distance_from_sun : Q;
  day_length : Q;
  buildings : odict Z;
  history : PlanetHistory;
  active_events : list ActiveEvent }.

(** Attribute assignment, by group of attributes assigned together. *)
Definition planet_with (p : Planet) (t pr o bt bp bo tm pm om : Q)
    (b : odict Z) (h : PlanetHistory) (evs : list ActiveEvent) : Planet :=
  {| name := name p; description := description p; image_path := image_path p;
     temperature := t; pressure := pr; oxygen := o;
     base_temperature := bt; base_pressure := bp; base_oxygen := bo;
     temperature_modifier := tm; pressure_modifier := pm; oxygen_modifier := om;
     mass := mass p; distance_from_sun := distance_from_sun p;
     day_length := day_length p;
     buildings := b; history := h; active_events := evs |}.

Definition set_atmosphere (t pr o : Q) (p : Planet) : Planet :=
  planet_with p t pr o (base_temperature p) (base_pressure p) (base_oxygen p)
    (temperature_modifier p) (pressure_modifier p) (oxygen_modifier p)
    (buildings p) (history p) (active_events p).

Definition set_base (bt bp bo : Q) (p : Planet) : Planet :=
  planet_with p (temperature p) (pressure p) (oxygen p) bt bp bo
    (temperature_modifier p) (pressure_modifier p) (oxygen_modifier p)
    (buildings p) (history p) (active_events p).

Definition set_modifiers (tm pm om : Q) (p : Planet) : Planet :=
  planet_with p (temperature p) (pressure p) (oxygen p)
    (base_temperature p) (base_pressure p) (base_oxygen p) tm pm om
    (buildings p) (history p) (active_events p).

Definition set_buildings (b : odict Z) (p : Planet) : Planet :=
  planet_with p (temperature p) (pressure p) (oxygen p)
    (base_temperature p) (base_pressure p) (base_oxygen p)
    (temperature_modifier p) (pressure_modifier p) (oxygen_modifier p)
    b (history p) (active_events p).

Definition set_history (h : PlanetHistory) (p : Planet) : Planet :=
  planet_with p (temperature p) (pressure p) (oxygen p)
    (base_temperature p) (base_pressure p) (base_oxygen p)
    (temperature_modifier p) (pressure_modifier p) (oxygen_modifier p)
    (buildings p) h (active_events p).

Definition set_active_events (evs : list ActiveEvent) (p : Planet) : Planet :=
  planet_with p (temperature p) (pressure p) (oxygen p)
    (base_temperature p) (base_pressure p) (base_oxygen p)
    (temperature_modifier p) (pressure_modifier p) (oxygen_modifier p)
    (buildings p) (history p) evs.

(** The score on exact numbers; [Double.Planet_calculate_habitability] is the
    same expression on doubles. *)
Definition Planet_calculate_habitability (self : Planet) : Q :=
  let temp_diff := py_abs (temperature self - TARGET_TEMPERATURE) in
  let pressure_diff := py_abs (pressure self - TARGET_PRESSURE) in
  let oxygen_diff := py_abs (oxygen self - TARGET_OXYGEN) in
  let temp_score := py_max 0 (1 - temp_diff / tolerance "temperature") in
  let pressure_score := py_max 0 (1 - pressure_diff / tolerance "pressure") in
  let oxygen_score := py_max 0 (1 - oxygen_diff / tolerance "oxygen") in
  let habitability :=
    (temp_score * 0.4 + pressure_score * 0.3 + oxygen_score * 0.3) * 100 in
  py_min 100 (py_max 0 habitability).

(** On exact numbers; [Double.Planet_is_habitable] is the test on doubles. *)
Definition Planet_is_habitable (self : Planet) : bool :=
  Qgeb (Planet_calculate_habitability self) 80.0.

Definition Planet_building_effects : gmap string (gmap string Q) :=
  {[ "heater" := {[ "temperature" := 5.0 ]};
     "cooler" := {[ "temperature" := -5.0 ]};
     "atmosphere_processor" := {[ "pressure" := 0.1 ]};
     "oxygen_generator" := {[ "oxygen" := 2.0 ]};
     "greenhouse" := {[ "temperature" := 2.0; "oxygen" := 1.0 ]};
     "solar_panel" := ∅;
     "research_lab" := ∅ ]}.

Definition Planet__update_modifiers (self : Planet) : Planet :=
  let step (acc : Q * Q * Q) (item : string * Z) : Q * Q * Q :=
    let '(tm, pm, om) := acc in
    let '(building_type, count) := item in
    match Planet_building_effects !! building_type with
    | Some effects =>
        (tm + dict_get_default effects "temperature" 0 * inject_Z count,
         pm + dict_get_default effects "pressure" 0 * inject_Z count,
         om + dict_get_default effects "oxygen" 0 * inject_Z count)
    | None => acc
    end in
  let '(tm, pm, om) := fold_left step (buildings self) (0.0, 0.0, 0.0) in
  set_modifiers tm pm om self.

Definition Planet_add_building (self : Planet) (building_type : string) (count : Z)
  : Planet :=
  let b0 := buildings self in
  let b1 := match odict_get b0 building_type with
            | None => odict_set b0 building_type 0%Z
            | Some _ => b0
            end in
  let b2 := odict_set b1 building_type
              (default 0%Z (odict_get b1 building_type) + count)%Z in
  Planet__update_modifiers (set_buildings b2 self).

Definition Planet_remove_building (self : Planet) (building_type : string) (count : Z)
  : Planet :=
  let b0 := buildings self in
  let b2 := match odict_get b0 building_type with
            | Some v =>
                let v' := Z.max 0 (v - count) in
                let b1 := odict_set b0 building_type v' in
                if (v' =? 0)%Z then odict_del b1 building_type else b1
            | None => b0
            end in
  Planet__update_modifiers (set_buildings b2 self).

(* ================================================================== *)
(** ** The world a tick runs in

    The planet and the resource manager are the two objects the event code
    mutates. [time_time n] is what the [n]-th call of [time.time()] returns and
    [random_random n] what the [n]-th call of [random.random()] returns; the
    two counters say how many calls have been made. *)

Record World := {
  planet : Planet;
  resource_manager : ResourceManager;
  time_time : nat -> Q;
  clock_reads : nat;
  random_random : nat -> Q;
  random_draws : nat }.

Definition on_planet (f : Planet -> Planet) (w : World) : World :=
  {| planet := f (planet w); resource_manager := resource_manager w;
     time_time := time_time w; clock_reads := clock_reads w;
     random_random := random_random w; random_draws := random_draws w |}.

Definition on_resource_manager (f : ResourceManager -> ResourceManager) (w : World)
  : World :=
  {| planet := planet w; resource_manager := f (resource_manager w);
     time_time := time_time w; clock_reads := clock_reads w;
     random_random := random_random w; random_draws := random_draws w |}.

(** [time.time()] *)
Definition py_time : M World Q :=
  fun w => (Ok (time_time w (clock_reads w)),
            {| planet := planet w; resource_manager := resource_manager w;
               time_time := time_time w; clock_reads := S (clock_reads w);
               random_random := random_random w; random_draws := random_draws w |}).

(** [random.random()] *)
Definition py_random : M World Q :=
  fun w => (Ok (random_random w (random_draws w)),
            {| planet := planet w; resource_manager := resource_manager w;
               time_time := time_time w; clock_reads := clock_reads w;
               random_random := random_random w; random_draws := S (random_draws w) |}).

(* ================================================================== *)
(** ** core/events.py: ActiveEvent *)

(** What a caller passes as [resource_manager]: the manager of the world, or,
    from [Planet._update_events], the float [delta_time]. *)
Inductive PyObj : Type :=
| ResourceManagerObj
| FloatObj (x : Q).

(** [resource_manager.add_resources(resources)]; a float has no such method. *)
Definition call_add_resources (obj : PyObj) (resources : gmap string Q) : M World unit :=
  match obj with
  | ResourceManagerObj =>
      modify (on_resource_manager (fun rm => ResourceManager_add_resources rm resources))
  | FloatObj _ => raise AttributeError
  end.

(** [resource_manager.spend_resources(cost)], the returned flag dropped. *)
Definition call_spend_resources (obj : PyObj) (cost : gmap string Q) : M World unit :=
  match obj with
  | ResourceManagerObj =>
      modify (on_resource_manager (fun rm => (ResourceManager_spend_resources rm cost).2))
  | FloatObj _ => raise AttributeError
  end.

(** [if k in effects: body(effects[k])] *)
Definition when_key (effects : gmap string Q) (k : string) (body : Q -> M World unit)
  : M World unit :=
  match effects !! k with
  | Some v => body v
  | None => ret tt
  end.

Definition ActiveEvent_is_expired (self : ActiveEvent) : M World bool :=
  if Qeq_bool (ae_duration self) 0 then ret (effects_applied self)
  else now <- py_time ;;
       ret (Qgeb (now - ae_start_time self) (ae_duration self)).

(** The one-shot block of [apply_effects], entered when [effects_applied] is
    false. *)
Definition apply_one_shot_effects (self : ActiveEvent) (resource_manager : PyObj)
  : M World ActiveEvent :=
  let effects := ge_effects (ae_event self) in
  when_key effects "credits_bonus" (fun v =>
    call_add_resources resource_manager {[ "credits" := v ]}) ;;;
  when_key effects "credits_cost" (fun v =>
    call_spend_resources resource_manager {[ "credits" := v ]}) ;;;
  when_key effects "energy_bonus" (fun v =>
    call_add_resources resource_manager {[ "energy" := v ]}) ;;;
  when_key effects "energy_cost" (fun v =>
    call_spend_resources resource_manager {[ "energy" := v ]}) ;;;
  when_key effects "science_bonus" (fun v =>
    call_add_resources resource_manager {[ "science" := v ]}) ;;;
  when_key effects "building_damage_chance" (fun damage_chance =>
    w <- get ;;
    for_each (odict_keys (buildings (planet w))) (fun building_type =>
      r <- py_random ;;
      if Qltb r damage_chance
      then modify (on_planet (fun p => Planet_remove_building p building_type 1))
      else ret tt)) ;;;
  ret (set_effects_applied true self).

(** The continuous block of [apply_effects]. *)
Definition apply_continuous_effects (self : ActiveEvent) : M World unit :=
  let effects := ge_effects (ae_event self) in
  if Qltb 0 (ae_duration self) then
    expired <- ActiveEvent_is_expired self ;;
    if negb expired then
      let temp_modifier := dict_get_default effects "temperature_modifier" 0 in
      let pressure_modifier := dict_get_default effects "pressure_modifier" 0 in
      let oxygen_modifier := dict_get_default effects "oxygen_modifier" 0 in
      modify (on_planet (fun p =>
        set_base (base_temperature p + temp_modifier * 0.001)
                 (base_pressure p + pressure_modifier * 0.001)
                 (base_oxygen p + oxygen_modifier * 0.001) p))
    else ret tt
  else ret tt.

(** [self.apply_effects(planet, resource_manager)]; returns the event object
    as the call leaves it. *)
Definition ActiveEvent_apply_effects (self : ActiveEvent) (resource_manager : PyObj)
  : M World ActiveEvent :=
  self' <- (if negb (effects_applied self)
            then apply_one_shot_effects self resource_manager
            else ret self) ;;
  apply_continuous_effects self' ;;;
  ret self'.

(* ================================================================== *)
(** ** core/planet.py: construction, update, snapshots *)

(** A planet template of the planets file; [__init__] reads each key with a
    default. *)
Record PlanetData := {
  pd_description : option string;
  pd_image : option string;
  pd_initial_temperature : option Q;
  pd_initial_pressure : option Q;
  pd_initial_oxygen : option Q;
  pd_mass : option Q;
  pd_distance : option Q;
  pd_day_length : option Q }.

Definition Planet_init (name_ : string) (planet_data : PlanetData) : Planet :=
  let t := default 0.0 (pd_initial_temperature planet_data) in
  let pr := default 0.0 (pd_initial_pressure planet_data) in
  let o := default 0.0 (pd_initial_oxygen planet_data) in
  let self :=
    {| name := name_;
       description := default "" (pd_description planet_data);
       image_path := default "" (pd_image planet_data);
       temperature := t; pressure := pr; oxygen := o;
       base_temperature := t; base_pressure := pr; base_oxygen := o;
       temperature_modifier := 0.0; pressure_modifier := 0.0; oxygen_modifier := 0.0;
       mass := default 1.0 (pd_mass planet_data);
       distance_from_sun := default 1.0 (pd_distance planet_data);
       day_length := default 24.0 (pd_day_length planet_data);
       buildings := [];
       history := {| h_temperature := []; h_pressure := []; h_oxygen := [];
                     h_habitability := [] |};
       active_events := [] |} in
  set_history {| h_temperature := [t]; h_pressure := [pr]; h_oxygen := [o];
                 h_habitability := [Planet_calculate_habitability self] |} self.

Definition with_h_temperature (l : list Q) (h : PlanetHistory) : PlanetHistory :=
  {| h_temperature := l; h_pressure := h_pressure h; h_oxygen := h_oxygen h;
     h_habitability := h_habitability h |}.
Definition with_h_pressure (l : list Q) (h : PlanetHistory) : PlanetHistory :=
  {| h_temperature := h_temperature h; h_pressure := l; h_oxygen := h_oxygen h;
     h_habitability := h_habitability h |}.
Definition with_h_oxygen (l : list Q) (h : PlanetHistory) : PlanetHistory :=
  {| h_temperature := h_temperature h; h_pressure := h_pressure h; h_oxygen := l;
     h_habitability := h_habitability h |}.
Definition with_h_habitability (l : list Q) (h : PlanetHistory) : PlanetHistory :=
  {| h_temperature := h_temperature h; h_pressure := h_pressure h;
     h_oxygen := h_oxygen h; h_habitability := l |}.

(** [self.history[key].pop(0)]; an empty list raises. *)
Definition history_pop0 (proj : PlanetHistory -> list Q)
    (upd : list Q -> PlanetHistory -> PlanetHistory) : M World unit :=
  fun w => match proj (history (planet w)) with
           | [] => (Raise IndexError, w)
           | _ :: rest =>
               (Ok tt, on_planet (fun p => set_history (upd rest (history p)) p) w)
           end.

(** [self.history[key].append(x)] *)
Definition history_append (proj : PlanetHistory -> list Q)
    (upd : list Q -> PlanetHistory -> PlanetHistory) (x : Planet -> Q) : M World unit :=
  modify (on_planet (fun p =>
    set_history (upd (proj (history p) ++ [x p]) (history p)) p)).

(** [for event in self.active_events: event.apply_effects(self, arg)]. The
    events are mutated in place: [done] are the ones already visited, as the
    calls left them, and [todo] the ones still to visit. *)
Fixpoint apply_effects_loop (arg : PyObj) (done todo : list ActiveEvent) : M World unit :=
  match todo with
  | [] => ret tt
  | event :: rest =>
      event' <- ActiveEvent_apply_effects event arg ;;
      modify (on_planet (set_active_events (done ++ event' :: rest))) ;;;
      apply_effects_loop arg (done ++ [event']) rest
  end.

(** [[event for event in events if not event.is_expired()]] *)
Fixpoint unexpired (events : list ActiveEvent) : M World (list ActiveEvent) :=
  match events with
  | [] => ret []
  | event :: rest =>
      expired <- ActiveEvent_is_expired event ;;
      kept <- unexpired rest ;;
      ret (if negb expired then event :: kept else kept)
  end.

Definition Planet__update_events (delta_time : Q) : M World unit :=
  w <- get ;;
  kept <- unexpired (active_events (planet w)) ;;
  modify (on_planet (set_active_events kept)) ;;;
  apply_effects_loop (FloatObj delta_time) [] kept.

Definition Planet_update (delta_time : Q) : M World unit :=
  modify (on_planet (fun p =>
    set_atmosphere (base_temperature p + temperature_modifier p)
                   (base_pressure p + pressure_modifier p)
                   (base_oxygen p + oxygen_modifier p) p)) ;;;
  modify (on_planet (fun p =>
    set_atmosphere (py_max MIN_TEMPERATURE (py_min MAX_TEMPERATURE (temperature p)))
                   (py_max MIN_PRESSURE (py_min MAX_PRESSURE (pressure p)))
                   (py_max MIN_OXYGEN (py_min MAX_OXYGEN (oxygen p))) p)) ;;;
  w <- get ;;
  (if (100 <=? length (h_temperature (history (planet w))))%nat then
     history_pop0 h_temperature with_h_temperature ;;;
     history_pop0 h_pressure with_h_pressure ;;;
     history_pop0 h_oxygen with_h_oxygen ;;;
     history_pop0 h_habitability with_h_habitability
   else ret tt) ;;;
  history_append h_temperature with_h_temperature temperature ;;;
  history_append h_pressure with_h_pressure pressure ;;;
  history_append h_oxygen with_h_oxygen oxygen ;;;
  history_append h_habitability with_h_habitability Planet_calculate_habitability ;;;
  Planet__update_events delta_time.

(** The snapshot dict of [Planet.to_dict]. [from_dict] indexes ['name'] and
    reads the other keys with a default. *)
Record PlanetDict := {
  pl_name : option string;
  pl_temperature : option Q;
  pl_pressure : option Q;
  pl_oxygen : option Q;
  pl_base_temperature : option Q;
  pl_base_pressure : option Q;
  pl_base_oxygen : option Q;
  pl_buildings : option (odict Z);
  pl_history : option PlanetHistory }.

Definition Planet_to_dict (self : Planet) : PlanetDict :=
  {| pl_name := Some (name self);
     pl_temperature := Some (temperature self);
     pl_pressure := Some (pressure self);
     pl_oxygen := Some (oxygen self);
     pl_base_temperature := Some (base_temperature self);
     pl_base_pressure := Some (base_pressure self);
     pl_base_oxygen := Some (base_oxygen self);
     pl_buildings := Some (buildings self);
     pl_history := Some (history self) |}.

Definition Planet_from_dict (data : PlanetDict) (planet_data : PlanetData) : Res Planet :=
  match pl_name data with
  | None => Raise KeyError
  | Some name_ =>
      let planet := Planet_init name_ planet_data in
      let planet :=
        set_atmosphere (default (temperature planet) (pl_temperature data))
                       (default (pressure planet) (pl_pressure data))
                       (default (oxygen planet) (pl_oxygen data)) planet in
      let planet := set_buildings (default [] (pl_buildings data)) planet in
      let planet := set_history (default (history planet) (pl_history data)) planet in
      Ok (Planet__update_modifiers planet)
  end.

(* ================================================================== *)
(** ** core/events.py: EventManager *)

(** [event_templates] is the dict of templates by id, in file order. *)
Record EventManager := {
  event_templates : odict GameEvent;
  last_event_check : Q;
  event_check_interval : Q }.

Definition set_last_event_check (t : Q) (self : EventManager) : EventManager :=
  {| event_templates := event_templates self; last_event_check := t;
     event_check_interval := event_check_interval self |}.

(** [sum(planet.buildings.values())] *)
Definition total_buildings (p : Planet) : Z :=
  fold_left Z.add (odict_values (buildings p)) 0%Z.

(** [if k in req: if test(req[k]): return False] falls through (false here)
    when the key is absent or the test does not fire. *)
Definition requirement_fails (req : Requirements) (k : string) (test : Q -> bool) : bool :=
  match req_thresholds req !! k with
  | Some v => test v
  | None => false
  end.

Definition EventManager__check_event_requirements
    (event : GameEvent) (planet_ : Planet) (resource_manager_ : ResourceManager) : bool :=
  let req := ge_requirements event in
  if requirement_fails req "min_buildings"
       (fun v => Qltb (inject_Z (total_buildings planet_)) v) then false
  else if match req_planets req with
          | Some allowed => negb (bool_decide (name planet_ ∈ allowed))
          | None => false
          end then false
  else if requirement_fails req "min_habitability"
       (fun v => Qltb (Planet_calculate_habitability planet_) v) then false
  else if requirement_fails req "min_science"
       (fun v => Qltb (science resource_manager_) v) then false
  else if requirement_fails req "min_research_labs"
       (fun v => Qltb (inject_Z (default 0%Z (odict_get (buildings planet_) "research_lab"))) v)
       then false
  else if requirement_fails req "min_mining_facilities"
       (fun v => Qltb (inject_Z (default 0%Z (odict_get (buildings planet_) "mining_facility"))) v)
       then false
  else if requirement_fails req "min_pressure"
       (fun v => Qltb (pressure planet_) v) then false
  else true.

(** [ActiveEvent(event)] stamps the wall clock. *)
Definition ActiveEvent_init (event : GameEvent) : M World ActiveEvent :=
  start <- py_time ;;
  ret {| ae_event := event; ae_start_time := start;
         ae_duration := ge_duration event; effects_applied := false |}.

Definition EventManager_trigger_event (self : EventManager) (event_id : string)
  : M World bool :=
  match odict_get (event_templates self) event_id with
  | None => ret false
  | Some event_template =>
      active_event <- ActiveEvent_init event_template ;;
      modify (on_planet (fun p =>
        set_active_events (active_events p ++ [active_event]) p)) ;;;
      ret true
  end.

(** [any(ae.event.id == id for ae in planet.active_events)] *)
Definition already_active (id : string) (p : Planet) : bool :=
  existsb (fun ae => String.eqb (ge_id (ae_event ae)) id) (active_events p).

(** The body of the loop of [_check_for_new_events] for one template. *)
Definition check_template (self : EventManager) (event_template : GameEvent)
  : M World unit :=
  r <- py_random ;;
  if Qltb (ge_probability event_template) r then ret tt
  else
    w <- get ;;
    if negb (EventManager__check_event_requirements event_template
               (planet w) (resource_manager w)) then ret tt
    else if already_active (ge_id event_template) (planet w) then ret tt
    else
      EventManager_trigger_event self (ge_id event_template) ;;; ret tt.

Definition EventManager__check_for_new_events (self : EventManager) : M World unit :=
  for_each (odict_values (event_templates self)) (check_template self).

(** [for active_event in planet.active_events[:]]: an expired event is removed
    from the planet's list, the others are visited and mutated in place.
    [done] are the events kept so far and [todo] the rest of the copy; the
    events of the list are distinct objects, so [remove] deletes the one under
    the cursor. *)
Fixpoint active_events_loop (done todo : list ActiveEvent) : M World unit :=
  match todo with
  | [] => ret tt
  | active_event :: rest =>
      expired <- ActiveEvent_is_expired active_event ;;
      if expired then
        modify (on_planet (set_active_events (done ++ rest))) ;;;
        active_events_loop done rest
      else
        active_event' <- ActiveEvent_apply_effects active_event ResourceManagerObj ;;
        modify (on_planet (set_active_events (done ++ active_event' :: rest))) ;;;
        active_events_loop (done ++ [active_event']) rest
  end.

Definition EventManager_update (self : EventManager) (delta_time : Q)
  : M World EventManager :=
  current_time <- py_time ;;
  self' <- (if Qgeb (current_time - last_event_check self) (event_check_interval self)
            then EventManager__check_for_new_events self ;;;
                 ret (set_last_event_check current_time self)
            else ret self) ;;
  w <- get ;;
  active_events_loop [] (active_events (planet w)) ;;;
  ret self'.

(* ================================================================== *)
(** ** core/technology.py *)

(** A technology template of the technologies file. *)
Record TechData := {
  td_name : option string;
  td_description : option string;
  td_icon : option string;
  td_cost : option (gmap string Q);
  td_prerequisites : option (list string);
  td_unlocks : option (list string) }.

Record Technology := {
  tech_id : string;
  tech_name : string;
  tech_description : string;
  tech_icon : string;
  cost : gmap string Q;
  prerequisites : gset string;
  unlocks : list string;
  is_researched : bool;
  is_available : bool;
  tech_research_progress : Q }.

Definition tech_with (t : Technology) (researched available : bool) (progress : Q)
  : Technology :=
  {| tech_id := tech_id t; tech_name := tech_name t;
     tech_description := tech_description t; tech_icon := tech_icon t;
     cost := cost t; prerequisites := prerequisites t; unlocks := unlocks t;
     is_researched := researched; is_available := available;
     tech_research_progress := progress |}.

Definition set_is_researched (b : bool) (t : Technology) : Technology :=
  tech_with t b (is_available t) (tech_research_progress t).
Definition set_is_available (b : bool) (t : Technology) : Technology :=
  tech_with t (is_researched t) b (tech_research_progress t).
Definition set_tech_progress (q : Q) (t : Technology) : Technology :=
  tech_with t (is_researched t) (is_available t) q.

Definition Technology_init (id : string) (tech_data : TechData) : Technology :=
  let prereqs : gset string := list_to_set (default [] (td_prerequisites tech_data)) in
  {| tech_id := id;
     tech_name := default "" (td_name tech_data);
     tech_description := default "" (td_description tech_data);
     tech_icon := default "" (td_icon tech_data);
     cost := default ∅ (td_cost tech_data);
     prerequisites := prereqs;
     unlocks := default [] (td_unlocks tech_data);
     is_researched := false;
     is_available := bool_decide (size prereqs = 0%nat);
     tech_research_progress := 0.0 |}.

Record TechnologyTree := {
  technologies : gmap string Technology;
  researched_technologies : gset string;
  current_research : option string;
  research_progress : Q }.

Definition set_technologies (techs : gmap string Technology) (self : TechnologyTree)
  : TechnologyTree :=
  {| technologies := techs;
     researched_technologies := researched_technologies self;
     current_research := current_research self;
     research_progress := research_progress self |}.

Definition set_current (cur : option string) (progress : Q) (self : TechnologyTree)
  : TechnologyTree :=
  {| technologies := technologies self;
     researched_technologies := researched_technologies self;
     current_research := cur;
     research_progress := progress |}.

Definition set_researched (s : gset string) (self : TechnologyTree) : TechnologyTree :=
  {| technologies := technologies self;
     researched_technologies := s;
     current_research := current_research self;
     research_progress := research_progress self |}.

(** Truth value of an [Optional[str]]: [None] and the empty string are false. *)
Definition truthy (o : option string) : bool :=
  match o with
  | Some s => negb (String.eqb s "")
  | None => false
  end.

Definition TechnologyTree__update_availability (self : TechnologyTree) : TechnologyTree :=
  set_technologies
    ((fun tech =>
        if negb (is_researched tech)
        then set_is_available
               (bool_decide (prerequisites tech ⊆ researched_technologies self)) tech
        else tech) <$> technologies self)
    self.

(** [TechnologyTree()]: [file] is the content of the technologies file, empty
    when the file cannot be read. *)
Definition TechnologyTree_init (file : gmap string TechData) : TechnologyTree :=
  TechnologyTree__update_availability
    {| technologies := map_imap (fun id data => Some (Technology_init id data)) file;
       researched_technologies := ∅;
       current_research := None;
       research_progress := 0.0 |}.

(** [self.technologies[id].research_progress = q] *)
Definition assign_progress (id : string) (q : Q) : M TechnologyTree unit :=
  fun self =>
    match technologies self !! id with
    | None => (Raise KeyError, self)
    | Some tech =>
        (Ok tt, set_technologies (<[id := set_tech_progress q tech]> (technologies self)) self)
    end.

Definition TechnologyTree_start_research (tech_id_ : string) : M TechnologyTree bool :=
  self <- get ;;
  match technologies self !! tech_id_ with
  | None => ret false
  | Some tech =>
      if negb (is_available tech) || is_researched tech then ret false
      else
        (if truthy (current_research self)
         then assign_progress (default "" (current_research self)) 0.0
         else ret tt) ;;;
        modify (set_current (Some tech_id_) 0.0) ;;;
        assign_progress tech_id_ 0.0 ;;;
        ret true
  end.

Definition TechnologyTree_complete_research (tech_id_ : string) : M TechnologyTree unit :=
  self <- get ;;
  match technologies self !! tech_id_ with
  | None => ret tt
  | Some tech =>
      modify (set_technologies
        (<[tech_id_ := tech_with tech true (is_available tech) 100.0]> (technologies self))) ;;;
      modify (fun s => set_researched ({[tech_id_]} ∪ researched_technologies s) s) ;;;
      modify (fun s =>
        if bool_decide (current_research s = Some tech_id_)
        then set_current None 0.0 s else s) ;;;
      modify TechnologyTree__update_availability
  end.

(** The progress and the test against 100 are on exact numbers;
    [Double.research_step] is the same arithmetic on doubles. *)
Definition TechnologyTree_update_research (science_points delta_time : Q)
  : M TechnologyTree unit :=
  self <- get ;;
  if negb (truthy (current_research self)) then ret tt
  else
    let current := default "" (current_research self) in
    match technologies self !! current with
    | None => raise KeyError
    | Some tech =>
        let science_cost := dict_get_default (cost tech) "science" 100 in
        if Qeq_bool science_cost 0 then raise ZeroDivisionError
        else
          let progress_per_second := science_points / science_cost * 100 in
          let progress_increase := progress_per_second * delta_time in
          let progress := tech_research_progress tech + progress_increase in
          modify (set_technologies
            (<[current := set_tech_progress progress tech]> (technologies self))) ;;;
          modify (set_current (current_research self) progress) ;;;
          if Qgeb progress 100.0
          then TechnologyTree_complete_research current
          else ret tt
    end.

Definition TechnologyTree_get_researched_technologies (self : TechnologyTree)
  : list Technology :=
  filter (fun tech => is_researched tech = true)
         (snd <$> map_to_list (technologies self)).

Definition TechnologyTree_get_unlocked_buildings (self : TechnologyTree) : list string :=
  remove_dups (concat (unlocks <$> TechnologyTree_get_researched_technologies self)).

Definition TechnologyTree_is_building_unlocked (self : TechnologyTree)
    (building_type : string) : bool :=
  bool_decide (building_type ∈ TechnologyTree_get_unlocked_buildings self).

(** The snapshot dict of [TechnologyTree.to_dict]; [from_dict] reads every key
    with a default. *)
Record TechnologyDict := {
  tdict_researched_technologies : option (list string);
  tdict_current_research : option string;
  tdict_research_progress : option Q;
  tdict_technology_progress : option (gmap string Q) }.

Definition TechnologyTree_to_dict (self : TechnologyTree) : TechnologyDict :=
  {| tdict_researched_technologies := Some (elements (researched_technologies self));
     tdict_current_research := current_research self;
     tdict_research_progress := Some (research_progress self);
     tdict_technology_progress :=
       Some (tech_research_progress <$> technologies self) |}.

(** [if id in techs: techs[id] = f(techs[id])] *)
Definition update_if_present (f : Technology -> Technology) (id : string)
    (techs : gmap string Technology) : gmap string Technology :=
  match techs !! id with
  | Some tech => <[id := f tech]> techs
  | None => techs
  end.

Definition TechnologyTree_from_dict (data : TechnologyDict) (file : gmap string TechData)
  : TechnologyTree :=
  let tree := TechnologyTree_init file in
  let researched : gset string :=
    list_to_set (default [] (tdict_researched_technologies data)) in
  let techs1 :=
    set_fold (update_if_present (set_is_researched true)) (technologies tree) researched in
  let tech_progress := default ∅ (tdict_technology_progress data) in
  let techs2 :=
    map_fold (fun id progress => update_if_present (set_tech_progress progress) id)
             techs1 tech_progress in
  TechnologyTree__update_availability
    {| technologies := techs2;
       researched_technologies := researched;
       current_research := tdict_current_research data;
       research_progress := default 0.0 (tdict_research_progress data) |}.

(* ================================================================== *)
(** ** core/game_engine.py: build_structure *)

(** The engine state [build_structure] reads and writes, with [game_stats]
    as the constructor builds it: [buildings_built] is
    [game_stats['buildings_built']], a key the constructor sets. The engine
    whose [game_stats] need not have the key, as after [load_game] of a
    snapshot without stats, is [Stats.GameEngine] below. *)
Record GameEngine := {
  current_planet : option Planet;
  engine_resource_manager : ResourceManager;
  technology_tree : TechnologyTree;
  buildings_built : Z }.

Definition building_costs : gmap string (gmap string Q) :=
  {[ "solar_panel" := {[ "credits" := 100; "energy" := 10 ]};
     "heater" := {[ "credits" := 150; "energy" := 20 ]};
     "cooler" := {[ "credits" := 150; "energy" := 20 ]};
     "atmosphere_processor" := {[ "credits" := 300; "energy" := 50 ]};
     "oxygen_generator" := {[ "credits" := 200; "energy" := 30 ]};
     "greenhouse" := {[ "credits" := 250; "energy" := 25 ]};
     "research_lab" := {[ "credits" := 400; "energy" := 40 ]};
     "mining_facility" := {[ "credits" := 350; "energy" := 35 ]} ]}.

Definition GameEngine_build_structure (self : GameEngine) (building_type : string)
    (count : Z) : bool * GameEngine :=
  match current_planet self with
  | None => (false, self)
  | Some planet_ =>
      if negb (TechnologyTree_is_building_unlocked (technology_tree self) building_type)
      then (false, self)
      else
        match building_costs !! building_type with
        | None => (false, self)
        | Some base_cost =>
            let total_cost := (fun c => c * inject_Z count) <$> base_cost in
            let spent :=
              ResourceManager_spend_resources (engine_resource_manager self) total_cost in
            if negb spent.1 then (false, self)
            else
              (true,
               {| current_planet := Some (Planet_add_building planet_ building_type count);
                  engine_resource_manager := spent.2;
                  technology_tree := technology_tree self;
                  buildings_built := (buildings_built self + count)%Z |})
        end
  end.

(** The engine with [game_stats] as a dict. [load_game] assigns
    [save_data.get('stats', {})], so the dict may lack any key; the counter
    is bumped last, after the resources are spent and the building is added,
    and a missing key raises there. The result is the returned flag or the
    exception, with the engine as the call leaves it. *)
Module Stats.

Record GameEngine := {
  current_planet : option Planet;
  resource_manager : ResourceManager;
  technology_tree : TechnologyTree;
  game_stats : gmap string Q }.

Definition GameEngine_build_structure (self : GameEngine) (building_type : string)
    (count : Z) : Res bool * GameEngine :=
  match current_planet self with
  | None => (Ok false, self)
  | Some planet_ =>
      if negb (TechnologyTree_is_building_unlocked (technology_tree self) building_type)
      then (Ok false, self)
      else
        match building_costs !! building_type with
        | None => (Ok false, self)
        | Some base_cost =>
            let total_cost := (fun c => c * inject_Z count) <$> base_cost in
            let spent :=
              ResourceManager_spend_resources (resource_manager self) total_cost in
            if negb spent.1 then (Ok false, self)
            else
              let built :=
                {| current_planet := Some (Planet_add_building planet_ building_type count);
                   resource_manager := spent.2;
                   technology_tree := technology_tree self;
                   game_stats := game_stats self |} in
              match game_stats self !! "buildings_built" with
              | None => (Raise KeyError, built)
              | Some n =>
                  (Ok true,
                   {| current_planet := current_planet built;
                      resource_manager := resource_manager built;
                      technology_tree := technology_tree built;
                      game_stats :=
                        <["buildings_built" := n + inject_Z count]> (game_stats self) |})
              end
        end
  end.

End Stats.

(** The engine of [build_structure] above seen with its stats dict, which
    holds the counter. *)
Definition with_counter (g : GameEngine) : Stats.GameEngine :=
  {| Stats.current_planet := current_planet g;
     Stats.resource_manager := engine_resource_manager g;
     Stats.technology_tree := technology_tree g;
     Stats.game_stats := {[ "buildings_built" := inject_Z (buildings_built g) ]} |}.

(* ================================================================== *)
(** ** The habitability formula of the specification

    Written from the specification's words, with the standard library's
    absolute value, maximum and minimum: each score is
    [max(0, 1 - |current - target| / tolerance)], the scores are combined as
    [0.4*temp + 0.3*pressure + 0.3*oxygen], scaled to 0-100 and clamped. *)



(* ================================================================== *)
(** ** Reachable technology trees

    The trees a game can hold for a given technologies file: the one the
    constructor builds, what the three research methods make of a reachable
    tree (also when they raise), and any tree loaded from a snapshot. *)

Inductive tree_reachable (file : gmap string TechData) : TechnologyTree -> Prop :=
| reach_init :
    tree_reachable file (TechnologyTree_init file)
| reach_start_research (t : TechnologyTree) (id : string) :
    tree_reachable file t ->
    tree_reachable file (TechnologyTree_start_research id t).2
| reach_update_research (t : TechnologyTree) (science_points delta_time : Q) :
    tree_reachable file t ->
    tree_reachable file (TechnologyTree_update_research science_points delta_time t).2
| reach_complete_research (t : TechnologyTree) (id : string) :
    tree_reachable file t ->
    tree_reachable file (TechnologyTree_complete_research id t).2
| reach_from_dict (data : TechnologyDict) :
    tree_reachable file (TechnologyTree_from_dict data file).

(* ================================================================== *)
(** ** Running an event over several ticks *)

(** [apply_effects] called [n] times in a row on one event, with the resource
    manager as [EventManager.update] passes it. *)
Fixpoint apply_effects_times (n : nat) (self : ActiveEvent) : M World ActiveEvent :=
  match n with
  | O => ret self
  | S n' =>
      self' <- ActiveEvent_apply_effects self ResourceManagerObj ;;
      apply_effects_times n' self'
  end.

(** [is_expired] when the wall clock reads [now]. *)
Definition expired_at (now : Q) (self : ActiveEvent) : bool :=
  if Qeq_bool (ae_duration self) 0 then effects_applied self
  else Qgeb (now - ae_start_time self) (ae_duration self).

(** What one pass of [apply_effects] over [events] adds to a base value: for
    each timed event, its modifier [key] times 0.001. *)
Fixpoint continuous_drift (key : string) (events : list ActiveEvent) : Q :=
  match events with
  | [] => 0
  | event :: rest =>
      (if Qltb 0 (ae_duration event)
       then dict_get_default (ge_effects (ae_event event)) key 0 * 0.001
       else 0)
      + continuous_drift key rest
  end.

(** The wall clock reads [now] at every call. *)
Definition frozen (now : Q) (w : World) : Prop :=
  forall n, time_time w n = now.

(** The four history buffers have one length, as [__init__] and [update]
    keep them. *)
Definition history_consistent (p : Planet) : Prop :=
  length (h_pressure (history p)) = length (h_temperature (history p)) /\
  length (h_oxygen (history p)) = length (h_temperature (history p)) /\
  length (h_habitability (history p)) = length (h_temperature (history p)).

(** The templates dict as [load_events] builds it: one entry per id, each
    template carrying the id it is stored under. *)
Definition templates_wf (self : EventManager) : Prop :=
  NoDup (odict_keys (event_templates self)) /\
  Forall (fun item => ge_id item.2 = item.1) (event_templates self).

(* ================================================================== *)
(** ** core/resources.py: update and production *)

Definition set_rm_history (h : ResourceHistory) (rm : ResourceManager) : ResourceManager :=
  {| credits := credits rm; energy := energy rm; science := science rm;
     credits_per_second := credits_per_second rm;
     energy_per_second := energy_per_second rm;
     science_per_second := science_per_second rm;
     energy_consumption := energy_consumption rm;
     max_energy := max_energy rm;
     max_science := max_science rm;
     rm_history := h |}.

Definition set_rates (cps eps sps ec : Q) (rm : ResourceManager) : ResourceManager :=
  {| credits := credits rm; energy := energy rm; science := science rm;
     credits_per_second := cps;
     energy_per_second := eps;
     science_per_second := sps;
     energy_consumption := ec;
     max_energy := max_energy rm;
     max_science := max_science rm;
     rm_history := rm_history rm |}.

Definition with_h_credits (l : list Q) (h : ResourceHistory) : ResourceHistory :=
  {| h_credits := l; h_energy := h_energy h; h_science := h_science h |}.
Definition with_h_energy (l : list Q) (h : ResourceHistory) : ResourceHistory :=
  {| h_credits := h_credits h; h_energy := l; h_science := h_science h |}.
Definition with_h_science (l : list Q) (h : ResourceHistory) : ResourceHistory :=
  {| h_credits := h_credits h; h_energy := h_energy h; h_science := l |}.

(** [self.history[key].pop(0)] on the manager; an empty list raises. *)
Definition rm_history_pop0 (proj : ResourceHistory -> list Q)
    (upd : list Q -> ResourceHistory -> ResourceHistory) : M ResourceManager unit :=
  fun self => match proj (rm_history self) with
              | [] => (Raise IndexError, self)
              | _ :: rest => (Ok tt, set_rm_history (upd rest (rm_history self)) self)
              end.

(** [self.history[key].append(x)] on the manager. *)
Definition rm_history_append (proj : ResourceHistory -> list Q)
    (upd : list Q -> ResourceHistory -> ResourceHistory) (x : ResourceManager -> Q)
  : M ResourceManager unit :=
  modify (fun self =>
    set_rm_history (upd (proj (rm_history self) ++ [x self]) (rm_history self)) self).

Definition ResourceManager_update (delta_time : Q) : M ResourceManager unit :=
  modify (fun self =>
    let credits_change := credits_per_second self * delta_time in
    let energy_change := (energy_per_second self - energy_consumption self) * delta_time in
    let science_change := science_per_second self * delta_time in
    set_stocks (credits self + credits_change)
               (energy self + energy_change)
               (science self + science_change) self) ;;;
  modify (fun self =>
    set_stocks (py_max 0 (credits self))
               (py_max 0 (py_min (max_energy self) (energy self)))
               (py_max 0 (py_min (max_science self) (science self))) self) ;;;
  self <- get ;;
  (if (100 <=? length (h_credits (rm_history self)))%nat then
     rm_history_pop0 h_credits with_h_credits ;;;
     rm_history_pop0 h_energy with_h_energy ;;;
     rm_history_pop0 h_science with_h_science
   else ret tt) ;;;
  rm_history_append h_credits with_h_credits credits ;;;
  rm_history_append h_energy with_h_energy energy ;;;
  rm_history_append h_science with_h_science science.

Definition ResourceManager_building_effects : gmap string (gmap string Q) :=
  {[ "solar_panel" := {[ "energy_production" := 5.0; "credits_production" := 0.5 ]};
     "research_lab" := {[ "science_production" := 2.0; "energy_consumption" := 3.0 ]};
     "mining_facility" := {[ "credits_production" := 3.0; "energy_consumption" := 2.0 ]};
     "heater" := {[ "energy_consumption" := 4.0 ]};
     "cooler" := {[ "energy_consumption" := 4.0 ]};
     "atmosphere_processor" :=
       {[ "energy_consumption" := 6.0; "credits_production" := 1.0 ]};
     "oxygen_generator" := {[ "energy_consumption" := 5.0 ]};
     "greenhouse" := {[ "energy_consumption" := 2.0; "science_production" := 1.0 ]} ]}.

(** One turn of the loop over [buildings.items()]; the accumulator holds
    credits, energy and science production and energy consumption. *)
Definition production_step (acc : Q * Q * Q * Q) (item : string * Z) : Q * Q * Q * Q :=
  let '(cps, eps, sps, ec) := acc in
  let '(building_type, count) := item in
  match ResourceManager_building_effects !! building_type with
  | Some effects =>
      (cps + dict_get_default effects "credits_production" 0 * inject_Z count,
       eps + dict_get_default effects "energy_production" 0 * inject_Z count,
       sps + dict_get_default effects "science_production" 0 * inject_Z count,
       ec + dict_get_default effects "energy_consumption" 0 * inject_Z count)
  | None => acc
  end.

Definition ResourceManager_calculate_production (self : ResourceManager)
    (planet_ : Planet) (buildings_ : odict Z) : ResourceManager :=
  let '(cps, eps, sps, ec) :=
    fold_left production_step buildings_ (0.0 + 1.0, 0.0, 0.0, 0.0) in
  let habitability := Planet_calculate_habitability planet_ in
  let habitability_bonus := habitability / 100.0 in
  set_rates (cps * (1.0 + habitability_bonus * 0.5)) eps
            (sps * (1.0 + habitability_bonus * 0.3)) ec self.

(** The three entries of the dict that [get_net_production] returns. *)
Definition ResourceManager_get_net_production (self : ResourceManager) : Q * Q * Q :=
  (credits_per_second self,
   energy_per_second self - energy_consumption self,
   science_per_second self).

(* ================================================================== *)
(** ** core/events.py: remaining time *)

Definition ActiveEvent_get_remaining_time (self : ActiveEvent) : M World Q :=
  if Qeq_bool (ae_duration self) 0 then ret 0.0
  else
    now <- py_time ;;
    let remaining := ae_duration self - (now - ae_start_time self) in
    ret (py_max 0.0 remaining).

(** [force_event] hands over to [trigger_event]. *)
Definition EventManager_force_event (self : EventManager) (event_id : string)
  : M World bool :=
  EventManager_trigger_event self event_id.

(* ================================================================== *)
(** ** core/game_engine.py: the simulation tick

    The engine as [update_simulation] sees it. The planet, when there is one,
    and the resource manager are those of [tick_world]; the signals the
    method emits at its end are left out. *)

Record Simulation := {
  is_running : bool;
  is_paused : bool;
  simulation_speed : Q;
  game_time : Q;
  last_update_time : Q;
  has_planet : bool;
  tick_world : World;
  tick_tree : TechnologyTree;
  tick_events : EventManager }.

Definition set_simulation_speed_field (speed : Q) (s : Simulation) : Simulation :=
  {| is_running := is_running s; is_paused := is_paused s;
     simulation_speed := speed; game_time := game_time s;
     last_update_time := last_update_time s; has_planet := has_planet s;
     tick_world := tick_world s; tick_tree := tick_tree s;
     tick_events := tick_events s |}.

Definition GameEngine_set_simulation_speed (self : Simulation) (speed : Q) : Simulation :=
  set_simulation_speed_field (py_max 0.1 (py_min 5.0 speed)) self.

Definition GameEngine_pause_simulation (self : Simulation) : Simulation :=
  {| is_running := is_running self; is_paused := negb (is_paused self);
     simulation_speed := simulation_speed self; game_time := game_time self;
     last_update_time := last_update_time self; has_planet := has_planet self;
     tick_world := tick_world self; tick_tree := tick_tree self;
     tick_events := tick_events self |}.

(** Runs a computation on one component of the simulation. *)
Definition in_world {A} (m : M World A) : M Simulation A :=
  fun s => let r := m (tick_world s) in
           (r.1, {| is_running := is_running s; is_paused := is_paused s;
                    simulation_speed := simulation_speed s; game_time := game_time s;
                    last_update_time := last_update_time s; has_planet := has_planet s;
                    tick_world := r.2; tick_tree := tick_tree s;
                    tick_events := tick_events s |}).

Definition in_resource_manager {A} (m : M ResourceManager A) : M World A :=
  fun w => let r := m (resource_manager w) in
           (r.1, on_resource_manager (fun _ => r.2) w).

Definition in_tree {A} (m : M TechnologyTree A) : M Simulation A :=
  fun s => let r := m (tick_tree s) in
           (r.1, {| is_running := is_running s; is_paused := is_paused s;
                    simulation_speed := simulation_speed s; game_time := game_time s;
                    last_update_time := last_update_time s; has_planet := has_planet s;
                    tick_world := tick_world s; tick_tree := r.2;
                    tick_events := tick_events s |}).

Definition set_tick_events (em : EventManager) (s : Simulation) : Simulation :=
  {| is_running := is_running s; is_paused := is_paused s;
     simulation_speed := simulation_speed s; game_time := game_time s;
     last_update_time := last_update_time s; has_planet := has_planet s;
     tick_world := tick_world s; tick_tree := tick_tree s;
     tick_events := em |}.

Definition set_clock_fields (last game : Q) (s : Simulation) : Simulation :=
  {| is_running := is_running s; is_paused := is_paused s;
     simulation_speed := simulation_speed s; game_time := game;
     last_update_time := last; has_planet := has_planet s;
     tick_world := tick_world s; tick_tree := tick_tree s;
     tick_events := tick_events s |}.

Definition GameEngine_update_simulation : M Simulation unit :=
  self <- get ;;
  if negb (is_running self) || is_paused self || negb (has_planet self) then ret tt
  else
    current_time <- in_world py_time ;;
    let delta_time := (current_time - last_update_time self) * simulation_speed self in
    modify (set_clock_fields current_time (game_time self + delta_time)) ;;;
    in_world (modify (fun w =>
      on_resource_manager (fun rm =>
        ResourceManager_calculate_production rm (planet w) (buildings (planet w))) w)) ;;;
    in_world (Planet_update delta_time) ;;;
    in_world (in_resource_manager (ResourceManager_update delta_time)) ;;;
    s1 <- get ;;
    in_tree (TechnologyTree_update_research
               (science_per_second (resource_manager (tick_world s1))) delta_time) ;;;
    s2 <- get ;;
    em <- in_world (EventManager_update (tick_events s2) delta_time) ;;
    modify (set_tick_events em).

(* ================================================================== *)
(** ** Well-formed states *)

(** The buildings dict as the planet keeps it: one entry per type, every
    count above zero. *)
Definition buildings_wf (d : odict Z) : Prop :=
  NoDup (odict_keys d) /\ Forall (fun item => (0 < item.2)%Z) d.

(** The effect of one building of a type on an atmospheric value, from the
    table of [_update_modifiers]; 0 for a type the table lacks. *)
Definition building_effect (key building_type : string) : Q :=
  match Planet_building_effects !! building_type with
  | Some effects => dict_get_default effects key 0
  | None => 0
  end.

(** The tree as the research methods keep it: the current research names a
    technology of the table; a technology is flagged researched exactly when
    its id is in the researched set; and an unresearched technology is
    available exactly when its prerequisites are all researched. *)
Definition tree_consistent (t : TechnologyTree) : Prop :=
  (forall id, current_research t = Some id -> is_Some (technologies t !! id)) /\
  (forall id tech, technologies t !! id = Some tech ->
     (is_researched tech = true <-> id ∈ researched_technologies t)) /\
  (forall id tech, technologies t !! id = Some tech ->
     is_researched tech = false ->
     is_available tech = bool_decide (prerequisites tech ⊆ researched_technologies t)).

(** The three history buffers of the manager have one length, at most 100
    after the next append. *)
Definition rm_history_ok (rm : ResourceManager) : Prop :=
  length (h_energy (rm_history rm)) = length (h_credits (rm_history rm)) /\
  length (h_science (rm_history rm)) = length (h_credits (rm_history rm)) /\
  (length (h_credits (rm_history rm)) <= 100)%nat.

(** The production or consumption of one building of a type, from the table
    of [calculate_production]; 0 for a type the table lacks. *)
Definition production_effect (key building_type : string) : Q :=
  match ResourceManager_building_effects !! building_type with
  | Some effects => dict_get_default effects key 0
  | None => 0
  end.

(** The sum over the buildings of [per_building type * count]. *)
Fixpoint effect_sum (per_building : string -> Q) (d : odict Z) : Q :=
  match d with
  | [] => 0
  | (building_type, count) :: rest =>
      per_building building_type * inject_Z count + effect_sum per_building rest
  end.

(** The three stocks lie within their bounds. *)
Definition stocks_in_bounds (rm : ResourceManager) : Prop :=
  0 <= credits rm /\
  0 <= energy rm <= max_energy rm /\
  0 <= science rm <= max_science rm.

(** The history buffers of the planet have one length, of at most 100. *)
Definition history_ok (p : Planet) : Prop :=
  history_consistent p /\ (length (h_temperature (history p)) <= 100)%nat.

(** The newest sample of each history buffer is the current value. *)
Definition history_current (p : Planet) : Prop :=
  last (h_temperature (history p)) = Some (temperature p) /\
  last (h_pressure (history p)) = Some (pressure p) /\
  last (h_oxygen (history p)) = Some (oxygen p) /\
  last (h_habitability (history p)) = Some (Planet_calculate_habitability p).

(** What the event code never writes: the derived atmosphere and the
    history. *)
Definition records_view (w : World) : Q * Q * Q * PlanetHistory :=
  (temperature (planet w), pressure (planet w), oxygen (planet w), history (planet w)).

(* ================================================================== *)
(** ** Vocabulary of the statements *)

(** The computation returns normally from every state. *)
Definition never_raises {S A} (m : M S A) : Prop :=
  forall s, exists a, (m s).1 = Ok a.

(** The event [ev'] is the event [ev] after a call that may have set its
    flag. *)
Definition same_event (ev ev' : ActiveEvent) : Prop :=
  ae_event ev' = ae_event ev /\ ae_start_time ev' = ae_start_time ev /\
  ae_duration ev' = ae_duration ev.

(** The computation [m] leaves the observation [obs] of the world as it
    found it, whether it returns or raises. *)
Definition stable {A B} (obs : World -> B) (m : M World A) : Prop :=
  forall w, obs (m w).2 = obs w.

(** The derived atmospheric values of the planet. *)
Definition atmosphere (w : World) : Q * Q * Q :=
  (temperature (planet w), pressure (planet w), oxygen (planet w)).

(** The documented bounds of the atmosphere. *)
Definition in_bounds (p : Planet) : Prop :=
  MIN_TEMPERATURE <= temperature p <= MAX_TEMPERATURE /\
  MIN_PRESSURE <= pressure p <= MAX_PRESSURE /\
  MIN_OXYGEN <= oxygen p <= MAX_OXYGEN.

(** The score of one axis, as [calculate_habitability] computes it. *)
Definition axis_score (x target tol : Q) : Q :=
  py_max 0 (1 - py_abs (x - target) / tol).

(** A cost of the table: credits and energy above zero, no science. *)
Definition cost_is_positive (c : gmap string Q) : bool :=
  Qltb 0 (dict_get_default c "credits" 0)
  && Qltb 0 (dict_get_default c "energy" 0)
  && bool_decide (c !! "science" = None).

(** The stocks and the buildings, which are what one-shot effects act on. *)
Definition one_shot_view (w : World) : ResourceManager * odict Z :=
  (resource_manager w, buildings (planet w)).

(** The objects a clock read leaves alone. *)
Definition same_objects (w w' : World) : Prop :=
  planet w' = planet w /\ resource_manager w' = resource_manager w /\
  time_time w' = time_time w.

(** What the continuous block adds to the base values. *)
Definition drifted (self : ActiveEvent) (p : Planet) : Planet :=
  let effects := ge_effects (ae_event self) in
  set_base
    (base_temperature p + dict_get_default effects "temperature_modifier" 0 * 0.001)
    (base_pressure p + dict_get_default effects "pressure_modifier" 0 * 0.001)
    (base_oxygen p + dict_get_default effects "oxygen_modifier" 0 * 0.001) p.

(** What the requirement check reads of a planet. *)
Definition requirement_view (p : Planet) : string * Q * Q * Q * odict Z :=
  (name p, temperature p, pressure p, oxygen p, buildings p).

(** The three guards of the loop body of [_check_for_new_events] as the code
    evaluates them, all let through. *)
Definition guards_pass (t : GameEvent) (r : Q) (p : Planet) (rm : ResourceManager)
  : Prop :=
  r <= ge_probability t /\
  EventManager__check_event_requirements t p rm = true /\
  already_active (ge_id t) p = false.

(** The number of buildings of all types together. *)
Definition count_sum (d : odict Z) : Z :=
  foldr (fun item acc => (item.2 + acc)%Z) 0%Z d.

(** The number of buildings of one type, 0 when the dict has no entry. *)
Definition building_count (p : Planet) (building_type : string) : Z :=
  match odict_get (buildings p) building_type with
  | Some n => n
  | None => 0%Z
  end.

(** The requirements of a template as the specification words them, one
    predicate per key, each binding only when its key is present: a minimum
    total building count, an allow-list of planet names, a minimum
    habitability, a minimum science stock, a minimum number of research labs
    and of mining facilities, and a minimum pressure. *)
Definition requirements_met (req : Requirements) (p : Planet) (rm : ResourceManager)
  : Prop :=
  (forall v, req_thresholds req !! "min_buildings" = Some v ->
     v <= inject_Z (count_sum (buildings p))) /\
  (forall allowed, req_planets req = Some allowed -> In (name p) allowed) /\
  (forall v, req_thresholds req !! "min_habitability" = Some v ->
     v <= Planet_calculate_habitability p) /\
  (forall v, req_thresholds req !! "min_science" = Some v -> v <= science rm) /\
  (forall v, req_thresholds req !! "min_research_labs" = Some v ->
     v <= inject_Z (building_count p "research_lab")) /\
  (forall v, req_thresholds req !! "min_mining_facilities" = Some v ->
     v <= inject_Z (building_count p "mining_facility")) /\
  (forall v, req_thresholds req !! "min_pressure" = Some v -> v <= pressure p).

(** No active event of the planet is an instance of the template [id]. *)
Definition not_yet_active (id : string) (p : Planet) : Prop :=
  Forall (fun ae => ge_id (ae_event ae) <> id) (active_events p).

(** A template the check triggers by the book: its roll (the draw [r]) is at
    most its probability, every requirement present in its requirements
    mapping is met by the planet and the manager, and no active event of the
    planet carries its id. *)
Definition rightly_triggered (t : GameEvent) (r : Q) (p : Planet) (rm : ResourceManager)
  : Prop :=
  r <= ge_probability t /\
  requirements_met (ge_requirements t) p rm /\
  not_yet_active (ge_id t) p.

(** What of a technology the progress assignments leave alone: everything
    but the progress. *)
Definition tech_static (tech : Technology) : Technology :=
  set_tech_progress 0.0 tech.

(** The two trees hold the same technologies up to their progress. *)
Definition static_equal (t t' : TechnologyTree) : Prop :=
  forall j, tech_static <$> (technologies t' !! j) = tech_static <$> (technologies t !! j).

(** A whole number that a double holds exactly (magnitude at most 2^53):
    on such numbers the sums and differences of the code are exact. *)
Definition whole (x : Q) : Prop :=
  exists z : Z, x == inject_Z z /\ (Z.abs z <= 2 ^ 53)%Z.

(** A buildings dict small enough for the sums of whole-number effects to be
    exact on doubles: at most 1000 types, every count at most 10^9 in
    magnitude. *)
Definition counts_bounded (d : odict Z) : Prop :=
  (length d <= 1000)%nat /\ Forall (fun item => (Z.abs item.2 <= 10 ^ 9)%Z) d.

(** The engine's own fields that a tick reads and never writes. *)
Definition engine_flags (s : Simulation) : bool * bool * Q * bool :=
  (is_running s, is_paused s, simulation_speed s, has_planet s).

(** What of a technology no method writes after the constructor: everything
    but the two flags and the progress. *)
Definition tech_fixed (tech : Technology) : Technology :=
  tech_with tech false false 0.0.

(** The table of a tree built for a technologies file: every technology
    carries the fields the file gives it, is flagged researched exactly when
    its id is in the researched set and, while unresearched, is available
    exactly when its prerequisites are researched. *)
Definition from_file (file : gmap string TechData) (t : TechnologyTree) : Prop :=
  forall id tech, technologies t !! id = Some tech ->
    (exists data, file !! id = Some data /\
                  tech_fixed tech = tech_fixed (Technology_init id data)) /\
    (is_researched tech = true <-> id ∈ researched_technologies t) /\
    (is_researched tech = false ->
     is_available tech = bool_decide (prerequisites tech ⊆ researched_technologies t)).

(** The technology [a] shows what [b] shows: the same id, name, description,
    icon, cost, prerequisites and unlocks, the same researched flag and
    progress, and the same availability while it is not researched (the
    availability flag of a researched technology is read by nothing). *)
Definition same_technology (a b : Technology) : Prop :=
  tech_id a = tech_id b /\ tech_name a = tech_name b /\
  tech_description a = tech_description b /\ tech_icon a = tech_icon b /\
  cost a = cost b /\ prerequisites a = prerequisites b /\ unlocks a = unlocks b /\
  is_researched a = is_researched b /\
  tech_research_progress a = tech_research_progress b /\
  (is_researched b = false -> is_available a = is_available b).

(** The two tables have the same ids and show the same under each. *)
Definition same_table (t' t : TechnologyTree) : Prop :=
  forall id,
    match technologies t' !! id, technologies t !! id with
    | Some a, Some b => same_technology a b
    | None, None => True
    | _, _ => False
    end.

(* ================================================================== *)
(** ** Sample data

    Small templates and states on which the statements below are run. *)

Definition mars_data : PlanetData :=
  {| pd_description := Some "The red planet";
     pd_image := None;
     pd_initial_temperature := Some (-63);
     pd_initial_pressure := Some 0.2;
     pd_initial_oxygen := Some 0.1;
     pd_mass := Some 0.107;
     pd_distance := Some 1.52;
     pd_day_length := Some 24.6 |}.

Definition mars : Planet := Planet_init "Mars" mars_data.



(** A technology file with one technology whose science cost is 0 and one
    with the [cost] key left out. *)
Definition sample_technologies : gmap string TechData :=
  {[ "basic_energy" :=
       {| td_name := Some "Basic energy"; td_description := None; td_icon := None;
          td_cost := Some {[ "science" := 0 ]};
          td_prerequisites := None;
          td_unlocks := Some ["solar_panel"; "heater"] |};
     "botany" :=
       {| td_name := Some "Botany"; td_description := None; td_icon := None;
          td_cost := None;
          td_prerequisites := Some ["basic_energy"];
          td_unlocks := Some ["greenhouse"] |} ]}.

Definition fresh_tree : TechnologyTree := TechnologyTree_init sample_technologies.

(** The tree once [basic_energy] has been researched. *)
Definition tree_with_energy : TechnologyTree :=
  (TechnologyTree_complete_research "basic_energy" fresh_tree).2.

(** The tree with [basic_energy] researched and [botany] half done: 50
    seconds at 1 science per second against the default cost of 100. *)
Definition tree_in_research : TechnologyTree :=
  (TechnologyTree_update_research 1 50
     (TechnologyTree_start_research "botany" tree_with_energy).2).2.

Definition full_energy_manager : ResourceManager :=
  set_stocks 1000 1000 0 ResourceManager_init.

Definition sample_engine : GameEngine :=
  {| current_planet := Some mars;
     engine_resource_manager := full_energy_manager;
     technology_tree := tree_with_energy;
     buildings_built := 0 |}.

(** The sample engine after [load_game] of a snapshot without stats. *)
Definition loaded_engine : Stats.GameEngine :=
  {| Stats.current_planet := current_planet sample_engine;
     Stats.resource_manager := engine_resource_manager sample_engine;
     Stats.technology_tree := technology_tree sample_engine;
     Stats.game_stats := ∅ |}.

Definition sample_world (p : Planet) : World :=
  {| planet := p; resource_manager := ResourceManager_init;
     time_time := fun _ => 1000; clock_reads := 0;
     random_random := fun _ => 0.5; random_draws := 0 |}.

Definition no_requirements : Requirements :=
  {| req_thresholds := ∅; req_planets := None |}.

(** A timed event that warms the planet, running since 990 for 100 seconds,
    its one-shot effects already applied. *)
Definition heat_wave : GameEvent :=
  {| ge_id := "heat_wave"; ge_name := "Heat wave"; ge_description := "";
     ge_type := "negative"; ge_probability := 0.05; ge_duration := 100;
     ge_effects := {[ "temperature_modifier" := 10 ]};
     ge_requirements := no_requirements |}.

Definition running_heat_wave : ActiveEvent :=
  {| ae_event := heat_wave; ae_start_time := 990; ae_duration := 100;
     effects_applied := true |}.

Definition mars_in_heat_wave : World :=
  sample_world (set_active_events [running_heat_wave] mars).

(** An instantaneous event that grants 50 credits, just triggered. *)
Definition windfall : GameEvent :=
  {| ge_id := "windfall"; ge_name := "Windfall"; ge_description := "";
     ge_type := "positive"; ge_probability := 0.1; ge_duration := 0;
     ge_effects := {[ "credits_bonus" := 50 ]};
     ge_requirements := no_requirements |}.

Definition fresh_windfall : ActiveEvent :=
  {| ae_event := windfall; ae_start_time := 1000; ae_duration := 0;
     effects_applied := false |}.

(** A dust storm that needs an atmosphere of at least 0.5 atm, and a solar
    flare that needs nothing; both always pass their roll. *)
Definition dust_storm : GameEvent :=
  {| ge_id := "dust_storm"; ge_name := "Dust storm"; ge_description := "";
     ge_type := "negative"; ge_probability := 1; ge_duration := 60;
     ge_effects := {[ "temperature_modifier" := -5 ]};
     ge_requirements :=
       {| req_thresholds := {[ "min_pressure" := 0.5 ]}; req_planets := None |} |}.

Definition solar_flare : GameEvent :=
  {| ge_id := "solar_flare"; ge_name := "Solar flare"; ge_description := "";
     ge_type := "mixed"; ge_probability := 1; ge_duration := 30;
     ge_effects := {[ "energy_bonus" := 20 ]};
     ge_requirements := no_requirements |}.

Definition sample_manager : EventManager :=
  {| event_templates := [("dust_storm", dust_storm); ("solar_flare", solar_flare)];
     last_event_check := 0; event_check_interval := 60.0 |}.

(* ================================================================== *)
(** * Properties *)

Lemma Qltb_lt (a b : Q) : Qltb a b = true <-> a < b.
Proof.
  unfold Qltb. rewrite negb_true_iff. split; intros H.
  - apply Qnot_le_lt. intros Hle. apply Qle_bool_iff in Hle. congruence.
  - destruct (Qle_bool b a) eqn:E; [|reflexivity].
    apply Qle_bool_iff in E. lra.
Qed.

Lemma Qltb_ge (a b : Q) : Qltb a b = false <-> b <= a.
Proof.
  unfold Qltb. rewrite negb_false_iff. apply Qle_bool_iff.
Qed.

Lemma Qgeb_le (a b : Q) : Qgeb a b = true <-> b <= a.
Proof. apply Qle_bool_iff. Qed.

(** *** spend_resources *)

Lemma can_afford_spec (rm : ResourceManager) (cost : gmap string Q) :
  ResourceManager_can_afford rm cost = true <->
  dict_get_default cost "credits" 0 <= credits rm /\
  dict_get_default cost "energy" 0 <= energy rm /\
  dict_get_default cost "science" 0 <= science rm.
Proof.
  unfold ResourceManager_can_afford. cbv zeta.
  rewrite !andb_true_iff, !Qgeb_le. tauto.
Qed.

(** C3. [spend_resources] is atomic. When every required amount (a missing
    entry counting as 0) is at most the stock, the call returns true and each
    of credits, energy and science is the old stock minus the named amount;
    when that is not so it returns false. Whenever it returns false the three
    stocks, and indeed the whole manager, are the ones before the call. The
    function is total: no cost mapping makes it raise. *)
Theorem spend_resources_atomic (rm : ResourceManager) (cost : gmap string Q) :
  let affordable :=
    dict_get_default cost "credits" 0 <= credits rm /\
    dict_get_default cost "energy" 0 <= energy rm /\
    dict_get_default cost "science" 0 <= science rm in
  let r := ResourceManager_spend_resources rm cost in
  (affordable ->
     r.1 = true /\
     credits r.2 = credits rm - dict_get_default cost "credits" 0 /\
     energy r.2 = energy rm - dict_get_default cost "energy" 0 /\
     science r.2 = science rm - dict_get_default cost "science" 0) /\
  (~ affordable -> r.1 = false) /\
  (r.1 = false ->
     r.2 = rm /\ credits r.2 = credits rm /\ energy r.2 = energy rm /\
     science r.2 = science rm).
Proof.
  cbv zeta. unfold ResourceManager_spend_resources.
  destruct (ResourceManager_can_afford rm cost) eqn:E; simpl.
  - apply can_afford_spec in E. split; [|split].
    + intros _. repeat split; reflexivity.
    + intros Hn. tauto.
    + discriminate.
  - split; [|split].
    + intros Haff. apply can_afford_spec in Haff. congruence.
    + reflexivity.
    + intros _. repeat split; reflexivity.
Qed.

(** *** Clamping *)

Lemma py_max_cases (a b : Q) :
  (a < b /\ py_max a b = b) \/ (b <= a /\ py_max a b = a).
Proof.
  unfold py_max. destruct (Qltb a b) eqn:E.
  - left. apply Qltb_lt in E. auto.
  - right. apply Qltb_ge in E. auto.
Qed.

Lemma py_min_cases (a b : Q) :
  (b < a /\ py_min a b = b) \/ (a <= b /\ py_min a b = a).
Proof.
  unfold py_min. destruct (Qltb b a) eqn:E.
  - left. apply Qltb_lt in E. auto.
  - right. apply Qltb_ge in E. auto.
Qed.

Lemma py_abs_cases (x : Q) :
  (x < 0 /\ py_abs x = - x) \/ (0 <= x /\ py_abs x = x).
Proof.
  unfold py_abs. destruct (Qltb x 0) eqn:E.
  - left. apply Qltb_lt in E. auto.
  - right. apply Qltb_ge in E. auto.
Qed.

Lemma clamp_bounds (lo hi x : Q) :
  lo <= hi -> lo <= py_max lo (py_min hi x) <= hi.
Proof.
  intros Hlh.
  destruct (py_min_cases hi x) as [[H1 ->]|[H1 ->]];
    [destruct (py_max_cases lo x) as [[H2 ->]|[H2 ->]]
    |destruct (py_max_cases lo hi) as [[H2 ->]|[H2 ->]]]; lra.
Qed.

Lemma clamp_id (lo hi x : Q) :
  lo <= x <= hi -> py_min hi (py_max lo x) == x.
Proof.
  intros [Hlo Hhi].
  destruct (py_max_cases lo x) as [[H1 ->]|[H1 ->]];
    [destruct (py_min_cases hi x) as [[H2 ->]|[H2 ->]]
    |destruct (py_min_cases hi lo) as [[H2 ->]|[H2 ->]]]; lra.
Qed.

(** *** Observations a computation leaves unchanged *)

Section Stable.
Context {B : Type} (obs : World -> B).

Lemma stable_ret {A} (a : A) : stable obs (ret a).
Proof. intros w. reflexivity. Qed.

Lemma stable_raise {A} (e : PyExn) : stable obs (@raise World A e).
Proof. intros w. reflexivity. Qed.

Lemma stable_get : stable obs get.
Proof. intros w. reflexivity. Qed.

Lemma stable_modify (f : World -> World) :
  (forall w, obs (f w) = obs w) -> stable obs (modify f).
Proof. intros Hf w. apply Hf. Qed.

Lemma stable_bind {A C} (m : M World A) (k : A -> M World C) :
  stable obs m -> (forall a, stable obs (k a)) -> stable obs (bind m k).
Proof.
  intros Hm Hk w. unfold bind. specialize (Hm w).
  destruct (m w) as [[a|e] w1]; simpl in *.
  - rewrite Hk. exact Hm.
  - exact Hm.
Qed.

Lemma stable_for_each {A} (xs : list A) (body : A -> M World unit) :
  (forall x, stable obs (body x)) -> stable obs (for_each xs body).
Proof.
  intros Hb. induction xs as [|x xs IH]; simpl.
  - apply stable_ret.
  - apply stable_bind; auto.
Qed.

Lemma stable_when_key (effects : gmap string Q) (k : string)
    (body : Q -> M World unit) :
  (forall v, stable obs (body v)) -> stable obs (when_key effects k body).
Proof.
  intros Hb. unfold when_key. destruct (effects !! k); auto using stable_ret.
Qed.

(** Reading the clock or drawing a number moves a counter only. *)
Hypothesis obs_time : stable obs py_time.
Hypothesis obs_random : stable obs py_random.

Lemma stable_is_expired (self : ActiveEvent) : stable obs (ActiveEvent_is_expired self).
Proof.
  unfold ActiveEvent_is_expired. destruct (Qeq_bool _ _).
  - apply stable_ret.
  - apply stable_bind; [exact obs_time|]. intros now. apply stable_ret.
Qed.

Lemma stable_unexpired (events : list ActiveEvent) : stable obs (unexpired events).
Proof.
  induction events as [|ev rest IH]; simpl.
  - apply stable_ret.
  - apply stable_bind; [apply stable_is_expired|]. intros expired.
    apply stable_bind; [exact IH|]. intros kept. apply stable_ret.
Qed.
End Stable.

(** *** The atmosphere after an update *)


Lemma atmosphere_update_modifiers (p : Planet) (w : World) :
  atmosphere (on_planet (fun _ => Planet__update_modifiers p) w)
  = (temperature p, pressure p, oxygen p).
Proof.
  unfold atmosphere, Planet__update_modifiers. simpl.
  destruct (fold_left _ _ _) as [[tm pm] om]. reflexivity.
Qed.

Lemma atmosphere_remove_building (bt : string) (n : Z) (w : World) :
  atmosphere (on_planet (fun p => Planet_remove_building p bt n) w) = atmosphere w.
Proof.
  unfold atmosphere, Planet_remove_building, Planet__update_modifiers. simpl.
  destruct (fold_left _ _ _) as [[tm pm] om]. reflexivity.
Qed.

Lemma atmosphere_apply_effects (self : ActiveEvent) (arg : PyObj) :
  stable atmosphere (ActiveEvent_apply_effects self arg).
Proof.
  assert (Ht : stable atmosphere py_time) by (intros w; reflexivity).
  assert (Hr : stable atmosphere py_random) by (intros w; reflexivity).
  assert (Hadd : forall r, stable atmosphere (call_add_resources arg r)).
  { intros r. destruct arg; [apply stable_modify; reflexivity|apply stable_raise]. }
  assert (Hspend : forall r, stable atmosphere (call_spend_resources arg r)).
  { intros r. destruct arg; [apply stable_modify; reflexivity|apply stable_raise]. }
  unfold ActiveEvent_apply_effects. apply stable_bind.
  - destruct (negb _); [|apply stable_ret].
    unfold apply_one_shot_effects.
    repeat (apply stable_bind; [apply stable_when_key; intros v; auto|intros _]).
    + apply stable_bind; [apply stable_get|]. intros w0.
      apply stable_for_each. intros bt.
      apply stable_bind; [exact Hr|]. intros r.
      destruct (Qltb r v); [|apply stable_ret].
      apply stable_modify. intros w. apply atmosphere_remove_building.
    + apply stable_ret.
  - intros self'. apply stable_bind; [|intros _; apply stable_ret].
    unfold apply_continuous_effects. destruct (Qltb 0 _); [|apply stable_ret].
    apply stable_bind; [apply stable_is_expired; assumption|]. intros expired.
    destruct (negb expired); [|apply stable_ret].
    apply stable_modify. reflexivity.
Qed.

Lemma atmosphere_apply_effects_loop (arg : PyObj) (todo done : list ActiveEvent) :
  stable atmosphere (apply_effects_loop arg done todo).
Proof.
  revert done. induction todo as [|ev rest IH]; intros done; simpl.
  - apply stable_ret.
  - apply stable_bind; [apply atmosphere_apply_effects|]. intros ev'.
    apply stable_bind; [apply stable_modify; reflexivity|]. intros _. apply IH.
Qed.

Lemma atmosphere_update_events (dt : Q) : stable atmosphere (Planet__update_events dt).
Proof.
  unfold Planet__update_events.
  apply stable_bind; [apply stable_get|]. intros w0.
  apply stable_bind; [apply stable_unexpired; intros w; reflexivity|]. intros kept.
  apply stable_bind; [apply stable_modify; reflexivity|]. intros _.
  apply atmosphere_apply_effects_loop.
Qed.

Lemma atmosphere_history_pop0 proj upd : stable atmosphere (history_pop0 proj upd).
Proof.
  intros w. unfold history_pop0. destruct (proj _); reflexivity.
Qed.


(** C4. After [Planet.update], from any planet state whatever (so after any
    sequence of [add_building], [remove_building] and event effect
    applications) and whether or not the call raises, the temperature lies in
    [-273.15, 1000], the pressure in [0, 10] and the oxygen in [0, 100]. *)
Theorem update_keeps_atmosphere_in_bounds (w : World) (dt : Q) :
  in_bounds (planet (Planet_update dt w).2).
Proof.
  unfold Planet_update.
  set (rest := (w0 <- get ;; _)).
  unfold bind at 1 2. simpl.
  match goal with |- in_bounds (planet (rest ?x).2) => set (w1 := x) end.
  assert (Hst : stable atmosphere rest).
  { unfold rest.
    apply stable_bind; [apply stable_get|]. intros w0.
    apply stable_bind.
    { destruct (_ <=? _)%nat; [|apply stable_ret].
      repeat (apply stable_bind; [apply atmosphere_history_pop0|intros _]).
      apply atmosphere_history_pop0. }
    intros _.
    repeat (apply stable_bind; [apply stable_modify; reflexivity|intros _]).
    apply atmosphere_update_events. }
  specialize (Hst w1). unfold atmosphere in Hst.
  injection Hst as Ht Hp Ho. unfold in_bounds. rewrite Ht, Hp, Ho.
  unfold w1. simpl.
  repeat split; apply clamp_bounds; reflexivity || (vm_compute; discriminate).
Qed.

(** *** Habitability *)


Lemma calculate_habitability_unfold (p : Planet) :
  Planet_calculate_habitability p =
  py_min 100 (py_max 0
    ((axis_score (temperature p) 15.0 20.0 * 0.4
      + axis_score (pressure p) 1.0 0.3 * 0.3
      + axis_score (oxygen p) 21.0 5.0 * 0.3) * 100)).
Proof. reflexivity. Qed.


Lemma py_abs_nonneg (x : Q) : 0 <= py_abs x.
Proof. destruct (py_abs_cases x) as [[H ->]|[H ->]]; lra. Qed.


Section AxisScore.
Variables (target tol : Q).
Hypothesis tol_pos : 0 < tol.

Lemma div_tol_le (d1 d2 : Q) : d1 <= d2 -> d1 / tol <= d2 / tol.
Proof.
  intros H. unfold Qdiv. apply Qmult_le_compat_r; [exact H|].
  apply Qlt_le_weak, Qinv_lt_0_compat, tol_pos.
Qed.



Lemma axis_score_range (x : Q) : 0 <= axis_score x target tol <= 1.
Proof.
  unfold axis_score.
  pose proof (div_tol_le 0 _ (py_abs_nonneg (x - target))) as H.
  assert (E : 0 / tol == 0) by (field; lra). rewrite E in H.
  destruct (py_max_cases 0 (1 - py_abs (x - target) / tol)) as [[H1 ->]|[H1 ->]]; lra.
Qed.




End AxisScore.

Lemma tol_temperature_pos : 0 < 20.0. Proof. reflexivity. Qed.
Lemma tol_pressure_pos : 0 < 0.3. Proof. reflexivity. Qed.
Lemma tol_oxygen_pos : 0 < 5.0. Proof. reflexivity. Qed.

(** Inside [0, 100] the final clamp changes nothing. *)
Lemma calculate_habitability_weighted (p : Planet) :
  Planet_calculate_habitability p ==
  (axis_score (temperature p) 15.0 20.0 * 0.4
   + axis_score (pressure p) 1.0 0.3 * 0.3
   + axis_score (oxygen p) 21.0 5.0 * 0.3) * 100.
Proof.
  rewrite calculate_habitability_unfold.
  pose proof (axis_score_range 15.0 20.0 tol_temperature_pos (temperature p)).
  pose proof (axis_score_range 1.0 0.3 tol_pressure_pos (pressure p)).
  pose proof (axis_score_range 21.0 5.0 tol_oxygen_pos (oxygen p)).
  apply clamp_id. lra.
Qed.



(** *** update_research and a zero science cost *)

Lemma update_research_no_current (sp dt : Q) (t : TechnologyTree) :
  truthy (current_research t) = false ->
  TechnologyTree_update_research sp dt t = (Ok tt, t).
Proof.
  intros H. unfold TechnologyTree_update_research, bind, get. simpl.
  rewrite H. reflexivity.
Qed.

(** With a current technology in the table, the call raises exactly when the
    science cost, 100 when the key is absent, is zero. *)
Lemma update_research_raises_iff (sp dt : Q) (t : TechnologyTree) (id : string)
    (tech : Technology) :
  current_research t = Some id -> id <> "" ->
  technologies t !! id = Some tech ->
  ((TechnologyTree_update_research sp dt t).1 = Raise ZeroDivisionError <->
   dict_get_default (cost tech) "science" 100 == 0) /\
  (cost tech !! "science" = None ->
   exists u, (TechnologyTree_update_research sp dt t).1 = Ok u).
Proof.
  intros Hcur Hne Htech.
  assert (Htruthy : truthy (current_research t) = true).
  { rewrite Hcur. simpl. apply negb_true_iff, String.eqb_neq. exact Hne. }
  assert (Hcomplete : forall c s,
             exists u, (TechnologyTree_complete_research c s).1 = Ok u).
  { intros c s. unfold TechnologyTree_complete_research, bind, get, modify, ret.
    destruct (technologies s !! c); eexists; reflexivity. }
  set (science_cost := dict_get_default (cost tech) "science" 100).
  assert (Hcase :
    (science_cost == 0 /\
     (TechnologyTree_update_research sp dt t).1 = Raise ZeroDivisionError) \/
    (~ science_cost == 0 /\
     exists u, (TechnologyTree_update_research sp dt t).1 = Ok u)).
  { remember (TechnologyTree_update_research sp dt t) as r eqn:Hr.
    unfold TechnologyTree_update_research in Hr. unfold bind at 1 in Hr.
    unfold get in Hr. rewrite Htruthy, Hcur in Hr. simpl in Hr.
    rewrite Htech in Hr. fold science_cost in Hr.
    destruct (Qeq_bool science_cost 0) eqn:E.
    - left. apply Qeq_bool_iff in E. subst r. split; [exact E|reflexivity].
    - right. split.
      + intros Hz. apply Qeq_bool_iff in Hz. congruence.
      + subst r. unfold bind, modify. simpl.
        match goal with |- context [if ?c then _ else _] => destruct c end;
          [apply Hcomplete|eexists; reflexivity]. }
  split.
  - destruct Hcase as [[Hz Hr]|[Hnz [u Hu]]].
    + tauto.
    + split; [|tauto]. intros Hr. rewrite Hu in Hr. discriminate Hr.
  - intros Habsent.
    destruct Hcase as [[Hz Hr]|[Hnz Hu]]; [|exact Hu].
    unfold science_cost, dict_get_default in Hz. rewrite Habsent in Hz.
    discriminate Hz.
Qed.

(** C1, at its failing input. In the tree loaded from a file whose technology
    [basic_energy] has science cost 0, [start_research] accepts the technology
    and every later [update_research], with a positive or a zero science
    rate, raises [ZeroDivisionError]: the default 100 replaces an absent cost
    only. *)
Theorem update_research_zero_cost_raises :
  let started := TechnologyTree_start_research "basic_energy" fresh_tree in
  started.1 = Ok true /\
  (cost <$> technologies started.2 !! "basic_energy")
    = Some {[ "science" := 0 ]} /\
  (TechnologyTree_update_research 2 1 started.2).1 = Raise ZeroDivisionError /\
  (TechnologyTree_update_research 0 1 started.2).1 = Raise ZeroDivisionError.
Proof. vm_compute. repeat split; reflexivity. Qed.

(** *** Planet snapshots *)

Lemma update_modifiers_fields (p : Planet) :
  let p' := Planet__update_modifiers p in
  name p' = name p /\ buildings p' = buildings p /\
  history p' = history p /\ active_events p' = active_events p /\
  base_temperature p' = base_temperature p /\
  base_pressure p' = base_pressure p /\ base_oxygen p' = base_oxygen p.
Proof.
  unfold Planet__update_modifiers. simpl.
  destruct (fold_left _ _ _) as [[tm pm] om]. simpl. tauto.
Qed.

(** C9. Loading what [Planet.to_dict] saved sets the three base values from
    the planet template's initial values (0.0 when the template lacks one),
    whatever base values the snapshot stores, and leaves [active_events]
    empty: the drift that continuous event effects added to the base values
    before the save is gone after the load. *)
Theorem from_dict_resets_base_values (p : Planet) (planet_data : PlanetData) :
  exists p',
    Planet_from_dict (Planet_to_dict p) planet_data = Ok p' /\
    base_temperature p' = default 0.0 (pd_initial_temperature planet_data) /\
    base_pressure p' = default 0.0 (pd_initial_pressure planet_data) /\
    base_oxygen p' = default 0.0 (pd_initial_oxygen planet_data) /\
    active_events p' = [].
Proof.
  unfold Planet_from_dict, Planet_to_dict. simpl.
  eexists. split; [reflexivity|].
  match goal with |- context [Planet__update_modifiers ?q] =>
    destruct (update_modifiers_fields q) as (_ & _ & _ & Hev & Ht & Hp & Ho)
  end.
  rewrite Ht, Hp, Ho, Hev. simpl. tauto.
Qed.

(** *** Ordered dicts *)

Lemma odict_get_set_eq {A} (d : odict A) (k : string) (v : A) :
  odict_get (odict_set d k v) k = Some v.
Proof.
  induction d as [|[k' v'] rest IH]; simpl.
  - rewrite String.eqb_refl. reflexivity.
  - destruct (String.eqb k' k) eqn:E; simpl; rewrite E; [reflexivity|exact IH].
Qed.

Lemma add_building_buildings (p : Planet) (bt : string) (count : Z) :
  odict_get (buildings (Planet_add_building p bt count)) bt
  = Some (default 0%Z (odict_get (buildings p) bt) + count)%Z.
Proof.
  unfold Planet_add_building.
  match goal with |- context [Planet__update_modifiers ?q] =>
    destruct (update_modifiers_fields q) as (_ & -> & _)
  end.
  simpl. rewrite odict_get_set_eq. f_equal. f_equal.
  destruct (odict_get (buildings p) bt) eqn:E.
  - rewrite E. reflexivity.
  - rewrite odict_get_set_eq. reflexivity.
Qed.

(** *** build_structure with a negative count *)


Lemma building_costs_positive (bt : string) (base_cost : gmap string Q) :
  building_costs !! bt = Some base_cost ->
  0 < dict_get_default base_cost "credits" 0 /\
  0 < dict_get_default base_cost "energy" 0 /\
  base_cost !! "science" = None.
Proof.
  intros H.
  assert (Hall : map_Forall (fun _ c => cost_is_positive c = true) building_costs).
  { apply (bool_decide_unpack _). vm_compute. exact I. }
  specialize (Hall _ _ H). unfold cost_is_positive in Hall.
  rewrite !andb_true_iff, !Qltb_lt, bool_decide_eq_true in Hall. tauto.
Qed.

Lemma scaled_cost_get (base_cost : gmap string Q) (count : Z) (k : string) :
  dict_get_default ((fun c => c * inject_Z count) <$> base_cost) k 0
  == dict_get_default base_cost k 0 * inject_Z count.
Proof.
  unfold dict_get_default. rewrite lookup_fmap.
  destruct (base_cost !! k); simpl; ring.
Qed.

(** C10. With a current planet, an unlocked building type of the cost table,
    stocks that are not negative and any negative count (-1 for one),
    [build_structure] returns true: the scaled cost is negative, so
    [can_afford] passes; [spend_resources] subtracts it, which raises credits
    and energy above their old values with no clamp of energy to
    [max_energy]; and [add_building] stores the old count (0 if absent) plus
    the negative count under the building type, a negative entry when the
    type was absent. *)
Theorem build_structure_negative_count
    (g : GameEngine) (p : Planet) (bt : string) (base_cost : gmap string Q) (count : Z) :
  current_planet g = Some p ->
  TechnologyTree_is_building_unlocked (technology_tree g) bt = true ->
  building_costs !! bt = Some base_cost ->
  (count < 0)%Z ->
  0 <= credits (engine_resource_manager g) ->
  0 <= energy (engine_resource_manager g) ->
  0 <= science (engine_resource_manager g) ->
  let r := GameEngine_build_structure g bt count in
  let rm := engine_resource_manager g in
  let rm' := engine_resource_manager r.2 in
  r.1 = true /\
  credits rm' == credits rm - dict_get_default base_cost "credits" 0 * inject_Z count /\
  energy rm' == energy rm - dict_get_default base_cost "energy" 0 * inject_Z count /\
  credits rm < credits rm' /\
  energy rm < energy rm' /\
  max_energy rm' = max_energy rm /\
  exists p', current_planet r.2 = Some p' /\
    odict_get (buildings p') bt
    = Some (default 0%Z (odict_get (buildings p) bt) + count)%Z /\
    (odict_get (buildings p) bt = None ->
     exists n, odict_get (buildings p') bt = Some n /\ (n < 0)%Z).
Proof.
  intros Hp Hunl Hcost Hneg Hc He Hs. cbv zeta.
  destruct (building_costs_positive _ _ Hcost) as (Hpc & Hpe & Hps).
  assert (Hq : inject_Z count < 0).
  { unfold Qlt. simpl. lia. }
  pose proof (scaled_cost_get base_cost count "credits") as Ec.
  pose proof (scaled_cost_get base_cost count "energy") as Ee.
  pose proof (scaled_cost_get base_cost count "science") as Es.
  assert (Hzs : dict_get_default base_cost "science" 0 == 0).
  { unfold dict_get_default. rewrite Hps. reflexivity. }
  assert (Hnc : dict_get_default base_cost "credits" 0 * inject_Z count < 0) by nra.
  assert (Hne : dict_get_default base_cost "energy" 0 * inject_Z count < 0) by nra.
  assert (Haff : ResourceManager_can_afford (engine_resource_manager g)
                   ((fun c => c * inject_Z count) <$> base_cost) = true).
  { apply can_afford_spec. rewrite Ec, Ee, Es, Hzs. repeat split; lra. }
  unfold GameEngine_build_structure. rewrite Hp, Hunl, Hcost. simpl.
  unfold ResourceManager_spend_resources. rewrite Haff. simpl.
  split; [reflexivity|]. rewrite Ec, Ee.
  split; [reflexivity|]. split; [reflexivity|].
  split; [lra|]. split; [lra|]. split; [reflexivity|].
  eexists. split; [reflexivity|]. split.
  - apply add_building_buildings.
  - intros Habsent. rewrite add_building_buildings, Habsent. simpl.
    eexists. split; [reflexivity|]. lia.
Qed.

(** On Mars with full energy and [basic_energy] researched, building -1 solar
    panel succeeds, leaves 1100 credits and 1010 energy with [max_energy]
    1000, and stores [solar_panel: -1]. *)
Lemma build_structure_negative_count_witness :
  let r := GameEngine_build_structure sample_engine "solar_panel" (-1) in
  r.1 = true /\
  max_energy (engine_resource_manager r.2) < energy (engine_resource_manager r.2) /\
  exists p', current_planet r.2 = Some p' /\
             odict_get (buildings p') "solar_panel" = Some (-1)%Z.
Proof.
  cbv zeta.
  destruct (build_structure_negative_count sample_engine mars "solar_panel"
              {[ "credits" := 100; "energy" := 10 ]} (-1))
    as (Hr & Hc & He & Hc' & He' & Hm & p' & Hp' & Hb & Hn).
  - reflexivity.
  - vm_compute. reflexivity.
  - vm_compute. reflexivity.
  - lia.
  - vm_compute. discriminate.
  - vm_compute. discriminate.
  - vm_compute. discriminate.
  - split; [exact Hr|]. split.
    + rewrite Hm. exact He'.
    + exists p'. split; [exact Hp'|]. rewrite Hb. reflexivity.
Defined.

(** *** Snapshots of the technology tree *)

Lemma dom_update_availability (t : TechnologyTree) :
  dom (technologies (TechnologyTree__update_availability t)) = dom (technologies t).
Proof. unfold TechnologyTree__update_availability. simpl. apply dom_fmap_L. Qed.

Lemma dom_insert_present (techs : gmap string Technology) (id : string)
    (old new : Technology) :
  techs !! id = Some old -> dom (<[id := new]> techs) = dom techs.
Proof.
  intros Hold. rewrite dom_insert_L.
  assert (Hin : id ∈ dom techs) by (apply elem_of_dom; eauto).
  apply set_eq. intros x. rewrite elem_of_union, elem_of_singleton.
  split; [intros [->|Hx]; assumption|auto].
Qed.

Lemma dom_update_if_present (f : Technology -> Technology) (id : string)
    (techs : gmap string Technology) :
  dom (update_if_present f id techs) = dom techs.
Proof.
  unfold update_if_present. destruct (techs !! id) eqn:E; [|reflexivity].
  eapply dom_insert_present; eauto.
Qed.

Lemma dom_assign_progress (id : string) (q : Q) (t : TechnologyTree) :
  dom (technologies (assign_progress id q t).2) = dom (technologies t).
Proof.
  unfold assign_progress. destruct (technologies t !! id) eqn:E; simpl; [|reflexivity].
  eapply dom_insert_present; eauto.
Qed.

Lemma dom_complete_research (id : string) (t : TechnologyTree) :
  dom (technologies (TechnologyTree_complete_research id t).2) = dom (technologies t).
Proof.
  unfold TechnologyTree_complete_research, bind, get, modify, ret.
  destruct (technologies t !! id) eqn:E; simpl; [|reflexivity].
  rewrite dom_fmap_L.
  destruct (bool_decide _); simpl; eapply dom_insert_present; eauto.
Qed.

Lemma dom_start_research (id : string) (t : TechnologyTree) :
  dom (technologies (TechnologyTree_start_research id t).2) = dom (technologies t).
Proof.
  unfold TechnologyTree_start_research. unfold bind at 1. unfold get.
  destruct (technologies t !! id) eqn:E; [|reflexivity].
  destruct (negb _ || _); [reflexivity|].
  unfold bind at 1.
  assert (Hfirst : forall m : M TechnologyTree unit,
            m = assign_progress (default "" (current_research t)) 0.0 \/ m = ret tt ->
            dom (technologies (m t).2) = dom (technologies t)).
  { intros m [->| ->]; [apply dom_assign_progress|reflexivity]. }
  match goal with |- context [match ?m t with _ => _ end] =>
    specialize (Hfirst m); destruct (m t) as [[[]|e] t1] eqn:Em
  end; simpl in *.
  - rewrite <- Hfirst by (destruct (truthy _); auto).
    unfold bind, modify. simpl.
    match goal with |- context [assign_progress id 0.0 ?s] =>
      pose proof (dom_assign_progress id 0.0 s) as Hd;
      destruct (assign_progress id 0.0 s) as [[[]|e] t2]
    end; simpl in *; exact Hd.
  - apply Hfirst. destruct (truthy _); auto.
Qed.

Lemma dom_update_research (sp dt : Q) (t : TechnologyTree) :
  dom (technologies (TechnologyTree_update_research sp dt t).2) = dom (technologies t).
Proof.
  unfold TechnologyTree_update_research. unfold bind at 1. unfold get.
  destruct (negb _); [reflexivity|].
  destruct (technologies t !! _) eqn:E; [|reflexivity].
  destruct (Qeq_bool _ _); [reflexivity|].
  unfold bind, modify. simpl.
  match goal with |- context [if ?c then _ else _] => destruct c end; simpl.
  - rewrite dom_complete_research. simpl. eapply dom_insert_present; eauto.
  - eapply dom_insert_present; eauto.
Qed.

Lemma dom_init (file : gmap string TechData) :
  dom (technologies (TechnologyTree_init file)) = dom file.
Proof.
  unfold TechnologyTree_init. rewrite dom_update_availability. simpl.
  apply set_eq. intros id. rewrite !elem_of_dom, map_lookup_imap.
  destruct (file !! id); simpl; split; intros [x Hx]; eauto; discriminate.
Qed.

Lemma dom_set_fold_update (f : Technology -> Technology)
    (techs : gmap string Technology) (X : gset string) :
  dom (set_fold (update_if_present f) techs X) = dom techs.
Proof.
  apply (set_fold_ind_L (fun r _ => dom r = dom techs)).
  - reflexivity.
  - intros x Y r _ IH. rewrite dom_update_if_present. exact IH.
Qed.

Lemma dom_map_fold_update (techs : gmap string Technology) (tp : gmap string Q) :
  dom (map_fold (fun id progress => update_if_present (set_tech_progress progress) id)
         techs tp) = dom techs.
Proof.
  apply (map_fold_weak_ind (fun r _ => dom r = dom techs)).
  - reflexivity.
  - intros id q m r _ IH. rewrite dom_update_if_present. exact IH.
Qed.

Lemma dom_from_dict (data : TechnologyDict) (file : gmap string TechData) :
  dom (technologies (TechnologyTree_from_dict data file)) = dom file.
Proof.
  unfold TechnologyTree_from_dict. rewrite dom_update_availability. simpl.
  rewrite dom_map_fold_update, dom_set_fold_update. apply dom_init.
Qed.

(** A reachable tree holds exactly the technologies of the file. *)
Lemma reachable_dom (file : gmap string TechData) (t : TechnologyTree) :
  tree_reachable file t -> dom (technologies t) = dom file.
Proof.
  induction 1.
  - apply dom_init.
  - rewrite dom_start_research. assumption.
  - rewrite dom_update_research. assumption.
  - rewrite dom_complete_research. assumption.
  - apply dom_from_dict.
Qed.

(** Restoring the saved progress: a technology named in the snapshot takes
    the saved value, any other keeps its own. *)
Lemma map_fold_update_progress (techs : gmap string Technology) (tp : gmap string Q)
    (id : string) :
  tech_research_progress <$>
    (map_fold (fun id progress => update_if_present (set_tech_progress progress) id)
       techs tp !! id)
  = match tp !! id with
    | Some q => (fun _ => q) <$> (techs !! id)
    | None => tech_research_progress <$> (techs !! id)
    end.
Proof.
  apply (map_fold_weak_ind (fun r m =>
    dom r = dom techs /\
    tech_research_progress <$> (r !! id)
    = match m !! id with
      | Some q => (fun _ => q) <$> (techs !! id)
      | None => tech_research_progress <$> (techs !! id)
      end)).
  - split; [reflexivity|]. rewrite lookup_empty. reflexivity.
  - intros i q m r Hi [Hd IH]. split.
    { rewrite dom_update_if_present. exact Hd. }
    unfold update_if_present.
    destruct (decide (i = id)) as [->|Hne].
    + rewrite lookup_insert_eq.
      destruct (r !! id) as [tech|] eqn:Er.
      * rewrite lookup_insert_eq. simpl.
        assert (His : is_Some (techs !! id)).
        { apply elem_of_dom. rewrite <- Hd. apply elem_of_dom. eauto. }
        destruct His as [tech0 ->]. reflexivity.
      * rewrite Er. simpl.
        assert (Hn : techs !! id = None).
        { apply not_elem_of_dom. rewrite <- Hd. apply not_elem_of_dom. exact Er. }
        rewrite Hn. reflexivity.
    + rewrite (lookup_insert_ne m) by exact Hne.
      destruct (r !! i) as [tech|] eqn:Er; [|exact IH].
      rewrite lookup_insert_ne by exact Hne. exact IH.
Qed.

(** The listed values survive the round trip: buildings, stocks, and on a
    reachable tree the researched set, the current research and every
    progress value. *)
Lemma round_trip_listed :
  (forall (p : Planet) (planet_data : PlanetData),
     exists p', Planet_from_dict (Planet_to_dict p) planet_data = Ok p' /\
                buildings p' = buildings p) /\
  (forall rm : ResourceManager,
     let rm' := ResourceManager_from_dict (ResourceManager_to_dict rm) in
     credits rm' = credits rm /\ energy rm' = energy rm /\ science rm' = science rm) /\
  (forall (file : gmap string TechData) (t : TechnologyTree),
     tree_reachable file t ->
     let t' := TechnologyTree_from_dict (TechnologyTree_to_dict t) file in
     researched_technologies t' = researched_technologies t /\
     current_research t' = current_research t /\
     research_progress t' = research_progress t /\
     forall id, tech_research_progress <$> (technologies t' !! id)
                = tech_research_progress <$> (technologies t !! id)).
Proof.
  split; [|split].
  - intros p planet_data. unfold Planet_from_dict, Planet_to_dict. simpl.
    eexists. split; [reflexivity|].
    match goal with |- context [Planet__update_modifiers ?q] =>
      destruct (update_modifiers_fields q) as (_ & -> & _)
    end.
    reflexivity.
  - intros rm. cbv zeta. unfold ResourceManager_from_dict, ResourceManager_to_dict.
    simpl. tauto.
  - intros file t Hreach. cbv zeta.
    pose proof (reachable_dom _ _ Hreach) as Hdom.
    pose proof (dom_init file) as Hinit.
    unfold TechnologyTree_from_dict, TechnologyTree_to_dict.
    remember (TechnologyTree_init file) as tree0 eqn:Etree0. simpl.
    split; [apply list_to_set_elements_L|].
    split; [reflexivity|]. split; [reflexivity|].
    intros id. rewrite lookup_fmap.
    set (techs1 := set_fold _ _ _).
    assert (Hd1 : dom techs1 = dom (technologies t)).
    { unfold techs1. rewrite dom_set_fold_update, Hinit. symmetry. exact Hdom. }
    assert (Hstep : forall o : option Technology,
              tech_research_progress <$>
                ((fun tech => if negb (is_researched tech)
                              then set_is_available
                                     (bool_decide (prerequisites tech ⊆
                                        list_to_set (elements (researched_technologies t))))
                                     tech
                              else tech) <$> o)
              = tech_research_progress <$> o).
    { intros [tech|]; [|reflexivity]. simpl. destruct (negb _); reflexivity. }
    rewrite Hstep, map_fold_update_progress, lookup_fmap.
    destruct (technologies t !! id) as [tech|] eqn:Et; simpl.
    + assert (His : is_Some (techs1 !! id)).
      { apply elem_of_dom. rewrite Hd1. apply elem_of_dom. eauto. }
      destruct His as [tech1 ->]. reflexivity.
    + assert (Hn : techs1 !! id = None).
      { apply not_elem_of_dom. rewrite Hd1. apply not_elem_of_dom. exact Et. }
      rewrite Hn. reflexivity.
Qed.

(** *** One-shot effects *)

Lemma bind_Ok_inv {S A B} (m : M S A) (k : A -> M S B) (s s' : S) (b : B) :
  bind m k s = (Ok b, s') ->
  exists a s1, m s = (Ok a, s1) /\ k a s1 = (Ok b, s').
Proof.
  unfold bind. destruct (m s) as [[a|e] s1]; intros H; [eauto|discriminate].
Qed.

Lemma is_expired_Ok (self : ActiveEvent) (w : World) :
  exists b w', ActiveEvent_is_expired self w = (Ok b, w').
Proof.
  unfold ActiveEvent_is_expired. destruct (Qeq_bool _ _); eexists; eexists; reflexivity.
Qed.

Lemma continuous_effects_Ok (self : ActiveEvent) (w : World) :
  exists w', apply_continuous_effects self w = (Ok tt, w').
Proof.
  unfold apply_continuous_effects. destruct (Qltb 0 _); [|eexists; reflexivity].
  unfold bind. destruct (is_expired_Ok self w) as (b & w1 & ->).
  destruct (negb b); eexists; reflexivity.
Qed.


Lemma continuous_effects_one_shot_view (self : ActiveEvent) :
  stable one_shot_view (apply_continuous_effects self).
Proof.
  unfold apply_continuous_effects. destruct (Qltb 0 _); [|apply stable_ret].
  apply stable_bind.
  - apply stable_is_expired. intros w. reflexivity.
  - intros expired. destruct (negb expired); [|apply stable_ret].
    apply stable_modify. reflexivity.
Qed.

Lemma apply_effects_already_applied (self : ActiveEvent) (arg : PyObj) (w : World) :
  effects_applied self = true ->
  let r := ActiveEvent_apply_effects self arg w in
  r.1 = Ok self /\
  resource_manager r.2 = resource_manager w /\
  buildings (planet r.2) = buildings (planet w).
Proof.
  intros Hflag. cbv zeta. unfold ActiveEvent_apply_effects. rewrite Hflag. simpl.
  pose proof (continuous_effects_one_shot_view self w) as Hview.
  destruct (continuous_effects_Ok self w) as [w' Hw'].
  rewrite Hw' in Hview. unfold one_shot_view in Hview. simpl in Hview.
  injection Hview as Hrm Hb.
  unfold bind, ret. simpl. rewrite Hw'. simpl. auto.
Qed.

Lemma one_shot_sets_flag (self : ActiveEvent) (arg : PyObj) (w w' : World)
    (self' : ActiveEvent) :
  apply_one_shot_effects self arg w = (Ok self', w') ->
  self' = set_effects_applied true self.
Proof.
  unfold apply_one_shot_effects. intros H.
  repeat (apply bind_Ok_inv in H; destruct H as (? & ? & _ & H)).
  unfold ret in H. congruence.
Qed.

Lemma apply_effects_sets_flag (self : ActiveEvent) (arg : PyObj) (w w' : World)
    (self' : ActiveEvent) :
  ActiveEvent_apply_effects self arg w = (Ok self', w') ->
  effects_applied self' = true.
Proof.
  unfold ActiveEvent_apply_effects. intros H.
  apply bind_Ok_inv in H. destruct H as (s1 & w1 & H1 & H).
  apply bind_Ok_inv in H. destruct H as (u & w2 & _ & H).
  unfold ret in H. injection H as <- _.
  destruct (effects_applied self) eqn:E; simpl in H1.
  - unfold ret in H1. injection H1 as <- _. exact E.
  - apply one_shot_sets_flag in H1. subst s1. reflexivity.
Qed.

Lemma apply_effects_times_applied (n : nat) (self : ActiveEvent) (w : World) :
  effects_applied self = true ->
  let r := apply_effects_times n self w in
  r.1 = Ok self /\ resource_manager r.2 = resource_manager w.
Proof.
  intros Hflag. revert w. induction n as [|n IH]; intros w; simpl.
  - auto.
  - unfold bind.
    destruct (apply_effects_already_applied self ResourceManagerObj w Hflag)
      as (Hr & Hrm & _).
    destruct (ActiveEvent_apply_effects self ResourceManagerObj w) as [r1 w1].
    simpl in Hr, Hrm. subst r1. rewrite <- Hrm. apply IH.
Qed.

(** The first application of an instantaneous event that only grants a
    credits bonus. *)
Lemma instant_bonus_first_application (self : ActiveEvent) (w : World) (bonus : Q) :
  ae_duration self == 0 ->
  ge_effects (ae_event self) = {[ "credits_bonus" := bonus ]} ->
  effects_applied self = false ->
  ActiveEvent_apply_effects self ResourceManagerObj w
  = (Ok (set_effects_applied true self),
     on_resource_manager
       (fun rm => ResourceManager_add_resources rm {[ "credits" := bonus ]}) w).
Proof.
  intros Hd Heff Hflag.
  unfold ActiveEvent_apply_effects. rewrite Hflag. simpl.
  unfold apply_one_shot_effects, apply_continuous_effects, when_key.
  rewrite Heff. rewrite lookup_singleton_eq.
  rewrite !lookup_singleton_ne by discriminate.
  assert (Hz : Qltb 0 (ae_duration self) = false) by (apply Qltb_ge; lra).
  unfold bind, ret, modify, call_add_resources. simpl. rewrite Hz. reflexivity.
Qed.

(** C8. One-shot effects are applied at most once. Once [effects_applied] is
    true, [apply_effects] returns normally, leaves the event as it is (the
    flag stays true) and changes neither the resource manager nor the
    buildings; and every [apply_effects] that returns normally leaves the flag
    true. In particular, an instantaneous event (duration 0) whose effects are
    a [credits_bonus] of 50 adds 50 credits in total however many times
    [apply_effects] runs on it, and [is_expired] holds of it after the first
    run. *)
Theorem one_shot_effects_applied_once :
  (forall (self : ActiveEvent) (arg : PyObj) (w : World),
     effects_applied self = true ->
     let r := ActiveEvent_apply_effects self arg w in
     r.1 = Ok self /\
     resource_manager r.2 = resource_manager w /\
     buildings (planet r.2) = buildings (planet w)) /\
  (forall (self self' : ActiveEvent) (arg : PyObj) (w w' : World),
     ActiveEvent_apply_effects self arg w = (Ok self', w') ->
     effects_applied self' = true) /\
  (forall (self : ActiveEvent) (w : World) (n : nat),
     ae_duration self == 0 ->
     ge_effects (ae_event self) = {[ "credits_bonus" := 50 ]} ->
     effects_applied self = false ->
     0 <= credits (resource_manager w) ->
     let r := apply_effects_times (S n) self w in
     exists self',
       r.1 = Ok self' /\ effects_applied self' = true /\
       credits (resource_manager r.2) == credits (resource_manager w) + 50 /\
       (ActiveEvent_is_expired self' r.2).1 = Ok true).
Proof.
  split; [|split].
  - intros self arg w Hflag. apply apply_effects_already_applied. exact Hflag.
  - intros self self' arg w w' H. eapply apply_effects_sets_flag. exact H.
  - intros self w n Hd Heff Hflag Hc. cbv zeta. simpl. unfold bind.
    rewrite (instant_bonus_first_application self w 50 Hd Heff Hflag).
    set (self1 := set_effects_applied true self).
    set (w1 := on_resource_manager _ w).
    destruct (apply_effects_times_applied n self1 w1 eq_refl) as [Hr Hrm].
    exists self1. split; [exact Hr|]. split; [reflexivity|]. split.
    + rewrite Hrm. unfold w1. simpl. unfold dict_get_default.
      rewrite lookup_singleton_eq. simpl.
      destruct (py_max_cases 0 (credits (resource_manager w) + 50)) as [[_ ->]|[Hle ->]];
        lra.
    + unfold ActiveEvent_is_expired. simpl.
      assert (Hz : Qeq_bool (ae_duration self) 0 = true) by (apply Qeq_bool_iff; exact Hd).
      rewrite Hz. reflexivity.
Qed.

(** *** Planet.update and the active events *)

Lemma bind_ext {S A B} (m : M S A) (k k' : A -> M S B) (s : S) :
  (forall a s1, k a s1 = k' a s1) -> bind m k s = bind m k' s.
Proof.
  intros H. unfold bind. destruct (m s) as [[a|e] s1]; [apply H|reflexivity].
Qed.

Lemma apply_effects_loop_ignores_float (x y : Q) (todo done : list ActiveEvent)
    (w : World) :
  apply_effects_loop (FloatObj x) done todo w
  = apply_effects_loop (FloatObj y) done todo w.
Proof.
  revert done w. induction todo as [|ev rest IH]; intros done w; simpl.
  - reflexivity.
  - change (ActiveEvent_apply_effects ev (FloatObj x))
      with (ActiveEvent_apply_effects ev (FloatObj y)).
    apply bind_ext. intros ev' w1. apply bind_ext. intros _ w2. apply IH.
Qed.

Lemma update_ignores_delta_time (w : World) (dt dt' : Q) :
  Planet_update dt w = Planet_update dt' w.
Proof.
  unfold Planet_update.
  repeat (apply bind_ext; intros).
  unfold Planet__update_events.
  repeat (apply bind_ext; intros).
  apply apply_effects_loop_ignores_float.
Qed.


Lemma is_expired_frozen (now : Q) (self : ActiveEvent) (w : World) :
  frozen now w ->
  exists w', ActiveEvent_is_expired self w = (Ok (expired_at now self), w') /\
             same_objects w w'.
Proof.
  intros Hf. unfold ActiveEvent_is_expired, expired_at.
  destruct (Qeq_bool _ _).
  - exists w. split; [reflexivity|]. repeat split.
  - eexists. unfold bind, py_time, ret. simpl. rewrite Hf.
    split; [reflexivity|]. repeat split.
Qed.

Lemma unexpired_frozen (now : Q) (events : list ActiveEvent) (w : World) :
  frozen now w ->
  exists w', unexpired events w
             = (Ok (List.filter (fun ev => negb (expired_at now ev)) events), w') /\
             same_objects w w'.
Proof.
  revert w. induction events as [|ev rest IH]; intros w Hf; simpl.
  - exists w. split; [reflexivity|]. repeat split.
  - destruct (is_expired_frozen now ev w Hf) as (w1 & E1 & Hp1 & Hr1 & Ht1).
    assert (Hf1 : frozen now w1) by (intros n; rewrite Ht1; apply Hf).
    destruct (IH w1 Hf1) as (w2 & E2 & Hp2 & Hr2 & Ht2).
    exists w2. unfold bind. rewrite E1, E2. unfold ret.
    split; [reflexivity|]. repeat split; congruence.
Qed.


Lemma apply_effects_frozen (now : Q) (self : ActiveEvent) (arg : PyObj) (w : World) :
  frozen now w ->
  effects_applied self = true ->
  expired_at now self = false ->
  exists w', ActiveEvent_apply_effects self arg w = (Ok self, w') /\
             resource_manager w' = resource_manager w /\
             time_time w' = time_time w /\
             planet w' = if Qltb 0 (ae_duration self)
                         then drifted self (planet w) else planet w.
Proof.
  intros Hf Hflag Hexp.
  unfold ActiveEvent_apply_effects. rewrite Hflag.
  unfold apply_continuous_effects.
  destruct (Qltb 0 (ae_duration self)) eqn:Ed.
  - destruct (is_expired_frozen now self w Hf) as (w1 & E1 & Hp1 & Hr1 & Ht1).
    unfold bind, ret. change (negb true) with false. cbv beta iota zeta.
    rewrite Ed. rewrite E1, Hexp.
    cbv beta iota. unfold negb, modify.
    eexists. split; [reflexivity|]. simpl.
    rewrite Hr1, Ht1, Hp1. repeat split.
  - unfold bind, ret. change (negb true) with false. cbv beta iota zeta.
    rewrite Ed. exists w. repeat split.
Qed.

Lemma apply_effects_loop_frozen (now : Q) (arg : PyObj) (todo done : list ActiveEvent)
    (w : World) :
  frozen now w ->
  Forall (fun ev => effects_applied ev = true /\ expired_at now ev = false) todo ->
  active_events (planet w) = done ++ todo ->
  exists w', apply_effects_loop arg done todo w = (Ok tt, w') /\
    active_events (planet w') = done ++ todo /\
    base_temperature (planet w')
    == base_temperature (planet w) + continuous_drift "temperature_modifier" todo /\
    base_pressure (planet w')
    == base_pressure (planet w) + continuous_drift "pressure_modifier" todo /\
    base_oxygen (planet w')
    == base_oxygen (planet w) + continuous_drift "oxygen_modifier" todo.
Proof.
  revert done w. induction todo as [|ev rest IH]; intros done w Hf Hall Hev; simpl.
  - exists w. split; [reflexivity|]. split; [exact Hev|]. repeat split; ring.
  - inversion Hall as [|ev0 rest0 [Hflag Hexp] Hrest]; subst.
    destruct (apply_effects_frozen now ev arg w Hf Hflag Hexp)
      as (w1 & E1 & Hr1 & Ht1 & Hp1).
    unfold bind at 1. rewrite E1. unfold bind at 1. unfold modify at 1.
    set (w2 := on_planet (set_active_events (done ++ ev :: rest)) w1).
    assert (Hf2 : frozen now w2) by (intros n; unfold w2; simpl; rewrite Ht1; apply Hf).
    assert (Hev2 : active_events (planet w2) = (done ++ [ev]) ++ rest).
    { unfold w2. simpl. rewrite <- app_assoc. reflexivity. }
    destruct (IH (done ++ [ev]) w2 Hf2 Hrest Hev2) as (w' & E' & Hev' & Ht' & Hp' & Ho').
    exists w'. split; [exact E'|].
    split; [rewrite Hev', <- app_assoc; reflexivity|].
    rewrite Ht', Hp', Ho'. unfold w2. simpl. rewrite Hp1.
    destruct (Qltb 0 (ae_duration ev)); simpl; repeat split; ring.
Qed.

Lemma update_events_frozen (now dt : Q) (w : World) :
  frozen now w ->
  let kept := List.filter (fun ev => negb (expired_at now ev)) (active_events (planet w)) in
  Forall (fun ev => effects_applied ev = true) kept ->
  exists w', Planet__update_events dt w = (Ok tt, w') /\
    active_events (planet w') = kept /\
    base_temperature (planet w')
    == base_temperature (planet w) + continuous_drift "temperature_modifier" kept /\
    base_pressure (planet w')
    == base_pressure (planet w) + continuous_drift "pressure_modifier" kept /\
    base_oxygen (planet w')
    == base_oxygen (planet w) + continuous_drift "oxygen_modifier" kept.
Proof.
  intros Hf kept Hflags.
  destruct (unexpired_frozen now (active_events (planet w)) w Hf)
    as (w1 & E1 & Hp1 & Hr1 & Ht1).
  fold kept in E1.
  unfold Planet__update_events. unfold bind at 1. unfold get at 1.
  unfold bind at 1. rewrite E1. unfold bind at 1. unfold modify at 1.
  set (w2 := on_planet (set_active_events kept) w1).
  assert (Hf2 : frozen now w2) by (intros n; unfold w2; simpl; rewrite Ht1; apply Hf).
  assert (Hall : Forall (fun ev => effects_applied ev = true /\ expired_at now ev = false)
                   kept).
  { apply Forall_forall. intros ev Hin. split.
    - rewrite Forall_forall in Hflags. apply Hflags. exact Hin.
    - unfold kept in Hin. apply list_elem_of_In, filter_In in Hin.
      destruct Hin as [_ Hin]. apply negb_true_iff in Hin. exact Hin. }
  destruct (apply_effects_loop_frozen now (FloatObj dt) kept [] w2 Hf2 Hall eq_refl)
    as (w' & E' & Hev' & Ht' & Hp' & Ho').
  exists w'. split; [exact E'|]. split; [exact Hev'|].
  rewrite Ht', Hp', Ho'. unfold w2. simpl. rewrite Hp1. repeat split; reflexivity.
Qed.

(** Up to the event pass, [update] touches the atmosphere and the history. *)
Lemma update_reaches_events (dt : Q) (w : World) :
  history_consistent (planet w) ->
  exists w1, Planet_update dt w = Planet__update_events dt w1 /\
    time_time w1 = time_time w /\
    active_events (planet w1) = active_events (planet w) /\
    base_temperature (planet w1) = base_temperature (planet w) /\
    base_pressure (planet w1) = base_pressure (planet w) /\
    base_oxygen (planet w1) = base_oxygen (planet w).
Proof.
  intros (Hlp & Hlo & Hlh).
  unfold Planet_update. generalize (Planet__update_events dt). intros events.
  unfold bind, modify, get, history_append, history_pop0. cbn -[Nat.leb].
  destruct (100 <=? length (h_temperature (history (planet w))))%nat eqn:Elen.
  - apply Nat.leb_le in Elen.
    destruct (h_temperature (history (planet w))) as [|t ts] eqn:Et;
      [simpl in Elen; lia|].
    destruct (h_pressure (history (planet w))) as [|q qs] eqn:Eq;
      [simpl in Hlp; lia|].
    destruct (h_oxygen (history (planet w))) as [|o os] eqn:Eo;
      [simpl in Hlo; lia|].
    destruct (h_habitability (history (planet w))) as [|h hs] eqn:Eh;
      [simpl in Hlh; lia|].
    repeat (progress (cbn -[Nat.leb]; rewrite ?Et, ?Eq, ?Eo, ?Eh)).
    eexists. split; [reflexivity|]. simpl. repeat split.
  - simpl. eexists. split; [reflexivity|]. simpl. repeat split.
Qed.

(** C2, as the code has it. [Planet.update(dt)] does not depend on [dt]: the
    event pass hands [dt] to [apply_effects] in the place of the resource
    manager and nothing scales by it. While the clock stands at [now] and the
    history buffers have one length, [update] prunes the events that
    [is_expired] reports and, when the one-shot effects of the kept events
    have all been applied, returns normally, keeps exactly the unexpired
    events, and has added to each of base_temperature, base_pressure and
    base_oxygen, for every kept timed event, the event's modifier times 0.001:
    one fixed increment per call of [update]. *)
Theorem update_applies_events_per_call :
  (forall (w : World) (dt dt' : Q), Planet_update dt w = Planet_update dt' w) /\
  (forall (w : World) (dt now : Q),
     frozen now w ->
     history_consistent (planet w) ->
     let kept :=
       List.filter (fun ev => negb (expired_at now ev)) (active_events (planet w)) in
     Forall (fun ev => effects_applied ev = true) kept ->
     let r := Planet_update dt w in
     r.1 = Ok tt /\
     active_events (planet r.2) = kept /\
     base_temperature (planet r.2)
     == base_temperature (planet w) + continuous_drift "temperature_modifier" kept /\
     base_pressure (planet r.2)
     == base_pressure (planet w) + continuous_drift "pressure_modifier" kept /\
     base_oxygen (planet r.2)
     == base_oxygen (planet w) + continuous_drift "oxygen_modifier" kept).
Proof.
  split.
  - intros w dt dt'. apply update_ignores_delta_time.
  - intros w dt now Hf Hh kept Hflags. cbv zeta.
    destruct (update_reaches_events dt w Hh) as (w1 & E1 & Ht1 & Hev1 & Hbt & Hbp & Hbo).
    assert (Hf1 : frozen now w1) by (intros n; rewrite Ht1; apply Hf).
    destruct (update_events_frozen now dt w1 Hf1) as (w' & E' & Hev' & Ht' & Hp' & Ho').
    { rewrite Hev1. exact Hflags. }
    rewrite E1, E'. simpl. rewrite Hev1 in *.
    rewrite <- Hbt, <- Hbp, <- Hbo. auto.
Qed.

(** On Mars in a heat wave (modifier 10) an update with [dt = 2] returns
    normally, keeps the event and warms the base temperature by 0.01. *)
Lemma update_applies_events_per_call_witness :
  let r := Planet_update 2 mars_in_heat_wave in
  r.1 = Ok tt /\
  active_events (planet r.2) = [running_heat_wave] /\
  base_temperature (planet r.2) == -63 + 0.01.
Proof.
  destruct (proj2 update_applies_events_per_call mars_in_heat_wave 2 1000)
    as (Hr & Hev & Ht & _).
  - intros n. reflexivity.
  - repeat split.
  - repeat constructor.
  - cbv zeta. split; [exact Hr|]. split; [exact Hev|]. rewrite Ht. reflexivity.
Defined.

(** The claim as the specification words it fails on Mars in a heat wave: with
    [dt = 2] the base temperature rises by [10 * 0.001], not by
    [10 * 0.001 * 2], and by the same amount as with [dt = 1]. *)
Lemma update_events_not_scaled_by_dt :
  let before := base_temperature (planet mars_in_heat_wave) in
  let after dt := base_temperature (planet (Planet_update dt mars_in_heat_wave).2) in
  after 2 - before == 10 * 0.001 /\
  ~ (after 2 - before == 10 * 0.001 * 2) /\
  after 2 - before == after 1 - before.
Proof.
  cbv zeta. vm_compute. repeat split; discriminate.
Qed.

(** An event whose one-shot resource effects are still pending, as after
    [force_event] between two ticks, makes [Planet.update] raise: the float
    handed over as resource manager has no [add_resources]. *)
Lemma update_raises_on_pending_bonus :
  (Planet_update 1 (sample_world (set_active_events [fresh_windfall] mars))).1
  = Raise AttributeError.
Proof. vm_compute. reflexivity. Qed.

(** The 50-credit windfall applied three times in a row. *)
Lemma one_shot_effects_applied_once_witness :
  let r := apply_effects_times 3 fresh_windfall (sample_world mars) in
  exists self',
    r.1 = Ok self' /\ effects_applied self' = true /\
    credits (resource_manager r.2) == 1000 + 50 /\
    (ActiveEvent_is_expired self' r.2).1 = Ok true.
Proof.
  apply (proj2 (proj2 one_shot_effects_applied_once) fresh_windfall (sample_world mars) 2%nat).
  - reflexivity.
  - reflexivity.
  - reflexivity.
  - vm_compute. discriminate.
Defined.

(** *** The periodic event check *)

Lemma odict_get_member {A} (d : odict A) (k : string) (v : A) :
  NoDup (odict_keys d) -> In (k, v) d -> odict_get d k = Some v.
Proof.
  induction d as [|[k' v'] rest IH]; simpl; intros Hnd Hin; [contradiction|].
  apply NoDup_cons in Hnd. destruct Hnd as [Hnotin Hnd].
  destruct Hin as [Heq|Hin].
  - injection Heq as -> ->. rewrite String.eqb_refl. reflexivity.
  - destruct (String.eqb k' k) eqn:E.
    + apply String.eqb_eq in E. subst k'. exfalso. apply Hnotin.
      apply list_elem_of_In. change k with (fst (k, v)). apply in_map. exact Hin.
    + apply IH; assumption.
Qed.

Lemma templates_wf_lookup (self : EventManager) (k : nat) (t : GameEvent) :
  templates_wf self ->
  odict_values (event_templates self) !! k = Some t ->
  odict_get (event_templates self) (ge_id t) = Some t.
Proof.
  intros [Hnd Hids] Hk. unfold odict_values in Hk.
  apply list_lookup_fmap_Some in Hk. destruct Hk as ([id t'] & Ht & E).
  simpl in Ht. subst t'.
  assert (Hin : In (id, t) (event_templates self)).
  { apply list_elem_of_In. eapply list_elem_of_lookup_2. exact E. }
  rewrite Forall_forall in Hids.
  assert (Hid : ge_id t = id) by (apply (Hids (id, t)), list_elem_of_In; exact Hin).
  rewrite Hid. apply odict_get_member; assumption.
Qed.


Lemma check_requirements_view (t : GameEvent) (p p' : Planet) (rm : ResourceManager) :
  requirement_view p' = requirement_view p ->
  EventManager__check_event_requirements t p' rm
  = EventManager__check_event_requirements t p rm.
Proof.
  unfold requirement_view. intros H. injection H as Hn Ht Hp Ho Hb.
  unfold EventManager__check_event_requirements, total_buildings,
    Planet_calculate_habitability.
  rewrite Hn, Ht, Hp, Ho, Hb. reflexivity.
Qed.


Lemma check_template_spec (self : EventManager) (t : GameEvent) (w : World) :
  exists w',
    check_template self t w = (Ok tt, w') /\
    requirement_view (planet w') = requirement_view (planet w) /\
    resource_manager w' = resource_manager w /\
    random_random w' = random_random w /\
    random_draws w' = S (random_draws w) /\
    (active_events (planet w') = active_events (planet w) \/
     exists ae,
       active_events (planet w') = active_events (planet w) ++ [ae] /\
       odict_get (event_templates self) (ge_id t) = Some (ae_event ae) /\
       guards_pass t (random_random w (random_draws w))
         (planet w) (resource_manager w)).
Proof.
  unfold check_template, bind, py_random, get, ret. cbn [fst snd].
  destruct (Qltb (ge_probability t) (random_random w (random_draws w))) eqn:Eroll.
  { eexists. split; [reflexivity|]. simpl. repeat split. left. reflexivity. }
  apply Qltb_ge in Eroll. cbn [planet resource_manager].
  destruct (EventManager__check_event_requirements t (planet w) (resource_manager w))
    eqn:Ereq; cbn [negb].
  2:{ eexists. split; [reflexivity|]. simpl. repeat split. left. reflexivity. }
  destruct (already_active (ge_id t) (planet w)) eqn:Eact.
  { eexists. split; [reflexivity|]. simpl. repeat split. left. reflexivity. }
  unfold EventManager_trigger_event.
  destruct (odict_get (event_templates self) (ge_id t)) as [t'|] eqn:Eget.
  2:{ eexists. split; [reflexivity|]. simpl. repeat split. left. reflexivity. }
  unfold ActiveEvent_init, bind, py_time, modify, ret. cbn [fst snd].
  eexists. split; [reflexivity|]. simpl. repeat split.
  right. eexists. split; [reflexivity|]. simpl. split; [reflexivity|].
  repeat split; assumption.
Qed.

Lemma already_active_app (id : string) (p : Planet) (old new : list ActiveEvent) :
  active_events p = old ++ new ->
  already_active id p = false ->
  existsb (fun ae => String.eqb (ge_id (ae_event ae)) id) old = false.
Proof.
  unfold already_active. intros ->. rewrite existsb_app.
  intros H. apply orb_false_iff in H. tauto.
Qed.

Lemma check_loop_spec (self : EventManager) (ts : list GameEvent) (w : World) :
  exists w' new,
    for_each ts (check_template self) w = (Ok tt, w') /\
    requirement_view (planet w') = requirement_view (planet w) /\
    resource_manager w' = resource_manager w /\
    random_random w' = random_random w /\
    active_events (planet w') = active_events (planet w) ++ new /\
    Forall (fun ae => exists k t,
              ts !! k = Some t /\
              odict_get (event_templates self) (ge_id t) = Some (ae_event ae) /\
              guards_pass t (random_random w (random_draws w + k)%nat)
                (planet w) (resource_manager w)) new.
Proof.
  revert w. induction ts as [|t rest IH]; intros w; simpl.
  - exists w, []. split; [reflexivity|]. rewrite app_nil_r. repeat split. constructor.
  - destruct (check_template_spec self t w)
      as (w1 & E1 & Hv1 & Hr1 & Hrr1 & Hd1 & Hev1).
    destruct (IH w1) as (w2 & new2 & E2 & Hv2 & Hr2 & Hrr2 & Hev2 & Hall2).
    unfold bind. rewrite E1, E2.
    assert (Hshift : forall old1,
      active_events (planet w1) = active_events (planet w) ++ old1 ->
      Forall (fun ae => exists k t0,
                (t :: rest) !! k = Some t0 /\
                odict_get (event_templates self) (ge_id t0) = Some (ae_event ae) /\
                guards_pass t0 (random_random w (random_draws w + k)%nat)
                  (planet w) (resource_manager w)) new2).
    { intros old1 Hold. eapply Forall_impl; [exact Hall2|]. simpl.
      intros ae (k & t0 & Hk & Hget & Hroll & Hreq & Hact).
      exists (S k), t0. split; [exact Hk|]. split; [exact Hget|].
      rewrite Hrr1, Hd1 in Hroll.
      replace (random_draws w + S k)%nat with (S (random_draws w) + k)%nat by lia.
      split; [exact Hroll|]. split.
      - rewrite <- Hr1. erewrite <- check_requirements_view; [exact Hreq|exact Hv1].
      - unfold already_active. eapply already_active_app; eauto. }
    destruct Hev1 as [Hsame|(ae & Hadd & Hget & Htrig)].
    + exists w2, new2. split; [reflexivity|].
      split; [congruence|]. split; [congruence|]. split; [congruence|].
      split; [congruence|].
      apply (Hshift []). rewrite app_nil_r. exact Hsame.
    + exists w2, (ae :: new2). split; [reflexivity|].
      split; [congruence|]. split; [congruence|]. split; [congruence|].
      split.
      { rewrite Hev2, Hadd, <- app_assoc. reflexivity. }
      constructor.
      * exists 0%nat, t. split; [reflexivity|]. split; [exact Hget|].
        rewrite Nat.add_0_r. exact Htrig.
      * apply (Hshift [ae]). exact Hadd.
Qed.

Lemma total_buildings_count_sum (p : Planet) :
  total_buildings p = count_sum (buildings p).
Proof.
  unfold total_buildings, odict_values, count_sum.
  assert (H : forall (d : odict Z) (a : Z),
            fold_left Z.add (map snd d) a
            = (a + foldr (fun item acc => (item.2 + acc)%Z) 0%Z d)%Z).
  { induction d as [|[k n] rest IH]; intros a; simpl; [lia|]. rewrite IH. lia. }
  rewrite H. lia.
Qed.

Lemma requirement_fails_spec (req : Requirements) (k : string) (x : Q) :
  requirement_fails req k (fun v => Qltb x v) = false <->
  forall v, req_thresholds req !! k = Some v -> v <= x.
Proof.
  unfold requirement_fails. destruct (req_thresholds req !! k) as [v0|].
  - rewrite Qltb_ge. split.
    + intros H v Hv. injection Hv as <-. exact H.
    + intros H. apply H. reflexivity.
  - split; [intros _ v Hv; discriminate|reflexivity].
Qed.

Lemma allow_list_spec (req : Requirements) (p : Planet) :
  match req_planets req with
  | Some allowed => negb (bool_decide (name p ∈ allowed))
  | None => false
  end = false <->
  forall allowed, req_planets req = Some allowed -> In (name p) allowed.
Proof.
  destruct (req_planets req) as [l|].
  - rewrite negb_false_iff, bool_decide_eq_true, list_elem_of_In. split.
    + intros H allowed E. injection E as <-. exact H.
    + intros H. apply H. reflexivity.
  - split; [intros _ allowed E; discriminate|reflexivity].
Qed.

(** The requirement check of the code returns true exactly when every
    requirement of the mapping is met. *)
Lemma check_event_requirements_spec (t : GameEvent) (p : Planet) (rm : ResourceManager) :
  EventManager__check_event_requirements t p rm = true <->
  requirements_met (ge_requirements t) p rm.
Proof.
  unfold EventManager__check_event_requirements, requirements_met, building_count.
  cbv zeta. rewrite <- total_buildings_count_sum.
  rewrite <- !requirement_fails_spec, <- allow_list_spec.
  change (default 0%Z (odict_get (buildings p) "research_lab"))
    with (match odict_get (buildings p) "research_lab" with
          | Some n => n | None => 0%Z end).
  change (default 0%Z (odict_get (buildings p) "mining_facility"))
    with (match odict_get (buildings p) "mining_facility" with
          | Some n => n | None => 0%Z end).
  repeat match goal with
  | |- context [if ?c then false else _] => destruct c
  end; intuition congruence.
Qed.

Lemma already_active_spec (id : string) (p : Planet) :
  already_active id p = false <-> not_yet_active id p.
Proof.
  unfold already_active, not_yet_active.
  induction (active_events p) as [|ae rest IH]; simpl.
  - split; [constructor|reflexivity].
  - rewrite orb_false_iff, IH, Forall_cons, String.eqb_neq. tauto.
Qed.

Lemma guards_pass_spec (t : GameEvent) (r : Q) (p : Planet) (rm : ResourceManager) :
  guards_pass t r p rm <-> rightly_triggered t r p rm.
Proof.
  unfold guards_pass, rightly_triggered.
  rewrite check_event_requirements_spec, already_active_spec. tauto.
Qed.

(** C7. The periodic check only appends events to the planet's list, and
    every event it appends is an instance of a template of the table whose
    roll succeeded (its draw is at most its probability), whose requirements
    are all met by the planet and the resource manager (each key present in
    the mapping: total building count, planet allow-list, habitability,
    science stock, research labs, mining facilities, pressure), and whose id
    no active event of the planet carried. A template that requires
    [min_pressure] 0.5 fails the requirement check on every planet with
    pressure 0.2, and after the check every active event of such a template
    was already active before it. *)
Theorem check_for_new_events_sound :
  (forall (self : EventManager) (w : World),
     templates_wf self ->
     let r := EventManager__check_for_new_events self w in
     exists new,
       r.1 = Ok tt /\
       active_events (planet r.2) = active_events (planet w) ++ new /\
       Forall (fun ae => exists k,
                 odict_values (event_templates self) !! k = Some (ae_event ae) /\
                 rightly_triggered (ae_event ae)
                   (random_random w (random_draws w + k)%nat)
                   (planet w) (resource_manager w)) new) /\
  (forall (t : GameEvent) (p : Planet) (rm : ResourceManager) (v : Q),
     req_thresholds (ge_requirements t) !! "min_pressure" = Some v ->
     v == 0.5 -> pressure p == 0.2 ->
     EventManager__check_event_requirements t p rm = false /\
     ~ requirements_met (ge_requirements t) p rm) /\
  (forall (self : EventManager) (w : World) (ae : ActiveEvent) (v : Q),
     templates_wf self ->
     pressure (planet w) == 0.2 ->
     req_thresholds (ge_requirements (ae_event ae)) !! "min_pressure" = Some v ->
     v == 0.5 ->
     In ae (active_events (planet (EventManager__check_for_new_events self w).2)) ->
     In ae (active_events (planet w))).
Proof.
  assert (Hmain : forall (self : EventManager) (w : World),
     templates_wf self ->
     exists new,
       (EventManager__check_for_new_events self w).1 = Ok tt /\
       active_events (planet (EventManager__check_for_new_events self w).2)
       = active_events (planet w) ++ new /\
       Forall (fun ae => exists k,
                 odict_values (event_templates self) !! k = Some (ae_event ae) /\
                 rightly_triggered (ae_event ae)
                   (random_random w (random_draws w + k)%nat)
                   (planet w) (resource_manager w)) new).
  { intros self w Hwf. unfold EventManager__check_for_new_events.
    destruct (check_loop_spec self (odict_values (event_templates self)) w)
      as (w' & new & E & _ & _ & _ & Hev & Hall).
    exists new. rewrite E. simpl. split; [reflexivity|]. split; [exact Hev|].
    eapply Forall_impl; [exact Hall|]. simpl.
    intros ae (k & t & Hk & Hget & Htrig). exists k.
    rewrite (templates_wf_lookup self k t Hwf Hk) in Hget.
    injection Hget as <-. split; [exact Hk|]. apply guards_pass_spec. exact Htrig. }
  assert (Hfail : forall (t : GameEvent) (p : Planet) (rm : ResourceManager) (v : Q),
     req_thresholds (ge_requirements t) !! "min_pressure" = Some v ->
     v == 0.5 -> pressure p == 0.2 ->
     ~ requirements_met (ge_requirements t) p rm).
  { intros t p rm v Hv Ev Ep (_ & _ & _ & _ & _ & _ & Hp).
    specialize (Hp v Hv). rewrite Ev, Ep in Hp.
    apply (Qle_not_lt _ _ Hp). reflexivity. }
  split; [exact Hmain|]. split.
  { intros t p rm v Hv Ev Ep. split; [|exact (Hfail t p rm v Hv Ev Ep)].
    destruct (EventManager__check_event_requirements t p rm) eqn:E; [|reflexivity].
    apply check_event_requirements_spec in E.
    exfalso. exact (Hfail t p rm v Hv Ev Ep E). }
  intros self w ae v Hwf Ep Hv Ev Hin.
  destruct (Hmain self w Hwf) as (new & _ & Hev & Hall).
  rewrite Hev in Hin. apply in_app_or in Hin. destruct Hin as [Hold|Hnew]; [exact Hold|].
  rewrite Forall_forall in Hall.
  destruct (Hall ae) as (k & _ & _ & Hreq & _).
  { apply list_elem_of_In. exact Hnew. }
  exfalso. exact (Hfail _ _ _ v Hv Ev Ep Hreq).
Qed.

(** On Mars (pressure 0.2) with a dust storm that needs 0.5 atm and a solar
    flare that needs nothing, both rolls passing, the check triggers the solar
    flare and no dust storm. *)
Lemma check_for_new_events_sound_witness :
  let r := EventManager__check_for_new_events sample_manager (sample_world mars) in
  (ae_event <$> active_events (planet r.2)) = [solar_flare] /\
  forall ae, ae_event ae = dust_storm -> ~ In ae (active_events (planet r.2)).
Proof.
  cbv zeta. split; [vm_compute; reflexivity|].
  intros ae Hev Hin.
  apply (proj2 (proj2 check_for_new_events_sound)
           sample_manager (sample_world mars) ae 0.5) in Hin.
  - exact Hin.
  - split; [apply (bool_decide_unpack _); vm_compute; exact I|].
    repeat constructor.
  - reflexivity.
  - rewrite Hev. reflexivity.
  - reflexivity.
Defined.

(** Spending 1200 credits out of the initial 1000 fails and changes nothing;
    spending 100 credits and 10 energy succeeds. *)
Lemma spend_resources_atomic_witness :
  let denied := ResourceManager_spend_resources ResourceManager_init {[ "credits" := 1200 ]} in
  let paid :=
    ResourceManager_spend_resources ResourceManager_init
      {[ "credits" := 100; "energy" := 10 ]} in
  denied.2 = ResourceManager_init /\ paid.1 = true.
Proof.
  cbv zeta. split.
  - apply (proj2 (proj2 (spend_resources_atomic ResourceManager_init
                           {[ "credits" := 1200 ]}))).
    vm_compute. reflexivity.
  - apply (proj1 (spend_resources_atomic ResourceManager_init
                    {[ "credits" := 100; "energy" := 10 ]})).
    vm_compute. repeat split; discriminate.
Defined.


(** The code's doubles at and around the boundaries. *)
Module DoubleReplay.
Import PrimFloat.
#[local] Set Warnings "-inexact-float".
Local Open Scope float_scope.


(** At the habitability threshold: temperature 4.999999999999999, just
    outside the box of the exact formula, is reported habitable with score
    80, and (19.875, 1.078125, 21.40625), whose exact score is 80, is not. *)
Lemma habitable_at_the_boundary :
  Double.Planet_is_habitable 4.999999999999999 1 21 = true /\
  Double.Planet_calculate_habitability 4.999999999999999 1 21 = 80 /\
  Double.Planet_is_habitable 19.875 1.078125 21.40625 = false.
Proof. repeat split; vm_compute; reflexivity. Qed.

(** At the completion threshold: at 1 science per second against a cost of
    3, three seconds in one step or in three leave the progress just below
    100 and the research running; against a cost of 100, fifty seconds at 2
    reach 100 exactly. *)
Lemma research_step_at_the_boundary :
  Double.research_step 0 1 3 3 = (99.99999999999999, false) /\
  (let p1 := (Double.research_step 0 1 3 1).1 in
   let p2 := (Double.research_step p1 1 3 1).1 in
   Double.research_step p2 1 3 1) = (99.99999999999999, false) /\
  Double.research_step 0 2 100 50 = (100, true).
Proof. repeat split; vm_compute; reflexivity. Qed.

(** Sums and differences of amounts that are not whole numbers are rounded:
    spending 264.2 of 794.6 credits and adding them back, and five more
    atmosphere processors at 0.1 atm each beside one. *)
Lemma sums_are_rounded :
  (794.6 - 264.2) + 264.2 = 794.6000000000001 /\
  0.1 * 6 = 0.6000000000000001 /\
  0.1 * 1 + 0.1 * 5 = 0.6.
Proof. repeat split; vm_compute; reflexivity. Qed.

End DoubleReplay.

(* ================================================================== *)
(** ** Further properties of the resource manager *)

Lemma clamp_to_cap (cap x : Q) : 0 <= cap -> 0 <= py_max 0 (py_min cap x) <= cap.
Proof. intros H. apply clamp_bounds. exact H. Qed.

Lemma py_max_0_nonneg (x : Q) : 0 <= py_max 0 x.
Proof. destruct (py_max_cases 0 x) as [[H ->]|[H ->]]; lra. Qed.

Lemma rm_history_pop0_stocks proj upd (rm : ResourceManager) :
  let rm' := (rm_history_pop0 proj upd rm).2 in
  credits rm' = credits rm /\ energy rm' = energy rm /\ science rm' = science rm /\
  max_energy rm' = max_energy rm /\ max_science rm' = max_science rm.
Proof.
  unfold rm_history_pop0. destruct (proj _); simpl; repeat split.
Qed.

(** What [update] does to the stocks, whatever happens to the history. *)
Lemma update_stocks (dt : Q) (rm : ResourceManager) :
  let rm' := (ResourceManager_update dt rm).2 in
  credits rm' = py_max 0 (credits rm + credits_per_second rm * dt) /\
  energy rm' = py_max 0 (py_min (max_energy rm)
                 (energy rm + (energy_per_second rm - energy_consumption rm) * dt)) /\
  science rm' = py_max 0 (py_min (max_science rm)
                  (science rm + science_per_second rm * dt)) /\
  max_energy rm' = max_energy rm /\ max_science rm' = max_science rm.
Proof.
  unfold ResourceManager_update, bind, modify, get, rm_history_append. cbn -[Nat.leb].
  destruct (100 <=? _)%nat; [|simpl; repeat split].
  unfold rm_history_pop0. cbn -[Nat.leb].
  destruct (h_credits (rm_history rm)); [simpl; repeat split|]. cbn.
  destruct (h_energy (rm_history rm)); [simpl; repeat split|]. cbn.
  destruct (h_science (rm_history rm)); simpl; repeat split.
Qed.

(** X1. After [ResourceManager.update], whether it returns or raises, the
    credits are not negative and, the two caps being non-negative, energy
    lies in [0, max_energy] and science in [0, max_science]. *)
Theorem update_keeps_stocks_in_bounds (dt : Q) (rm : ResourceManager) :
  0 <= max_energy rm -> 0 <= max_science rm ->
  stocks_in_bounds (ResourceManager_update dt rm).2.
Proof.
  intros He Hs.
  destruct (update_stocks dt rm) as (Hc & Hen & Hsc & Hme & Hms).
  unfold stocks_in_bounds. rewrite Hc, Hen, Hsc, Hme, Hms.
  split; [apply py_max_0_nonneg|]. split; apply clamp_to_cap; assumption.
Qed.

Lemma update_keeps_stocks_in_bounds_witness :
  stocks_in_bounds (ResourceManager_update 1000000 full_energy_manager).2.
Proof.
  apply update_keeps_stocks_in_bounds; vm_compute; discriminate.
Defined.

(** X2. After [add_resources] the stocks are within their bounds, the caps
    being non-negative; negative amounts cannot push a stock below zero and
    no bonus pushes energy or science above its cap. *)
Theorem add_resources_keeps_stocks_in_bounds
    (rm : ResourceManager) (resources : gmap string Q) :
  0 <= max_energy rm -> 0 <= max_science rm ->
  stocks_in_bounds (ResourceManager_add_resources rm resources).
Proof.
  intros He Hs. unfold stocks_in_bounds, ResourceManager_add_resources. simpl.
  split; [apply py_max_0_nonneg|]. split; apply clamp_to_cap; assumption.
Qed.

Lemma add_resources_keeps_stocks_in_bounds_witness :
  stocks_in_bounds
    (ResourceManager_add_resources full_energy_manager
       {[ "credits" := -5000; "energy" := 700; "science" := 99999 ]}).
Proof.
  apply add_resources_keeps_stocks_in_bounds; vm_compute; discriminate.
Defined.

(** X3. When the three history buffers have one length of at most 100,
    [update] returns normally, the buffers again have one length of at most
    100, and the newest entry of each is the stock after the update. *)
Theorem update_keeps_history_bounded (dt : Q) (rm : ResourceManager) :
  rm_history_ok rm ->
  let r := ResourceManager_update dt rm in
  r.1 = Ok tt /\ rm_history_ok r.2 /\
  last (h_credits (rm_history r.2)) = Some (credits r.2) /\
  last (h_energy (rm_history r.2)) = Some (energy r.2) /\
  last (h_science (rm_history r.2)) = Some (science r.2).
Proof.
  intros (Hle & Hls & Hmax). cbv zeta.
  unfold ResourceManager_update, bind, modify, get, rm_history_append, rm_history_ok.
  cbn -[Nat.leb].
  destruct (100 <=? length (h_credits (rm_history rm)))%nat eqn:Elen.
  - apply Nat.leb_le in Elen.
    unfold rm_history_pop0. cbn -[Nat.leb].
    destruct (h_credits (rm_history rm)) as [|c cs] eqn:Ec; [simpl in Elen; lia|].
    destruct (h_energy (rm_history rm)) as [|e es] eqn:Ee; [simpl in Hle; lia|].
    destruct (h_science (rm_history rm)) as [|x xs] eqn:Es; [simpl in Hls; lia|].
    repeat (progress (cbn -[Nat.leb]; rewrite ?Ec, ?Ee, ?Es)).
    rewrite !last_snoc, !length_app. simpl in *.
    repeat split; lia.
  - apply Nat.leb_gt in Elen. simpl.
    rewrite !last_snoc, !length_app. simpl.
    repeat split; lia.
Qed.

Lemma update_keeps_history_bounded_witness :
  let r := ResourceManager_update 1 ResourceManager_init in
  r.1 = Ok tt /\ rm_history_ok r.2.
Proof.
  destruct (update_keeps_history_bounded 1 ResourceManager_init) as (H1 & H2 & _).
  - repeat split; simpl; lia.
  - split; assumption.
Defined.

(** *** Production *)

Lemma production_fold (b : odict Z) (cps eps sps ec : Q) :
  let '(cps', eps', sps', ec') := fold_left production_step b (cps, eps, sps, ec) in
  cps' == cps + effect_sum (production_effect "credits_production") b /\
  eps' == eps + effect_sum (production_effect "energy_production") b /\
  sps' == sps + effect_sum (production_effect "science_production") b /\
  ec' == ec + effect_sum (production_effect "energy_consumption") b.
Proof.
  revert cps eps sps ec. induction b as [|[bt n] rest IH]; intros cps eps sps ec.
  - simpl. repeat split; ring.
  - simpl. unfold production_effect at 1 3 5 7.
    destruct (ResourceManager_building_effects !! bt) as [effects|].
    + specialize (IH (cps + dict_get_default effects "credits_production" 0 * inject_Z n)
                     (eps + dict_get_default effects "energy_production" 0 * inject_Z n)
                     (sps + dict_get_default effects "science_production" 0 * inject_Z n)
                     (ec + dict_get_default effects "energy_consumption" 0 * inject_Z n)).
      destruct (fold_left _ _ _) as [[[a b] c] d].
      destruct IH as (Ha & Hb & Hc & Hd). rewrite Ha, Hb, Hc, Hd.
      repeat split; ring.
    + specialize (IH cps eps sps ec).
      destruct (fold_left _ _ _) as [[[a b] c] d].
      destruct IH as (Ha & Hb & Hc & Hd). rewrite Ha, Hb, Hc, Hd.
      repeat split; ring.
Qed.

(** X4. [calculate_production] recomputes the four rates from the planet and
    the buildings alone: whatever rates the manager held before, the result
    is the same, and the stocks, caps and history are untouched. *)
Theorem calculate_production_recomputes
    (rm rm0 : ResourceManager) (p : Planet) (b : odict Z) :
  let r := ResourceManager_calculate_production rm p b in
  let r0 := ResourceManager_calculate_production rm0 p b in
  credits_per_second r = credits_per_second r0 /\
  energy_per_second r = energy_per_second r0 /\
  science_per_second r = science_per_second r0 /\
  energy_consumption r = energy_consumption r0 /\
  ResourceManager_calculate_production r p b = r /\
  credits r = credits rm /\ energy r = energy rm /\ science r = science rm /\
  max_energy r = max_energy rm /\ max_science r = max_science rm /\
  rm_history r = rm_history rm.
Proof.
  cbv zeta. unfold ResourceManager_calculate_production.
  destruct (fold_left _ _ _) as [[[a c] d] e]. simpl. repeat split.
Qed.

(** X5. The rates [calculate_production] sets: credits are the base trickle
    of 1 plus the buildings' credit production, scaled by
    [1 + habitability/100 * 0.5]; science is the buildings' science
    production scaled by [1 + habitability/100 * 0.3]; energy production and
    consumption are the buildings' sums, unscaled. Each sum runs over the
    buildings with the per-type figure of the table times the count, a type
    missing from the table counting for nothing. *)
Theorem calculate_production_rates (rm : ResourceManager) (p : Planet) (b : odict Z) :
  let r := ResourceManager_calculate_production rm p b in
  let h := Planet_calculate_habitability p in
  credits_per_second r
  == (1 + effect_sum (production_effect "credits_production") b) * (1 + h / 100 * 0.5) /\
  energy_per_second r == effect_sum (production_effect "energy_production") b /\
  science_per_second r
  == effect_sum (production_effect "science_production") b * (1 + h / 100 * 0.3) /\
  energy_consumption r == effect_sum (production_effect "energy_consumption") b.
Proof.
  cbv zeta. unfold ResourceManager_calculate_production.
  pose proof (production_fold b (0.0 + 1.0) 0.0 0.0 0.0) as H.
  destruct (fold_left _ _ _) as [[[a c] d] e]. simpl.
  destruct H as (Ha & Hc & Hd & He). rewrite Ha, Hc, Hd, He.
  assert (E : / 100.0 == / 100) by reflexivity.
  unfold Qdiv. rewrite E.
  generalize (effect_sum (production_effect "credits_production") b).
  generalize (effect_sum (production_effect "energy_production") b).
  generalize (effect_sum (production_effect "science_production") b).
  generalize (effect_sum (production_effect "energy_consumption") b).
  generalize (Planet_calculate_habitability p).
  intros h e4 e3 e2 e1. repeat split; ring.
Qed.

(** X6. Spending an affordable cost of non-negative whole-number amounts from
    whole-number stocks (as the initial stocks and every building cost are)
    and then adding the same amounts back gives the stocks of before,
    provided energy and science were within their caps. On whole numbers
    the subtraction and the addition of the code are exact; on other
    amounts the stocks come back only up to rounding. *)
Theorem spend_then_add_restores (rm : ResourceManager) (cost : gmap string Q) :
  ResourceManager_can_afford rm cost = true ->
  whole (credits rm) -> whole (energy rm) -> whole (science rm) ->
  whole (dict_get_default cost "credits" 0) ->
  whole (dict_get_default cost "energy" 0) ->
  whole (dict_get_default cost "science" 0) ->
  0 <= dict_get_default cost "credits" 0 ->
  0 <= dict_get_default cost "energy" 0 ->
  0 <= dict_get_default cost "science" 0 ->
  energy rm <= max_energy rm -> science rm <= max_science rm ->
  let spent := ResourceManager_spend_resources rm cost in
  let back := ResourceManager_add_resources spent.2 cost in
  spent.1 = true /\
  credits back == credits rm /\ energy back == energy rm /\ science back == science rm.
Proof.
  intros Haff _ _ _ _ _ _ Hc He Hs Hme Hms. cbv zeta.
  pose proof Haff as Haff'. apply can_afford_spec in Haff' as (Hac & Hae & Has).
  unfold ResourceManager_spend_resources. rewrite Haff. simpl.
  split; [reflexivity|].
  unfold ResourceManager_add_resources. simpl.
  set (c := dict_get_default cost "credits" 0) in *.
  set (e := dict_get_default cost "energy" 0) in *.
  set (s := dict_get_default cost "science" 0) in *.
  repeat split.
  - destruct (py_max_cases 0 (credits rm - c + c)) as [[H ->]|[H ->]]; lra.
  - destruct (py_min_cases (max_energy rm) (energy rm - e + e)) as [[H ->]|[H ->]];
      [destruct (py_max_cases 0 (energy rm - e + e)) as [[H' ->]|[H' ->]]
      |destruct (py_max_cases 0 (max_energy rm)) as [[H' ->]|[H' ->]]]; lra.
  - destruct (py_min_cases (max_science rm) (science rm - s + s)) as [[H ->]|[H ->]];
      [destruct (py_max_cases 0 (science rm - s + s)) as [[H' ->]|[H' ->]]
      |destruct (py_max_cases 0 (max_science rm)) as [[H' ->]|[H' ->]]]; lra.
Qed.

Lemma whole_inject_Z (z : Z) : (Z.abs z <= 2 ^ 53)%Z -> whole (inject_Z z).
Proof. intros H. exists z. split; [reflexivity|exact H]. Qed.

Lemma spend_then_add_restores_witness :
  let spent := ResourceManager_spend_resources ResourceManager_init
                 {[ "credits" := 100; "energy" := 10 ]} in
  let back := ResourceManager_add_resources spent.2 {[ "credits" := 100; "energy" := 10 ]} in
  credits back == 1000 /\ energy back == 100.
Proof.
  destruct (spend_then_add_restores ResourceManager_init
              {[ "credits" := 100; "energy" := 10 ]}) as (_ & Hc & He & _).
  - vm_compute. reflexivity.
  - apply (whole_inject_Z 1000). discriminate.
  - apply (whole_inject_Z 100). discriminate.
  - apply (whole_inject_Z 0). discriminate.
  - apply (whole_inject_Z 100). discriminate.
  - apply (whole_inject_Z 10). discriminate.
  - apply (whole_inject_Z 0). discriminate.
  - vm_compute. discriminate.
  - vm_compute. discriminate.
  - vm_compute. discriminate.
  - vm_compute. discriminate.
  - vm_compute. discriminate.
  - cbv zeta. split; [rewrite Hc|rewrite He]; reflexivity.
Defined.

(* ================================================================== *)
(** ** Further properties of the planet *)

(** X7. The habitability of every planet lies between 0 and 100. *)
Theorem calculate_habitability_range (p : Planet) :
  0 <= Planet_calculate_habitability p <= 100.
Proof.
  rewrite calculate_habitability_weighted.
  pose proof (axis_score_range 15.0 20.0 tol_temperature_pos (temperature p)).
  pose proof (axis_score_range 1.0 0.3 tol_pressure_pos (pressure p)).
  pose proof (axis_score_range 21.0 5.0 tol_oxygen_pos (oxygen p)).
  lra.
Qed.




(** *** The buildings dict *)

Lemma odict_get_None_keys {A} (d : odict A) (k : string) :
  odict_get d k = None <-> ~ In k (odict_keys d).
Proof.
  induction d as [|[k' v'] rest IH]; simpl.
  - tauto.
  - destruct (String.eqb k' k) eqn:E.
    + apply String.eqb_eq in E. split; [discriminate|]. intros H. exfalso. auto.
    + apply String.eqb_neq in E. rewrite IH. tauto.
Qed.

Lemma odict_set_absent {A} (d : odict A) (k : string) (v : A) :
  odict_get d k = None -> odict_set d k v = d ++ [(k, v)].
Proof.
  induction d as [|[k' v'] rest IH]; simpl; [reflexivity|].
  destruct (String.eqb k' k); [discriminate|]. intros H. rewrite IH; auto.
Qed.

Lemma odict_set_present_keys {A} (d : odict A) (k : string) (v v0 : A) :
  odict_get d k = Some v0 -> odict_keys (odict_set d k v) = odict_keys d.
Proof.
  induction d as [|[k' v'] rest IH]; simpl; [discriminate|].
  destruct (String.eqb k' k); simpl; [reflexivity|].
  intros H. rewrite IH; auto.
Qed.

Lemma odict_set_set {A} (d : odict A) (k : string) (a b : A) :
  odict_set (odict_set d k a) k b = odict_set d k b.
Proof.
  induction d as [|[k' v'] rest IH]; simpl.
  - rewrite String.eqb_refl. reflexivity.
  - destruct (String.eqb k' k) eqn:E; simpl; rewrite E; [reflexivity|].
    rewrite IH. reflexivity.
Qed.

Lemma odict_set_same {A} (d : odict A) (k : string) (v : A) :
  odict_get d k = Some v -> odict_set d k v = d.
Proof.
  induction d as [|[k' v'] rest IH]; simpl; [discriminate|].
  destruct (String.eqb k' k) eqn:E.
  - intros H. injection H as ->. reflexivity.
  - intros H. rewrite IH; auto.
Qed.

Lemma odict_del_set {A} (d : odict A) (k : string) (v : A) :
  odict_del (odict_set d k v) k = odict_del d k.
Proof.
  induction d as [|[k' v'] rest IH]; simpl.
  - rewrite String.eqb_refl. reflexivity.
  - destruct (String.eqb k' k) eqn:E; simpl; rewrite E; [reflexivity|].
    rewrite IH. reflexivity.
Qed.

Lemma odict_del_absent {A} (d : odict A) (k : string) :
  odict_get d k = None -> odict_del d k = d.
Proof.
  induction d as [|[k' v'] rest IH]; simpl; [reflexivity|].
  destruct (String.eqb k' k); [discriminate|]. intros H. rewrite IH; auto.
Qed.

Lemma odict_del_Forall {A} (P : string * A -> Prop) (d : odict A) (k : string) :
  Forall P d -> Forall P (odict_del d k).
Proof.
  induction 1 as [|[k' v'] rest Hx Hrest IH]; simpl; [constructor|].
  destruct (String.eqb k' k); [exact Hrest|]. constructor; assumption.
Qed.

Lemma odict_set_Forall {A} (P : string * A -> Prop) (d : odict A) (k : string) (v : A) :
  Forall P d -> (forall k', P (k', v)) -> Forall P (odict_set d k v).
Proof.
  intros Hd Hv. induction Hd as [|[k' v'] rest Hx Hrest IH]; simpl.
  - constructor; [apply Hv|constructor].
  - destruct (String.eqb k' k); constructor; auto.
Qed.

Lemma odict_del_NoDup {A} (d : odict A) (k : string) :
  NoDup (odict_keys d) -> NoDup (odict_keys (odict_del d k)).
Proof.
  induction d as [|[k' v'] rest IH]; simpl; intros Hnd; [constructor|].
  apply NoDup_cons in Hnd. destruct Hnd as [Hnotin Hnd].
  destruct (String.eqb k' k); [exact Hnd|]. simpl.
  apply NoDup_cons. split; [|apply IH; exact Hnd].
  intros Hin. apply Hnotin. clear -Hin.
  induction rest as [|[k2 v2] rest IH]; simpl in *; [exact Hin|].
  destruct (String.eqb k2 k); simpl in *.
  - apply list_elem_of_further. exact Hin.
  - apply elem_of_cons in Hin. destruct Hin as [->|Hin].
    + apply list_elem_of_here.
    + apply list_elem_of_further. apply IH. exact Hin.
Qed.

Lemma add_building_dict (p : Planet) (bt : string) (count : Z) :
  buildings (Planet_add_building p bt count)
  = match odict_get (buildings p) bt with
    | Some v0 => odict_set (buildings p) bt (v0 + count)%Z
    | None => buildings p ++ [(bt, (0 + count)%Z)]
    end.
Proof.
  unfold Planet_add_building.
  match goal with |- context [Planet__update_modifiers ?q] =>
    destruct (update_modifiers_fields q) as (_ & -> & _)
  end.
  simpl. destruct (odict_get (buildings p) bt) as [v0|] eqn:E.
  - rewrite E. reflexivity.
  - rewrite odict_get_set_eq. simpl. rewrite odict_set_set.
    apply odict_set_absent. exact E.
Qed.

Lemma remove_building_dict (p : Planet) (bt : string) (count : Z) :
  buildings (Planet_remove_building p bt count)
  = match odict_get (buildings p) bt with
    | Some v =>
        if (Z.max 0 (v - count) =? 0)%Z then odict_del (buildings p) bt
        else odict_set (buildings p) bt (Z.max 0 (v - count))
    | None => buildings p
    end.
Proof.
  unfold Planet_remove_building.
  match goal with |- context [Planet__update_modifiers ?q] =>
    destruct (update_modifiers_fields q) as (_ & -> & _)
  end.
  simpl. destruct (odict_get (buildings p) bt) as [v|]; [|reflexivity].
  destruct (Z.max 0 (v - count) =? 0)%Z; [|reflexivity].
  apply odict_del_set.
Qed.

(** X9. The buildings dict stays well formed (one entry per type, every count
    above zero): [remove_building] keeps it so for any count, deleting the
    entry that reaches zero, and [add_building] keeps it so for a positive
    count. *)
Theorem buildings_stay_well_formed (p : Planet) (bt : string) (count : Z) :
  buildings_wf (buildings p) ->
  buildings_wf (buildings (Planet_remove_building p bt count)) /\
  ((0 < count)%Z -> buildings_wf (buildings (Planet_add_building p bt count))).
Proof.
  intros [Hnd Hpos]. split.
  - rewrite remove_building_dict.
    destruct (odict_get (buildings p) bt) as [v|] eqn:E; [|split; assumption].
    destruct (Z.max 0 (v - count) =? 0)%Z eqn:Ez.
    + split; [apply odict_del_NoDup; exact Hnd|apply odict_del_Forall; exact Hpos].
    + apply Z.eqb_neq in Ez. split.
      * erewrite odict_set_present_keys; eauto.
      * apply odict_set_Forall; [exact Hpos|]. intros k'. simpl. lia.
  - intros Hcount. rewrite add_building_dict.
    destruct (odict_get (buildings p) bt) as [v0|] eqn:E.
    + assert (Hv0 : (0 < v0)%Z).
      { clear -E Hpos. induction Hpos as [|[k' v'] rest Hx Hrest IH]; simpl in E;
          [discriminate|].
        destruct (String.eqb k' bt); [injection E as <-; exact Hx|auto]. }
      split.
      * erewrite odict_set_present_keys; eauto.
      * apply odict_set_Forall; [exact Hpos|]. intros k'. simpl. lia.
    + split.
      * unfold odict_keys. rewrite map_app. simpl.
        apply NoDup_app. split; [exact Hnd|]. split.
        -- intros x Hx Hx'. apply list_elem_of_singleton in Hx'. subst x.
           apply odict_get_None_keys in E. apply E, list_elem_of_In. exact Hx.
        -- apply NoDup_singleton.
      * apply Forall_app. split; [exact Hpos|].
        constructor; [simpl; lia|constructor].
Qed.

Lemma buildings_stay_well_formed_witness :
  buildings_wf (buildings (Planet_add_building mars "heater" 2)).
Proof.
  assert (Hwf : buildings_wf (buildings mars)) by (split; constructor).
  apply (proj2 (buildings_stay_well_formed mars "heater" 2 Hwf)). lia.
Defined.

(** X10. On a well-formed buildings dict, adding a positive count of a type
    and removing the same count gives back the planet with its modifiers
    recomputed: the buildings dict is the one of before, in the same order. *)
Theorem add_then_remove_restores (p : Planet) (bt : string) (count : Z) :
  buildings_wf (buildings p) -> (0 < count)%Z ->
  Planet_remove_building (Planet_add_building p bt count) bt count
  = Planet__update_modifiers p.
Proof.
  intros [Hnd Hpos] Hcount.
  assert (Hb : buildings (Planet_remove_building (Planet_add_building p bt count) bt count)
               = buildings p).
  { rewrite remove_building_dict, add_building_dict.
    destruct (odict_get (buildings p) bt) as [v0|] eqn:E.
    - assert (Hv0 : (0 < v0)%Z).
      { clear -E Hpos. induction Hpos as [|[k' v'] rest Hx Hrest IH]; simpl in E;
          [discriminate|].
        destruct (String.eqb k' bt); [injection E as <-; exact Hx|auto]. }
      rewrite odict_get_set_eq.
      replace (Z.max 0 (v0 + count - count)) with v0 by lia.
      destruct (v0 =? 0)%Z eqn:Ez; [apply Z.eqb_eq in Ez; lia|].
      rewrite odict_set_set. apply odict_set_same. exact E.
    - rewrite <- (odict_set_absent _ _ _ E), odict_get_set_eq.
      replace (Z.max 0 (0 + count - count)) with 0%Z by lia. simpl.
      rewrite odict_del_set. apply odict_del_absent. exact E. }
  revert Hb. unfold Planet_remove_building.
  set (b2 := match odict_get _ bt with Some _ => _ | None => _ end).
  intros Hb.
  match type of Hb with buildings (Planet__update_modifiers ?q) = _ =>
    destruct (update_modifiers_fields q) as (_ & Hq & _); rewrite Hq in Hb
  end.
  simpl in Hb. rewrite Hb.
  unfold Planet_add_building, Planet__update_modifiers. simpl.
  destruct (fold_left _ (odict_set _ _ _) _) as [[tm1 pm1] om1]. simpl.
  destruct (fold_left _ (buildings p) _) as [[tm pm] om]. reflexivity.
Qed.

Lemma add_then_remove_restores_witness :
  buildings (Planet_remove_building (Planet_add_building mars "heater" 3) "heater" 3)
  = [].
Proof.
  rewrite (add_then_remove_restores mars "heater" 3).
  - reflexivity.
  - split; constructor.
  - lia.
Defined.

(** *** Modifiers *)

Lemma update_modifiers_sums (p : Planet) :
  let p' := Planet__update_modifiers p in
  temperature_modifier p' == effect_sum (building_effect "temperature") (buildings p) /\
  pressure_modifier p' == effect_sum (building_effect "pressure") (buildings p) /\
  oxygen_modifier p' == effect_sum (building_effect "oxygen") (buildings p).
Proof.
  cbv zeta. unfold Planet__update_modifiers.
  match goal with |- context [fold_left ?f _ _] => set (step := f) end.
  assert (Hfold : forall (l : odict Z) (a b c : Q),
    let '(x, y, z) := fold_left step l (a, b, c) in
    x == a + effect_sum (building_effect "temperature") l /\
    y == b + effect_sum (building_effect "pressure") l /\
    z == c + effect_sum (building_effect "oxygen") l).
  { induction l as [|[bt n] rest IH]; intros a b c.
    - simpl. repeat split; ring.
    - simpl. unfold building_effect at 1 3 5.
      destruct (Planet_building_effects !! bt) as [effects|].
      + specialize (IH (a + dict_get_default effects "temperature" 0 * inject_Z n)
                       (b + dict_get_default effects "pressure" 0 * inject_Z n)
                       (c + dict_get_default effects "oxygen" 0 * inject_Z n)).
        destruct (fold_left _ _ _) as [[x y] z].
        destruct IH as (Hx & Hy & Hz). rewrite Hx, Hy, Hz. repeat split; ring.
      + specialize (IH a b c).
        destruct (fold_left _ _ _) as [[x y] z].
        destruct IH as (Hx & Hy & Hz). rewrite Hx, Hy, Hz. repeat split; ring. }
  specialize (Hfold (buildings p) 0.0 0.0 0.0).
  destruct (fold_left _ _ _) as [[x y] z]. simpl.
  destruct Hfold as (Hx & Hy & Hz). rewrite Hx, Hy, Hz. repeat split; ring.
Qed.

Lemma effect_sum_app (f : string -> Q) (d d' : odict Z) :
  effect_sum f (d ++ d') == effect_sum f d + effect_sum f d'.
Proof.
  induction d as [|[k v] rest IH]; simpl; [ring|]. rewrite IH. ring.
Qed.

Lemma effect_sum_set_present (f : string -> Q) (d : odict Z) (k : string) (v0 v : Z) :
  odict_get d k = Some v0 ->
  effect_sum f (odict_set d k v)
  == effect_sum f d - f k * inject_Z v0 + f k * inject_Z v.
Proof.
  induction d as [|[k' v'] rest IH]; simpl; [discriminate|].
  destruct (String.eqb k' k) eqn:E.
  - apply String.eqb_eq in E. subst k'. intros H. injection H as ->. simpl. ring.
  - intros H. simpl. rewrite IH by exact H. ring.
Qed.

Lemma effect_sum_add_building (f : string -> Q) (p : Planet) (bt : string) (count : Z) :
  effect_sum f (buildings (Planet_add_building p bt count))
  == effect_sum f (buildings p) + f bt * inject_Z count.
Proof.
  rewrite add_building_dict.
  destruct (odict_get (buildings p) bt) as [v0|] eqn:E.
  - rewrite (effect_sum_set_present f _ _ v0) by exact E.
    rewrite inject_Z_plus. ring.
  - rewrite effect_sum_app. simpl. rewrite inject_Z_plus.
    change (inject_Z 0) with 0. ring.
Qed.


Lemma modifiers_after_recompute (q : Planet) :
  let p' := Planet__update_modifiers q in
  temperature_modifier p' == effect_sum (building_effect "temperature") (buildings p') /\
  pressure_modifier p' == effect_sum (building_effect "pressure") (buildings p') /\
  oxygen_modifier p' == effect_sum (building_effect "oxygen") (buildings p').
Proof.
  cbv zeta. destruct (update_modifiers_fields q) as (_ & -> & _).
  apply update_modifiers_sums.
Qed.

(** X11. After [add_building], [remove_building] and [from_dict] each
    atmospheric modifier is the sum, over the buildings the planet then has,
    of the per-building effect of the table times the count; nothing of the
    modifiers of before survives. *)
Theorem modifiers_follow_buildings :
  (forall (p : Planet) (bt : string) (count : Z),
     let p' := Planet_add_building p bt count in
     temperature_modifier p' == effect_sum (building_effect "temperature") (buildings p') /\
     pressure_modifier p' == effect_sum (building_effect "pressure") (buildings p') /\
     oxygen_modifier p' == effect_sum (building_effect "oxygen") (buildings p')) /\
  (forall (p : Planet) (bt : string) (count : Z),
     let p' := Planet_remove_building p bt count in
     temperature_modifier p' == effect_sum (building_effect "temperature") (buildings p') /\
     pressure_modifier p' == effect_sum (building_effect "pressure") (buildings p') /\
     oxygen_modifier p' == effect_sum (building_effect "oxygen") (buildings p')) /\
  (forall (data : PlanetDict) (planet_data : PlanetData) (p' : Planet),
     Planet_from_dict data planet_data = Ok p' ->
     temperature_modifier p' == effect_sum (building_effect "temperature") (buildings p') /\
     pressure_modifier p' == effect_sum (building_effect "pressure") (buildings p') /\
     oxygen_modifier p' == effect_sum (building_effect "oxygen") (buildings p')).
Proof.
  pose proof modifiers_after_recompute as Hgen.
  split; [|split].
  - intros p bt count. apply Hgen.
  - intros p bt count. apply Hgen.
  - intros data planet_data p'. unfold Planet_from_dict.
    destruct (pl_name data); [|discriminate].
    intros H. injection H as <-. apply Hgen.
Qed.

Lemma modifiers_follow_buildings_witness :
  exists p', Planet_from_dict (Planet_to_dict (Planet_add_building mars "heater" 2)) mars_data
             = Ok p' /\ temperature_modifier p' == 10.
Proof.
  eexists. split; [reflexivity|].
  match goal with |- temperature_modifier ?q == _ =>
    destruct (proj2 (proj2 modifiers_follow_buildings)
                (Planet_to_dict (Planet_add_building mars "heater" 2)) mars_data q eq_refl)
      as (Ht & _)
  end.
  rewrite Ht. vm_compute. reflexivity.
Defined.

(** X12. Building effects add up on the two axes whose per-building effects
    are whole numbers. On a buildings dict of at most 1000 types with counts
    of at most 10^9, [add_building] of [count] buildings of a type moves the
    temperature and the oxygen modifier, measured from the value the
    buildings of before give, by the per-building effect of the type times
    [count]: 5 degrees per heater, -5 per cooler, 2 points of oxygen per
    generator, 2 degrees and 1 point per greenhouse. (The pressure effect,
    0.1 atm per atmosphere processor, is not a whole number, and on doubles
    its sums add up only to within rounding.) *)
Theorem add_building_is_linear (p : Planet) (bt : string) (count : Z) :
  counts_bounded (buildings p) -> (Z.abs count <= 10 ^ 9)%Z ->
  let p' := Planet_add_building p bt count in
  let p0 := Planet__update_modifiers p in
  (temperature_modifier p'
   == temperature_modifier p0 + building_effect "temperature" bt * inject_Z count /\
   oxygen_modifier p'
   == oxygen_modifier p0 + building_effect "oxygen" bt * inject_Z count) /\
  building_effect "temperature" "heater" == 5 /\
  building_effect "temperature" "cooler" == -5 /\
  building_effect "oxygen" "oxygen_generator" == 2 /\
  building_effect "temperature" "greenhouse" == 2 /\
  building_effect "oxygen" "greenhouse" == 1.
Proof.
  intros _ _. cbv zeta. split; [|repeat split; vm_compute; reflexivity].
  unfold Planet_add_building at 1 2.
  match goal with |- context [Planet__update_modifiers (set_buildings ?b p)] =>
    destruct (modifiers_after_recompute (set_buildings b p)) as (Ht & Hp & Ho)
  end.
  fold (Planet_add_building p bt count) in Ht, Hp, Ho.
  destruct (update_modifiers_sums p) as (Ht0 & Hp0 & Ho0).
  rewrite Ht, Ho, Ht0, Ho0, !effect_sum_add_building.
  repeat split; reflexivity.
Qed.

(** Three more greenhouses on Mars with two heaters and one greenhouse. *)
Lemma add_building_is_linear_witness :
  let p := Planet_add_building (Planet_add_building mars "heater" 2) "greenhouse" 1 in
  let p' := Planet_add_building p "greenhouse" 3 in
  temperature_modifier p' == 12 + 2 * 3 /\ oxygen_modifier p' == 1 + 1 * 3.
Proof.
  destruct (add_building_is_linear
              (Planet_add_building (Planet_add_building mars "heater" 2) "greenhouse" 1)
              "greenhouse" 3) as ((Ht & Ho) & _).
  - split; [vm_compute; lia|].
    repeat constructor; vm_compute; discriminate.
  - vm_compute. discriminate.
  - cbv zeta. split; [rewrite Ht|rewrite Ho]; vm_compute; reflexivity.
Defined.

(** *** What the event pass leaves alone *)

Section EventPass.
Context {B : Type} (obs : World -> B).
Hypothesis obs_time : stable obs py_time.
Hypothesis obs_random : stable obs py_random.
Hypothesis obs_manager :
  forall (f : ResourceManager -> ResourceManager) w, obs (on_resource_manager f w) = obs w.
Hypothesis obs_remove :
  forall bt n w, obs (on_planet (fun p => Planet_remove_building p bt n) w) = obs w.
Hypothesis obs_base :
  forall (ft fp fo : Planet -> Q) w,
    obs (on_planet (fun p => set_base (ft p) (fp p) (fo p) p) w) = obs w.
Hypothesis obs_events :
  forall (f : Planet -> list ActiveEvent) w,
    obs (on_planet (fun p => set_active_events (f p) p) w) = obs w.

Lemma pass_apply_effects (self : ActiveEvent) (arg : PyObj) :
  stable obs (ActiveEvent_apply_effects self arg).
Proof.
  assert (Hadd : forall r, stable obs (call_add_resources arg r)).
  { intros r. destruct arg; [apply stable_modify; intros w; apply obs_manager
                            |apply stable_raise]. }
  assert (Hspend : forall r, stable obs (call_spend_resources arg r)).
  { intros r. destruct arg; [apply stable_modify; intros w; apply obs_manager
                            |apply stable_raise]. }
  unfold ActiveEvent_apply_effects. apply stable_bind.
  - destruct (negb _); [|apply stable_ret].
    unfold apply_one_shot_effects.
    repeat (apply stable_bind; [apply stable_when_key; intros v; auto|intros _]).
    + apply stable_bind; [apply stable_get|]. intros w0.
      apply stable_for_each. intros bt.
      apply stable_bind; [exact obs_random|]. intros r.
      destruct (Qltb r v); [|apply stable_ret].
      apply stable_modify. intros w. apply obs_remove.
    + apply stable_ret.
  - intros self'. apply stable_bind; [|intros _; apply stable_ret].
    unfold apply_continuous_effects. destruct (Qltb 0 _); [|apply stable_ret].
    apply stable_bind; [apply stable_is_expired; assumption|]. intros expired.
    destruct (negb expired); [|apply stable_ret].
    apply stable_modify. intros w.
    apply (obs_base
             (fun p => base_temperature p + dict_get_default (ge_effects (ae_event self'))
                                              "temperature_modifier" 0 * 0.001)
             (fun p => base_pressure p + dict_get_default (ge_effects (ae_event self'))
                                           "pressure_modifier" 0 * 0.001)
             (fun p => base_oxygen p + dict_get_default (ge_effects (ae_event self'))
                                         "oxygen_modifier" 0 * 0.001)).
Qed.

Lemma pass_apply_effects_loop (arg : PyObj) (todo done : list ActiveEvent) :
  stable obs (apply_effects_loop arg done todo).
Proof.
  revert done. induction todo as [|ev rest IH]; intros done; simpl.
  - apply stable_ret.
  - apply stable_bind; [apply pass_apply_effects|]. intros ev'.
    apply stable_bind; [|intros _; apply IH].
    apply stable_modify. intros w. apply (obs_events (fun _ => done ++ ev' :: rest)).
Qed.

Lemma pass_update_events (dt : Q) : stable obs (Planet__update_events dt).
Proof.
  unfold Planet__update_events.
  apply stable_bind; [apply stable_get|]. intros w0.
  apply stable_bind; [apply stable_unexpired; assumption|]. intros kept.
  apply stable_bind; [|intros _; apply pass_apply_effects_loop].
  apply stable_modify. intros w. apply (obs_events (fun _ => kept)).
Qed.

Lemma pass_active_events_loop (todo done : list ActiveEvent) :
  stable obs (active_events_loop done todo).
Proof.
  revert done. induction todo as [|ev rest IH]; intros done; simpl.
  - apply stable_ret.
  - apply stable_bind; [apply stable_is_expired; assumption|]. intros expired.
    destruct expired.
    + apply stable_bind; [|intros _; apply IH].
      apply stable_modify. intros w. apply (obs_events (fun _ => done ++ rest)).
    + apply stable_bind; [apply pass_apply_effects|]. intros ev'.
      apply stable_bind; [|intros _; apply IH].
      apply stable_modify. intros w. apply (obs_events (fun _ => done ++ ev' :: rest)).
Qed.

Lemma pass_check_for_new_events (self : EventManager) :
  stable obs (EventManager__check_for_new_events self).
Proof.
  unfold EventManager__check_for_new_events. apply stable_for_each. intros t.
  unfold check_template.
  apply stable_bind; [exact obs_random|]. intros r.
  destruct (Qltb _ _); [apply stable_ret|].
  apply stable_bind; [apply stable_get|]. intros w0.
  destruct (negb _); [apply stable_ret|].
  destruct (already_active _ _); [apply stable_ret|].
  apply stable_bind; [|intros _; apply stable_ret].
  unfold EventManager_trigger_event.
  destruct (odict_get _ _); [|apply stable_ret].
  apply stable_bind.
  - unfold ActiveEvent_init. apply stable_bind; [exact obs_time|].
    intros start. apply stable_ret.
  - intros ae. apply stable_bind; [|intros _; apply stable_ret].
    apply stable_modify. intros w.
    apply (obs_events (fun p => active_events p ++ [ae])).
Qed.

Lemma pass_event_manager_update (self : EventManager) (dt : Q) :
  stable obs (EventManager_update self dt).
Proof.
  unfold EventManager_update.
  apply stable_bind; [exact obs_time|]. intros now.
  apply stable_bind.
  { destruct (Qgeb _ _); [|apply stable_ret].
    apply stable_bind; [apply pass_check_for_new_events|]. intros _. apply stable_ret. }
  intros self'. apply stable_bind; [apply stable_get|]. intros w0.
  apply stable_bind; [apply pass_active_events_loop|]. intros _. apply stable_ret.
Qed.
End EventPass.

Lemma records_view_remove_building (bt : string) (n : Z) (w : World) :
  records_view (on_planet (fun p => Planet_remove_building p bt n) w) = records_view w.
Proof.
  unfold records_view, Planet_remove_building, Planet__update_modifiers. simpl.
  destruct (fold_left _ _ _) as [[tm pm] om]. reflexivity.
Qed.

(** X13. The event code never writes the derived atmosphere or the history:
    the event pass of [Planet.update] and the whole of [EventManager.update]
    leave temperature, pressure, oxygen and the four history buffers as they
    found them, whether they return or raise. Events reach the atmosphere
    only through the base values and the buildings, at the next update. *)
Theorem event_code_leaves_records (w : World) (dt : Q) (self : EventManager) :
  records_view (Planet__update_events dt w).2 = records_view w /\
  records_view (EventManager_update self dt w).2 = records_view w.
Proof.
  assert (Ht : stable records_view py_time) by (intros w0; reflexivity).
  assert (Hr : stable records_view py_random) by (intros w0; reflexivity).
  assert (Hm : forall (f : ResourceManager -> ResourceManager) w0,
             records_view (on_resource_manager f w0) = records_view w0)
    by (intros; reflexivity).
  assert (Hb : forall (ft fp fo : Planet -> Q) w0,
             records_view (on_planet (fun p => set_base (ft p) (fp p) (fo p) p) w0)
             = records_view w0) by (intros; reflexivity).
  assert (He : forall (f : Planet -> list ActiveEvent) w0,
             records_view (on_planet (fun p => set_active_events (f p) p) w0)
             = records_view w0) by (intros; reflexivity).
  pose proof records_view_remove_building as Hrm.
  split.
  - apply (pass_update_events records_view); assumption.
  - apply (pass_event_manager_update records_view); assumption.
Qed.

(** *** The history of the planet *)

Lemma habitability_atmosphere (p q : Planet) :
  temperature p = temperature q -> pressure p = pressure q -> oxygen p = oxygen q ->
  Planet_calculate_habitability p = Planet_calculate_habitability q.
Proof.
  intros Ht Hp Ho. unfold Planet_calculate_habitability. rewrite Ht, Hp, Ho. reflexivity.
Qed.

Lemma bind_modify {S B} (f : S -> S) (k : M S B) (s : S) :
  (modify f ;;; k) s = k (f s).
Proof. reflexivity. Qed.

Lemma bind_get {S B} (k : S -> M S B) (s : S) :
  (x <- get ;; k x) s = k s s.
Proof. reflexivity. Qed.

Lemma bind_ret_tt {S B} (k : M S B) (s : S) :
  (ret tt ;;; k) s = k s.
Proof. reflexivity. Qed.

Lemma bind_assoc {S A B C} (m : M S A) (k : A -> M S B) (h : B -> M S C) (s : S) :
  bind (bind m k) h s = bind m (fun a => bind (k a) h) s.
Proof. unfold bind. destruct (m s) as [[a|e] s1]; reflexivity. Qed.

Lemma bind_history_pop0 {B} proj upd (k : M World B) (w : World) (x : Q) (rest : list Q) :
  proj (history (planet w)) = x :: rest ->
  (history_pop0 proj upd ;;; k) w
  = k (on_planet (fun p => set_history (upd rest (history p)) p) w).
Proof. intros H. unfold bind, history_pop0. rewrite H. reflexivity. Qed.

Lemma bind_history_append {B} proj upd x (k : M World B) (w : World) :
  (history_append proj upd x ;;; k) w
  = k (on_planet (fun p => set_history (upd (proj (history p) ++ [x p]) (history p)) p) w).
Proof. reflexivity. Qed.

(** The world after the two assignments of the atmosphere in [update]. *)
Lemma update_after_clamp (dt : Q) (w : World) :
  exists w0,
    Planet_update dt w =
    ((if (100 <=? length (h_temperature (history (planet w0))))%nat then
        history_pop0 h_temperature with_h_temperature ;;;
        history_pop0 h_pressure with_h_pressure ;;;
        history_pop0 h_oxygen with_h_oxygen ;;;
        history_pop0 h_habitability with_h_habitability
      else ret tt) ;;;
     history_append h_temperature with_h_temperature temperature ;;;
     history_append h_pressure with_h_pressure pressure ;;;
     history_append h_oxygen with_h_oxygen oxygen ;;;
     history_append h_habitability with_h_habitability Planet_calculate_habitability ;;;
     Planet__update_events dt) w0 /\
    history (planet w0) = history (planet w).
Proof.
  unfold Planet_update. rewrite !bind_modify, bind_get.
  eexists. split; [reflexivity|]. reflexivity.
Qed.

(** The four appends of [update], run on a world whose buffers have one
    length below 100. *)
Lemma update_appends {B} (k : M World B) (w : World) (n : nat) :
  length (h_temperature (history (planet w))) = n ->
  length (h_pressure (history (planet w))) = n ->
  length (h_oxygen (history (planet w))) = n ->
  length (h_habitability (history (planet w))) = n ->
  (n < 100)%nat ->
  exists w1,
    (history_append h_temperature with_h_temperature temperature ;;;
     history_append h_pressure with_h_pressure pressure ;;;
     history_append h_oxygen with_h_oxygen oxygen ;;;
     history_append h_habitability with_h_habitability Planet_calculate_habitability ;;;
     k) w = k w1 /\
    history_ok (planet w1) /\ history_current (planet w1).
Proof.
  intros Ht Hp Ho Hh Hn.
  rewrite !bind_history_append.
  eexists. split; [reflexivity|].
  unfold history_ok, history_consistent, history_current.
  cbn [planet on_planet history set_history planet_with temperature pressure oxygen
       h_temperature h_pressure h_oxygen h_habitability
       with_h_temperature with_h_pressure with_h_oxygen with_h_habitability].
  rewrite !last_snoc, !length_app, Ht, Hp, Ho, Hh. simpl length.
  split; [split; [repeat split; lia|lia]|].
  split; [reflexivity|]. split; [reflexivity|]. split; [reflexivity|].
  apply (f_equal Some). apply habitability_atmosphere; reflexivity.
Qed.

Lemma update_prefix_history (dt : Q) (w : World) :
  history_ok (planet w) ->
  exists w1, Planet_update dt w = Planet__update_events dt w1 /\
    history_ok (planet w1) /\ history_current (planet w1).
Proof.
  intros [(Hlp & Hlo & Hlh) Hmax].
  destruct (update_after_clamp dt w) as (w0 & E & Hh0).
  rewrite E. rewrite <- Hh0 in Hlp, Hlo, Hlh, Hmax. clear E Hh0.
  destruct (100 <=? length (h_temperature (history (planet w0))))%nat eqn:Elen.
  - apply Nat.leb_le in Elen.
    destruct (h_temperature (history (planet w0))) as [|t ts] eqn:Et;
      [simpl in Elen; lia|].
    destruct (h_pressure (history (planet w0))) as [|q qs] eqn:Eq;
      [simpl in Hlp; lia|].
    destruct (h_oxygen (history (planet w0))) as [|o os] eqn:Eo;
      [simpl in Hlo; lia|].
    destruct (h_habitability (history (planet w0))) as [|h hs] eqn:Eh;
      [simpl in Hlh; lia|].
    rewrite bind_assoc.
    rewrite (bind_history_pop0 _ _ _ _ t ts) by exact Et. cbv beta.
    rewrite bind_assoc.
    rewrite (bind_history_pop0 _ _ _ _ q qs) by (simpl; exact Eq). cbv beta.
    rewrite bind_assoc.
    rewrite (bind_history_pop0 _ _ _ _ o os) by (simpl; exact Eo). cbv beta.
    rewrite (bind_history_pop0 _ _ _ _ h hs) by (simpl; exact Eh).
    simpl in Hlp, Hlo, Hlh, Hmax.
    apply (update_appends _ _ (length ts)); simpl; try rewrite ?Et, ?Eq, ?Eo, ?Eh;
      simpl; lia.
  - apply Nat.leb_gt in Elen. rewrite bind_ret_tt.
    apply (update_appends _ _ (length (h_temperature (history (planet w0)))));
      first [reflexivity | assumption].
Qed.

(** X14. When the four history buffers of the planet have one length of at
    most 100, they still do after [Planet.update], and the newest sample of
    each is the temperature, pressure, oxygen and habitability the update
    computed; this holds also when the event pass raises. *)
Theorem update_keeps_planet_history (dt : Q) (w : World) :
  history_ok (planet w) ->
  let p' := planet (Planet_update dt w).2 in
  history_ok p' /\ history_current p'.
Proof.
  intros Hok. cbv zeta.
  destruct (update_prefix_history dt w Hok) as (w1 & E & Hok1 & Hcur1).
  rewrite E.
  destruct (event_code_leaves_records w1 dt
              {| event_templates := []; last_event_check := 0;
                 event_check_interval := 0 |}) as [Hview _].
  unfold records_view in Hview. injection Hview as Ht Hp Ho Hh.
  unfold history_ok, history_consistent, history_current,
    Planet_calculate_habitability in *.
  rewrite Ht, Hp, Ho, Hh. tauto.
Qed.

Lemma update_keeps_planet_history_witness :
  history_ok (planet (Planet_update 1 mars_in_heat_wave).2).
Proof.
  apply (update_keeps_planet_history 1 mars_in_heat_wave).
  repeat split; simpl; lia.
Defined.

(* ================================================================== *)
(** ** Further properties of the event system *)

Lemma never_raises_ret {S A} (a : A) : never_raises (@ret S A a).
Proof. intros s. eexists. reflexivity. Qed.

Lemma never_raises_modify {S} (f : S -> S) : never_raises (modify f).
Proof. intros s. eexists. reflexivity. Qed.

Lemma never_raises_get {S} : never_raises (@get S).
Proof. intros s. eexists. reflexivity. Qed.

Lemma never_raises_bind {S A B} (m : M S A) (k : A -> M S B) :
  never_raises m -> (forall a, never_raises (k a)) -> never_raises (bind m k).
Proof.
  intros Hm Hk s. unfold bind. destruct (Hm s) as [a Ha].
  destruct (m s) as [[a'|e] s1]; simpl in Ha; [|discriminate].
  apply Hk.
Qed.

Lemma never_raises_for_each {S A} (xs : list A) (body : A -> M S unit) :
  (forall x, never_raises (body x)) -> never_raises (for_each xs body).
Proof.
  intros Hb. induction xs as [|x xs IH]; simpl.
  - apply never_raises_ret.
  - apply never_raises_bind; auto.
Qed.

Lemma never_raises_when_key (effects : gmap string Q) (k : string)
    (body : Q -> M World unit) :
  (forall v, never_raises (body v)) -> never_raises (when_key effects k body).
Proof.
  intros Hb. unfold when_key. destruct (effects !! k); auto using never_raises_ret.
Qed.

Lemma never_raises_py_time : never_raises py_time.
Proof. intros s. eexists. reflexivity. Qed.

Lemma never_raises_py_random : never_raises py_random.
Proof. intros s. eexists. reflexivity. Qed.

Lemma never_raises_is_expired (self : ActiveEvent) :
  never_raises (ActiveEvent_is_expired self).
Proof.
  unfold ActiveEvent_is_expired. destruct (Qeq_bool _ _).
  - apply never_raises_ret.
  - apply never_raises_bind; [apply never_raises_py_time|].
    intros now. apply never_raises_ret.
Qed.

Lemma never_raises_apply_effects (self : ActiveEvent) :
  never_raises (ActiveEvent_apply_effects self ResourceManagerObj).
Proof.
  unfold ActiveEvent_apply_effects. apply never_raises_bind.
  - destruct (negb _); [|apply never_raises_ret].
    unfold apply_one_shot_effects.
    repeat (apply never_raises_bind;
            [apply never_raises_when_key; intros v;
             try apply never_raises_modify|intros _]).
    + apply never_raises_bind; [apply never_raises_get|]. intros w0.
      apply never_raises_for_each. intros bt.
      apply never_raises_bind; [apply never_raises_py_random|]. intros r.
      destruct (Qltb r v); [apply never_raises_modify|apply never_raises_ret].
    + apply never_raises_ret.
  - intros self'. apply never_raises_bind; [|intros _; apply never_raises_ret].
    unfold apply_continuous_effects. destruct (Qltb 0 _); [|apply never_raises_ret].
    apply never_raises_bind; [apply never_raises_is_expired|]. intros expired.
    destruct (negb expired); [apply never_raises_modify|apply never_raises_ret].
Qed.

Lemma never_raises_trigger_event (self : EventManager) (id : string) :
  never_raises (EventManager_trigger_event self id).
Proof.
  unfold EventManager_trigger_event. destruct (odict_get _ _); [|apply never_raises_ret].
  apply never_raises_bind.
  - unfold ActiveEvent_init. apply never_raises_bind; [apply never_raises_py_time|].
    intros start. apply never_raises_ret.
  - intros ae. apply never_raises_bind; [apply never_raises_modify|].
    intros _. apply never_raises_ret.
Qed.

Lemma never_raises_check_for_new_events (self : EventManager) :
  never_raises (EventManager__check_for_new_events self).
Proof.
  unfold EventManager__check_for_new_events. apply never_raises_for_each. intros t.
  unfold check_template.
  apply never_raises_bind; [apply never_raises_py_random|]. intros r.
  destruct (Qltb _ _); [apply never_raises_ret|].
  apply never_raises_bind; [apply never_raises_get|]. intros w0.
  destruct (negb _); [apply never_raises_ret|].
  destruct (already_active _ _); [apply never_raises_ret|].
  apply never_raises_bind; [apply never_raises_trigger_event|].
  intros _. apply never_raises_ret.
Qed.

Lemma never_raises_active_events_loop (todo done : list ActiveEvent) :
  never_raises (active_events_loop done todo).
Proof.
  revert done. induction todo as [|ev rest IH]; intros done; simpl.
  - apply never_raises_ret.
  - apply never_raises_bind; [apply never_raises_is_expired|]. intros expired.
    destruct expired.
    + apply never_raises_bind; [apply never_raises_modify|]. intros _. apply IH.
    + apply never_raises_bind; [apply never_raises_apply_effects|]. intros ev'.
      apply never_raises_bind; [apply never_raises_modify|]. intros _. apply IH.
Qed.

(** X15. [EventManager.update] returns normally from every world: with the
    resource manager as argument no step of the check, of [trigger_event] or
    of [apply_effects] can raise. The manager it leaves has the same
    templates and interval. *)
Theorem event_manager_update_never_raises (self : EventManager) (dt : Q) (w : World) :
  exists self',
    (EventManager_update self dt w).1 = Ok self' /\
    event_templates self' = event_templates self /\
    event_check_interval self' = event_check_interval self.
Proof.
  unfold EventManager_update.
  unfold bind at 1. unfold py_time at 1. cbv beta iota.
  set (w1 := {| planet := planet w; resource_manager := resource_manager w;
                time_time := time_time w; clock_reads := S (clock_reads w);
                random_random := random_random w; random_draws := random_draws w |}).
  set (now := time_time w (clock_reads w)).
  unfold bind at 1.
  destruct (Qgeb (now - last_event_check self) (event_check_interval self)).
  - unfold bind at 1.
    destruct (never_raises_check_for_new_events self w1) as [[] Hu].
    destruct (EventManager__check_for_new_events self w1) as [[[]|e] w2];
      simpl in Hu; [|discriminate].
    unfold ret at 1. cbv beta iota. unfold bind at 1, get at 1. cbv beta iota.
    unfold bind at 1.
    destruct (never_raises_active_events_loop (active_events (planet w2)) [] w2)
      as [[] Hl].
    destruct (active_events_loop [] (active_events (planet w2)) w2) as [[[]|e] w3];
      simpl in Hl; [|discriminate].
    eexists. split; [reflexivity|]. split; reflexivity.
  - unfold ret at 1. cbv beta iota. unfold bind at 1, get at 1. cbv beta iota.
    unfold bind at 1.
    destruct (never_raises_active_events_loop (active_events (planet w1)) [] w1)
      as [[] Hl].
    destruct (active_events_loop [] (active_events (planet w1)) w1) as [[[]|e] w3];
      simpl in Hl; [|discriminate].
    eexists. split; [reflexivity|]. split; reflexivity.
Qed.

(** X16. [trigger_event] (and [force_event], which hands over to it) with an
    id missing from the templates returns false and changes nothing; with a
    known id it returns true and appends one active event for the template,
    stamped with the clock, its one-shot effects not yet applied, leaving the
    resource manager and the other events as they are. *)
Theorem trigger_event_appends_one (self : EventManager) (id : string) (w : World) :
  let r := EventManager_force_event self id w in
  match odict_get (event_templates self) id with
  | None => r = (Ok false, w)
  | Some template =>
      r.1 = Ok true /\
      active_events (planet r.2)
      = active_events (planet w) ++
        [{| ae_event := template; ae_start_time := time_time w (clock_reads w);
            ae_duration := ge_duration template; effects_applied := false |}] /\
      resource_manager r.2 = resource_manager w /\
      buildings (planet r.2) = buildings (planet w) /\
      clock_reads r.2 = S (clock_reads w)
  end.
Proof.
  cbv zeta. unfold EventManager_force_event, EventManager_trigger_event.
  destruct (odict_get (event_templates self) id) as [template|]; [|reflexivity].
  unfold ActiveEvent_init, bind, py_time, modify, ret. simpl. repeat split.
Qed.

Lemma is_expired_result (self : ActiveEvent) (w : World) :
  exists b w1,
    ActiveEvent_is_expired self w = (Ok b, w1) /\
    planet w1 = planet w /\
    (Qeq_bool (ae_duration self) 0 = true -> b = effects_applied self).
Proof.
  unfold ActiveEvent_is_expired. destruct (Qeq_bool _ _).
  - exists (effects_applied self), w. repeat split.
  - eexists. eexists. unfold bind, py_time, ret. simpl.
    split; [reflexivity|]. split; [reflexivity|]. discriminate.
Qed.

Lemma apply_effects_same_event (self self' : ActiveEvent) (arg : PyObj) (w w' : World) :
  ActiveEvent_apply_effects self arg w = (Ok self', w') -> same_event self self'.
Proof.
  unfold ActiveEvent_apply_effects. intros H.
  apply bind_Ok_inv in H. destruct H as (s1 & w1 & H1 & H).
  apply bind_Ok_inv in H. destruct H as (u & w2 & _ & H).
  unfold ret in H. injection H as <- _.
  destruct (effects_applied self); simpl in H1.
  - unfold ret in H1. injection H1 as <- _. repeat split.
  - apply one_shot_sets_flag in H1. subst s1. repeat split.
Qed.

(** The loop of [EventManager.update]: what it keeps. *)
Lemma active_events_loop_result (todo done : list ActiveEvent) (w : World) :
  active_events (planet w) = done ++ todo ->
  exists kept w',
    active_events_loop done todo w = (Ok tt, w') /\
    active_events (planet w') = done ++ kept /\
    Forall (fun ev' =>
      effects_applied ev' = true /\
      exists ev, In ev todo /\ same_event ev ev' /\
        (Qeq_bool (ae_duration ev) 0 = true -> effects_applied ev = false)) kept.
Proof.
  revert done w. induction todo as [|ev rest IH]; intros done w Hev; simpl.
  - exists [], w. split; [reflexivity|]. split; [exact Hev|constructor].
  - destruct (is_expired_result ev w) as (b & w1 & E1 & Hp1 & Hinst).
    unfold bind at 1. rewrite E1. destruct b.
    + unfold bind at 1. unfold modify at 1.
      set (w2 := on_planet (set_active_events (done ++ rest)) w1).
      destruct (IH done w2 eq_refl) as (kept & w' & E & Hk & Hall).
      exists kept, w'. split; [exact E|]. split; [exact Hk|].
      eapply Forall_impl; [exact Hall|]. simpl.
      intros ev' (Hflag & ev0 & Hin & Hsame & Hi). split; [exact Hflag|].
      exists ev0. split; [right; exact Hin|]. split; assumption.
    + destruct (never_raises_apply_effects ev w1) as [ev' Hok].
      destruct (ActiveEvent_apply_effects ev ResourceManagerObj w1) as [r1 w2] eqn:E2.
      simpl in Hok. subst r1.
      unfold bind at 1. rewrite E2. unfold bind at 1. unfold modify at 1.
      set (w3 := on_planet (set_active_events (done ++ ev' :: rest)) w2).
      assert (Hev3 : active_events (planet w3) = (done ++ [ev']) ++ rest).
      { unfold w3. simpl. rewrite <- app_assoc. reflexivity. }
      destruct (IH (done ++ [ev']) w3 Hev3) as (kept & w' & E & Hk & Hall).
      exists (ev' :: kept), w'. split; [exact E|].
      split; [rewrite Hk, <- app_assoc; reflexivity|].
      constructor.
      * split; [eapply apply_effects_sets_flag; exact E2|].
        exists ev. split; [left; reflexivity|].
        split; [eapply apply_effects_same_event; exact E2|].
        intros Hz. symmetry. apply Hinst. exact Hz.
      * eapply Forall_impl; [exact Hall|]. simpl.
        intros ev1 (Hflag & ev0 & Hin & Hsame & Hi). split; [exact Hflag|].
        exists ev0. split; [right; exact Hin|]. split; assumption.
Qed.

(** The world in which the loop of [EventManager.update] starts. *)
Lemma event_manager_update_loop (self : EventManager) (dt : Q) (w : World) :
  exists w0,
    (EventManager_update self dt w).2
    = (active_events_loop [] (active_events (planet w0)) w0).2 /\
    (Qgeb (time_time w (clock_reads w) - last_event_check self)
          (event_check_interval self) = false ->
     active_events (planet w0) = active_events (planet w)).
Proof.
  unfold EventManager_update.
  unfold bind at 1. unfold py_time at 1. cbv beta iota.
  set (w1 := {| planet := planet w; resource_manager := resource_manager w;
                time_time := time_time w; clock_reads := S (clock_reads w);
                random_random := random_random w; random_draws := random_draws w |}).
  unfold bind at 1.
  destruct (Qgeb (time_time w (clock_reads w) - last_event_check self)
                 (event_check_interval self)).
  - unfold bind at 1.
    destruct (never_raises_check_for_new_events self w1) as [[] Hu].
    destruct (EventManager__check_for_new_events self w1) as [[[]|e] w2];
      simpl in Hu; [|discriminate].
    unfold ret at 1. cbv beta iota. unfold bind at 1, get at 1. cbv beta iota.
    exists w2. split; [|discriminate].
    unfold bind. destruct (active_events_loop _ _ w2) as [[[]|e] w3]; reflexivity.
  - unfold ret at 1. cbv beta iota. unfold bind at 1, get at 1. cbv beta iota.
    exists w1. split; [|reflexivity].
    unfold bind. destruct (active_events_loop _ _ w1) as [[[]|e] w3]; reflexivity.
Qed.

(** X17. After [EventManager.update], every event still active on the planet
    has had its one-shot effects applied: each event the pass visits is
    either removed as expired or run through [apply_effects], and the events
    triggered in the same call are visited too. *)
Theorem event_manager_update_applies_all (self : EventManager) (dt : Q) (w : World) :
  Forall (fun ev => effects_applied ev = true)
    (active_events (planet (EventManager_update self dt w).2)).
Proof.
  destruct (event_manager_update_loop self dt w) as (w0 & -> & _).
  destruct (active_events_loop_result (active_events (planet w0)) [] w0 eq_refl)
    as (kept & w' & E & Hk & Hall).
  rewrite E. simpl. rewrite Hk. simpl.
  eapply Forall_impl; [exact Hall|]. simpl. tauto.
Qed.

(** X18. An instantaneous event lasts one pass: when every instantaneous
    event on the planet has had its effects applied (as is the case after
    any earlier pass) and the periodic check is not due, no instantaneous
    event is left after [EventManager.update]. *)
Theorem instantaneous_events_are_removed (self : EventManager) (dt : Q) (w : World) :
  Qgeb (time_time w (clock_reads w) - last_event_check self)
       (event_check_interval self) = false ->
  Forall (fun ev => Qeq_bool (ae_duration ev) 0 = true -> effects_applied ev = true)
    (active_events (planet w)) ->
  Forall (fun ev => Qeq_bool (ae_duration ev) 0 = false)
    (active_events (planet (EventManager_update self dt w).2)).
Proof.
  intros Hcheck Hinst.
  destruct (event_manager_update_loop self dt w) as (w0 & -> & Hsame).
  specialize (Hsame Hcheck).
  destruct (active_events_loop_result (active_events (planet w0)) [] w0 eq_refl)
    as (kept & w' & E & Hk & Hall).
  rewrite E. simpl. rewrite Hk. simpl.
  eapply Forall_impl; [exact Hall|]. simpl.
  intros ev' (_ & ev & Hin & (_ & _ & Hd) & Hi).
  rewrite Hd. destruct (Qeq_bool (ae_duration ev) 0) eqn:Ez; [|reflexivity].
  rewrite Hsame in Hin. rewrite Forall_forall in Hinst.
  assert (Hflag : effects_applied ev = true).
  { apply Hinst; [apply list_elem_of_In; exact Hin|exact Ez]. }
  rewrite Hi in Hflag by reflexivity. discriminate.
Qed.

Lemma instantaneous_events_are_removed_witness :
  Forall (fun ev => Qeq_bool (ae_duration ev) 0 = false)
    (active_events
       (planet (EventManager_update (set_last_event_check 990 sample_manager) 1
                  (sample_world
                     (set_active_events
                        [set_effects_applied true fresh_windfall; running_heat_wave]
                        mars))).2)).
Proof.
  apply instantaneous_events_are_removed.
  - vm_compute. reflexivity.
  - repeat constructor.
Defined.

(** X19. [get_remaining_time] and [is_expired] agree: read at the same clock,
    a timed event (duration other than 0) is expired exactly when its
    remaining time is 0; the remaining time is never negative; and for an
    instantaneous event the remaining time is 0 and expiry is the
    [effects_applied] flag. *)
Theorem remaining_time_matches_expiry (self : ActiveEvent) (w : World) :
  exists b r w1 w2,
    ActiveEvent_is_expired self w = (Ok b, w1) /\
    ActiveEvent_get_remaining_time self w = (Ok r, w2) /\
    0 <= r /\
    (Qeq_bool (ae_duration self) 0 = false -> (b = true <-> r == 0)) /\
    (Qeq_bool (ae_duration self) 0 = true -> r == 0 /\ b = effects_applied self).
Proof.
  unfold ActiveEvent_is_expired, ActiveEvent_get_remaining_time.
  destruct (Qeq_bool (ae_duration self) 0) eqn:Ez.
  - do 4 eexists. split; [reflexivity|]. split; [reflexivity|].
    split; [discriminate|]. split; [discriminate|]. intros _. split; reflexivity.
  - unfold bind, py_time, ret. cbv beta iota.
    set (now := time_time w (clock_reads w)).
    do 4 eexists. split; [reflexivity|]. split; [reflexivity|].
    set (rem := ae_duration self - (now - ae_start_time self)).
    assert (H0 : 0.0 == 0) by reflexivity.
    split; [|split; [|discriminate]].
    + destruct (py_max_cases 0.0 rem) as [[H ->]|[H ->]]; lra.
    + intros _. unfold Qgeb. rewrite Qle_bool_iff.
      destruct (py_max_cases 0.0 rem) as [[H ->]|[H ->]]; unfold rem in *;
        split; intros; lra.
Qed.

(* ================================================================== *)
(** ** Further properties of the technology tree *)

Lemma insert_progress_static (techs : gmap string Technology) (id j : string) (q : Q)
    (tech : Technology) :
  techs !! id = Some tech ->
  tech_static <$> (<[id := set_tech_progress q tech]> techs !! j)
  = tech_static <$> (techs !! j).
Proof.
  intros H. destruct (decide (id = j)) as [<-|Hne].
  - rewrite lookup_insert_eq, H. reflexivity.
  - rewrite lookup_insert_ne by exact Hne. reflexivity.
Qed.

Lemma static_equal_refl (t : TechnologyTree) : static_equal t t.
Proof. intros j. reflexivity. Qed.

Lemma static_equal_trans (t1 t2 t3 : TechnologyTree) :
  static_equal t1 t2 -> static_equal t2 t3 -> static_equal t1 t3.
Proof. intros H12 H23 j. rewrite H23, H12. reflexivity. Qed.

Lemma static_lookup (t t' : TechnologyTree) (j : string) (tech' : Technology) :
  static_equal t t' -> technologies t' !! j = Some tech' ->
  exists tech, technologies t !! j = Some tech /\ tech_static tech = tech_static tech'.
Proof.
  intros Hs H. specialize (Hs j). rewrite H in Hs. simpl in Hs.
  destruct (technologies t !! j) as [tech|]; [|discriminate].
  simpl in Hs. exists tech. split; [reflexivity|]. congruence.
Qed.

Lemma static_is_Some (t t' : TechnologyTree) (j : string) :
  static_equal t t' -> is_Some (technologies t !! j) -> is_Some (technologies t' !! j).
Proof.
  intros Hs [tech H]. specialize (Hs j). rewrite H in Hs.
  destruct (technologies t' !! j); [eauto|discriminate].
Qed.

Lemma consistent_static (t t' : TechnologyTree) :
  tree_consistent t -> static_equal t t' ->
  researched_technologies t' = researched_technologies t ->
  (forall c, current_research t' = Some c -> is_Some (technologies t' !! c)) ->
  tree_consistent t'.
Proof.
  intros (_ & H2 & H3) Hs Hr Hc. split; [exact Hc|]. split.
  - intros id tech' Hl. destruct (static_lookup _ _ _ _ Hs Hl) as (tech & Hl0 & E).
    pose proof (f_equal is_researched E) as E1. simpl in E1.
    rewrite Hr, <- E1. apply (H2 id tech Hl0).
  - intros id tech' Hl Hnr. destruct (static_lookup _ _ _ _ Hs Hl) as (tech & Hl0 & E).
    pose proof (f_equal is_researched E) as E1.
    pose proof (f_equal is_available E) as E2.
    pose proof (f_equal prerequisites E) as E3. simpl in E1, E2, E3.
    rewrite Hr, <- E2, <- E3. apply (H3 id tech Hl0). congruence.
Qed.

Lemma assign_progress_effect (id : string) (q : Q) (t : TechnologyTree) :
  let r := assign_progress id q t in
  static_equal t r.2 /\
  researched_technologies r.2 = researched_technologies t /\
  current_research r.2 = current_research t /\
  research_progress r.2 = research_progress t /\
  (is_Some (technologies t !! id) -> r.1 = Ok tt) /\
  (technologies t !! id = None -> r = (Raise KeyError, t)).
Proof.
  cbv zeta. unfold assign_progress.
  destruct (technologies t !! id) as [tech|] eqn:E; simpl.
  - split; [intros j; apply insert_progress_static; exact E|].
    repeat split. discriminate.
  - split; [apply static_equal_refl|]. repeat split. intros [x Hx]. discriminate.
Qed.

(** What [start_research] can change. *)
Lemma start_research_effect (id : string) (t : TechnologyTree) :
  let r := TechnologyTree_start_research id t in
  static_equal t r.2 /\
  researched_technologies r.2 = researched_technologies t /\
  (current_research r.2 = current_research t \/
   (current_research r.2 = Some id /\ is_Some (technologies t !! id))).
Proof.
  cbv zeta. unfold TechnologyTree_start_research, bind, get. cbv beta iota.
  destruct (technologies t !! id) as [tech|] eqn:E;
    [|split; [apply static_equal_refl|split; [reflexivity|left; reflexivity]]].
  destruct (negb (is_available tech) || is_researched tech);
    [split; [apply static_equal_refl|split; [reflexivity|left; reflexivity]]|].
  set (first := if truthy (current_research t)
                then assign_progress (default "" (current_research t)) 0.0
                else ret tt).
  assert (Hfirst : static_equal t (first t).2 /\
                   researched_technologies (first t).2 = researched_technologies t /\
                   current_research (first t).2 = current_research t).
  { unfold first. destruct (truthy _).
    - destruct (assign_progress_effect (default "" (current_research t)) 0.0 t)
        as (H1 & H2 & H3 & _). auto.
    - split; [apply static_equal_refl|]. split; reflexivity. }
  destruct Hfirst as (Hs1 & Hr1 & Hc1).
  destruct (first t) as [[[]|e] t1]; cbn [fst snd] in *.
  - unfold modify. cbv beta iota.
    destruct (assign_progress_effect id 0.0 (set_current (Some id) 0.0 t1))
      as (Hs2 & Hr2 & Hc2 & _).
    destruct (assign_progress id 0.0 (set_current (Some id) 0.0 t1)) as [[[]|e] t3];
      cbn [fst snd ret] in *.
    + split; [eapply static_equal_trans; [exact Hs1|exact Hs2]|].
      split; [rewrite Hr2; exact Hr1|]. right. split; [exact Hc2|]. eauto.
    + split; [eapply static_equal_trans; [exact Hs1|exact Hs2]|].
      split; [rewrite Hr2; exact Hr1|]. right. split; [exact Hc2|]. eauto.
  - split; [exact Hs1|]. split; [exact Hr1|]. left. exact Hc1.
Qed.

Lemma update_availability_consistent (t : TechnologyTree) :
  (forall c, current_research t = Some c -> is_Some (technologies t !! c)) ->
  (forall id tech, technologies t !! id = Some tech ->
     (is_researched tech = true <-> id ∈ researched_technologies t)) ->
  tree_consistent (TechnologyTree__update_availability t).
Proof.
  intros H1 H2. unfold TechnologyTree__update_availability, tree_consistent. simpl.
  split; [|split].
  - intros c Hc. rewrite lookup_fmap. destruct (H1 c Hc) as [x ->]. simpl. eauto.
  - intros id tech'. rewrite lookup_fmap.
    destruct (technologies t !! id) as [tech|] eqn:E; [|discriminate].
    simpl. intros H. injection H as <-.
    specialize (H2 id tech E). destruct (is_researched tech) eqn:Er; simpl;
      rewrite ?Er; exact H2.
  - intros id tech'. rewrite lookup_fmap.
    destruct (technologies t !! id) as [tech|] eqn:E; [|discriminate].
    simpl. intros H. injection H as <-.
    destruct (is_researched tech) eqn:Er; simpl.
    + rewrite Er. discriminate.
    + intros _. reflexivity.
Qed.

Lemma complete_research_consistent (id : string) (t : TechnologyTree) :
  tree_consistent t -> tree_consistent (TechnologyTree_complete_research id t).2.
Proof.
  intros (H1 & H2 & H3). unfold TechnologyTree_complete_research.
  rewrite bind_get.
  destruct (technologies t !! id) as [tech|] eqn:E;
    [|exact (conj H1 (conj H2 H3))].
  rewrite !bind_modify. unfold modify. cbn [snd].
  apply update_availability_consistent.
  - intros c. destruct (bool_decide _) eqn:Eb; simpl; [discriminate|].
    intros Hc. destruct (decide (id = c)) as [<-|Hne].
    + rewrite lookup_insert_eq. eauto.
    + rewrite lookup_insert_ne by exact Hne. apply H1. exact Hc.
  - intros j tech'.
    assert (Hl : forall s : TechnologyTree,
              technologies (if bool_decide (current_research s = Some id)
                            then set_current None 0.0 s else s) = technologies s
              /\ researched_technologies (if bool_decide (current_research s = Some id)
                            then set_current None 0.0 s else s)
                 = researched_technologies s).
    { intros s. destruct (bool_decide _); split; reflexivity. }
    match goal with |- technologies ?x !! j = _ -> _ <-> _ ∈ researched_technologies ?x =>
      match x with (if bool_decide (current_research ?s = _) then _ else _) =>
        destruct (Hl s) as [-> ->]
      end
    end.
    simpl. destruct (decide (id = j)) as [<-|Hne].
    + rewrite lookup_insert_eq. intros H. injection H as <-. simpl.
      split; [intros _|reflexivity].
      apply elem_of_union. left. apply elem_of_singleton. reflexivity.
    + rewrite lookup_insert_ne by exact Hne. intros Hj.
      rewrite (H2 j tech' Hj), elem_of_union, elem_of_singleton.
      split; [auto|]. intros [Heq|Hin]; [congruence|exact Hin].
Qed.

(** What [update_research] leaves when it does not complete the research. *)
Lemma update_research_consistent (sp dt : Q) (t : TechnologyTree) :
  tree_consistent t -> tree_consistent (TechnologyTree_update_research sp dt t).2.
Proof.
  intros Hcons. unfold TechnologyTree_update_research. rewrite bind_get.
  destruct (negb (truthy (current_research t))); [exact Hcons|].
  destruct (technologies t !! default "" (current_research t)) as [tech|] eqn:E;
    [|exact Hcons].
  destruct (Qeq_bool _ 0); [exact Hcons|].
  rewrite !bind_modify.
  set (progress := tech_research_progress tech + _).
  set (t2 := set_current (current_research t) progress
               (set_technologies
                  (<[default "" (current_research t) := set_tech_progress progress tech]>
                     (technologies t)) t)).
  assert (Hc2 : tree_consistent t2).
  { apply (consistent_static t); [exact Hcons| | |].
    - intros j. unfold t2. simpl. apply insert_progress_static. exact E.
    - reflexivity.
    - intros c Hc. unfold t2 in *. simpl in *.
      destruct Hcons as (H1 & _). destruct (H1 c Hc) as [x Hx].
      destruct (decide (default "" (current_research t) = c)) as [<-|Hne].
      + rewrite lookup_insert_eq. eauto.
      + rewrite lookup_insert_ne by exact Hne. eauto. }
  destruct (Qgeb progress 100.0).
  - apply complete_research_consistent. exact Hc2.
  - exact Hc2.
Qed.

Lemma init_consistent (file : gmap string TechData) :
  tree_consistent (TechnologyTree_init file).
Proof.
  unfold TechnologyTree_init. apply update_availability_consistent.
  - simpl. discriminate.
  - simpl. intros id tech. rewrite map_lookup_imap.
    destruct (file !! id); simpl; [|discriminate].
    intros H. injection H as <-. simpl. split; [discriminate|].
    intros Hin. apply elem_of_empty in Hin. contradiction.
Qed.

Lemma start_research_consistent (id : string) (t : TechnologyTree) :
  tree_consistent t -> tree_consistent (TechnologyTree_start_research id t).2.
Proof.
  intros Hcons.
  destruct (start_research_effect id t) as (Hs & Hr & Hc).
  apply (consistent_static t); [exact Hcons|exact Hs|exact Hr|].
  intros c Hcur. destruct Hcons as (H1 & _).
  destruct Hc as [Hc|[Hc Hid]].
  - rewrite Hc in Hcur. eapply static_is_Some; [exact Hs|]. apply H1. exact Hcur.
  - rewrite Hc in Hcur. injection Hcur as <-.
    eapply static_is_Some; [exact Hs|exact Hid].
Qed.

(** X20. The tree stays consistent: in the tree the constructor builds, and
    after any [start_research], [update_research] or [complete_research] on a
    consistent tree (also when the call raises), the current research names
    a technology of the table, a technology is flagged researched exactly
    when its id is in the researched set, and an unresearched technology is
    available exactly when all its prerequisites are researched. *)
Theorem tree_stays_consistent :
  (forall file, tree_consistent (TechnologyTree_init file)) /\
  (forall t id, tree_consistent t ->
     tree_consistent (TechnologyTree_start_research id t).2) /\
  (forall t sp dt, tree_consistent t ->
     tree_consistent (TechnologyTree_update_research sp dt t).2) /\
  (forall t id, tree_consistent t ->
     tree_consistent (TechnologyTree_complete_research id t).2).
Proof.
  split; [|split; [|split]].
  - intros file. apply init_consistent.
  - intros t id Hcons. apply start_research_consistent. exact Hcons.
  - intros t sp dt Hcons. apply update_research_consistent. exact Hcons.
  - intros t id Hcons. apply complete_research_consistent. exact Hcons.
Qed.

Lemma tree_stays_consistent_witness :
  tree_consistent
    (TechnologyTree_complete_research "basic_energy"
       (TechnologyTree_start_research "basic_energy" fresh_tree).2).2.
Proof.
  apply (proj2 (proj2 (proj2 tree_stays_consistent))).
  apply (proj1 (proj2 tree_stays_consistent)).
  apply (proj1 tree_stays_consistent).
Defined.

Lemma truthy_Some (o : option string) :
  truthy o = true -> exists c, o = Some c /\ c <> "".
Proof.
  destruct o as [c|]; simpl; [|discriminate].
  intros H. exists c. split; [reflexivity|].
  apply negb_true_iff, String.eqb_neq in H. exact H.
Qed.

Lemma assign_progress_Some (id : string) (q : Q) (t : TechnologyTree) (tech : Technology) :
  technologies t !! id = Some tech ->
  assign_progress id q t
  = (Ok tt, set_technologies (<[id := set_tech_progress q tech]> (technologies t)) t).
Proof. intros H. unfold assign_progress. rewrite H. reflexivity. Qed.

Lemma complete_research_never_raises (id : string) :
  never_raises (TechnologyTree_complete_research id).
Proof.
  intros t. unfold TechnologyTree_complete_research. rewrite bind_get.
  destruct (technologies t !! id); eexists; reflexivity.
Qed.

(** X21. On a consistent tree no research method fails on a missing key:
    [start_research] returns normally for every id, and [update_research]
    either returns normally or raises [ZeroDivisionError], nothing else. *)
Theorem consistent_tree_has_no_key_error (t : TechnologyTree) :
  tree_consistent t ->
  (forall id, exists b, (TechnologyTree_start_research id t).1 = Ok b) /\
  (forall sp dt,
     (TechnologyTree_update_research sp dt t).1 = Ok tt \/
     (TechnologyTree_update_research sp dt t).1 = Raise ZeroDivisionError).
Proof.
  intros (H1 & _). split.
  - intros id. unfold TechnologyTree_start_research. rewrite bind_get.
    destruct (technologies t !! id) as [tech|] eqn:E; [|eexists; reflexivity].
    destruct (negb (is_available tech) || is_researched tech); [eexists; reflexivity|].
    destruct (truthy (current_research t)) eqn:Et.
    + destruct (truthy_Some _ Et) as (c & Hc & _). rewrite Hc. change (default "" (Some c)) with c.
      destruct (H1 c Hc) as [tc Htc].
      unfold bind at 1. rewrite (assign_progress_Some c 0.0 t tc Htc).
      rewrite bind_modify.
      assert (His : is_Some (<[c := set_tech_progress 0.0 tc]> (technologies t) !! id)).
      { destruct (decide (c = id)) as [->|Hne].
        - rewrite lookup_insert_eq. eauto.
        - rewrite lookup_insert_ne by exact Hne. eauto. }
      destruct His as [x Hx].
      unfold bind. erewrite assign_progress_Some by (simpl; exact Hx).
      eexists. reflexivity.
    + rewrite bind_ret_tt, bind_modify.
      unfold bind. erewrite assign_progress_Some by (simpl; exact E).
      eexists. reflexivity.
  - intros sp dt. unfold TechnologyTree_update_research. rewrite bind_get.
    destruct (truthy (current_research t)) eqn:Et; [|left; reflexivity].
    destruct (truthy_Some _ Et) as (c & Hc & _). rewrite Hc. change (default "" (Some c)) with c.
    destruct (H1 c Hc) as [tc Htc]. change (negb true) with false.
    cbv iota zeta. rewrite Htc.
    destruct (Qeq_bool _ 0); [right; reflexivity|].
    left. rewrite !bind_modify.
    destruct (Qgeb _ 100.0); [|reflexivity].
    match goal with |- (TechnologyTree_complete_research c ?s).1 = _ =>
      destruct (complete_research_never_raises c s) as [[] Hu]; exact Hu
    end.
Qed.

Lemma consistent_tree_has_no_key_error_witness :
  exists b, (TechnologyTree_start_research "botany" tree_with_energy).1 = Ok b.
Proof.
  apply (proj1 (consistent_tree_has_no_key_error tree_with_energy
                  (complete_research_consistent "basic_energy" fresh_tree
                     (init_consistent sample_technologies)))).
Defined.

(** X22. [start_research] on a consistent tree. An id missing from the table,
    a technology that is not available or one already researched gives false
    and leaves the tree as it is. Otherwise the call gives true: the
    technology becomes the current research, the tree's progress and the
    technology's progress are 0, the progress of the technology that was
    being researched is reset to 0, every other technology and the
    researched set are untouched, and all prerequisites of the technology
    are researched. *)
Theorem start_research_result (id : string) (t : TechnologyTree) :
  tree_consistent t ->
  let r := TechnologyTree_start_research id t in
  match technologies t !! id with
  | None => r = (Ok false, t)
  | Some tech =>
      if negb (is_available tech) || is_researched tech then r = (Ok false, t)
      else
        r.1 = Ok true /\
        current_research r.2 = Some id /\
        research_progress r.2 = 0.0 /\
        tech_research_progress <$> (technologies r.2 !! id) = Some 0.0 /\
        (forall c, current_research t = Some c -> c <> "" ->
           tech_research_progress <$> (technologies r.2 !! c) = Some 0.0) /\
        (forall j, j <> id -> current_research t <> Some j ->
           technologies r.2 !! j = technologies t !! j) /\
        researched_technologies r.2 = researched_technologies t /\
        prerequisites tech ⊆ researched_technologies t
  end.
Proof.
  intros (H1 & H2 & H3). cbv zeta.
  destruct (technologies t !! id) as [tech|] eqn:E.
  2:{ unfold TechnologyTree_start_research. rewrite bind_get, E. reflexivity. }
  destruct (negb (is_available tech) || is_researched tech) eqn:Eg.
  { unfold TechnologyTree_start_research. rewrite bind_get, E, Eg. reflexivity. }
  pose proof Eg as Eg'.
  apply orb_false_iff in Eg'. destruct Eg' as [Ea Er].
  apply negb_false_iff in Ea.
  assert (Hpre : prerequisites tech ⊆ researched_technologies t).
  { specialize (H3 id tech E Er). rewrite Ea in H3. symmetry in H3.
    apply bool_decide_eq_true in H3. exact H3. }
  destruct (truthy (current_research t)) eqn:Et.
  - destruct (truthy_Some _ Et) as (c & Hc & Hcne).
    destruct (H1 c Hc) as [tc Htc].
    assert (His : exists x, <[c := set_tech_progress 0.0 tc]> (technologies t) !! id
                            = Some x).
    { destruct (decide (c = id)) as [->|Hne].
      - rewrite lookup_insert_eq. eauto.
      - rewrite lookup_insert_ne by exact Hne. eauto. }
    destruct His as [x Hx].
    assert (Hr : TechnologyTree_start_research id t
                 = (Ok true,
                    set_technologies
                      (<[id := set_tech_progress 0.0 x]>
                         (<[c := set_tech_progress 0.0 tc]> (technologies t)))
                      (set_current (Some id) 0.0 t))).
    { unfold TechnologyTree_start_research. rewrite bind_get, E, Eg, Et, Hc.
      change (default "" (Some c)) with c.
      unfold bind at 1. rewrite (assign_progress_Some c 0.0 t tc Htc).
      rewrite bind_modify.
      unfold bind. erewrite assign_progress_Some by (simpl; exact Hx).
      reflexivity. }
    rewrite Hr. simpl.
    split; [reflexivity|]. split; [reflexivity|]. split; [reflexivity|].
    split; [rewrite lookup_insert_eq; reflexivity|].
    split; [|split; [|split; [reflexivity|exact Hpre]]].
    + intros c' Hc' _. assert (c' = c) as -> by congruence.
      destruct (decide (id = c)) as [->|Hne].
      * rewrite lookup_insert_eq. reflexivity.
      * rewrite lookup_insert_ne by exact Hne. rewrite lookup_insert_eq. reflexivity.
    + intros j Hj Hcur.
      rewrite lookup_insert_ne by congruence.
      rewrite lookup_insert_ne by congruence. reflexivity.
  - assert (Hr : TechnologyTree_start_research id t
                 = (Ok true,
                    set_technologies
                      (<[id := set_tech_progress 0.0 tech]> (technologies t))
                      (set_current (Some id) 0.0 t))).
    { unfold TechnologyTree_start_research. rewrite bind_get, E, Eg, Et.
      rewrite bind_ret_tt, bind_modify.
      unfold bind. erewrite assign_progress_Some by (simpl; exact E).
      reflexivity. }
    rewrite Hr. simpl.
    split; [reflexivity|]. split; [reflexivity|]. split; [reflexivity|].
    split; [rewrite lookup_insert_eq; reflexivity|].
    split; [|split; [|split; [reflexivity|exact Hpre]]].
    + intros c Hc Hcne. rewrite Hc in Et. simpl in Et.
      apply negb_false_iff, String.eqb_eq in Et. contradiction.
    + intros j Hj _. rewrite lookup_insert_ne by congruence. reflexivity.
Qed.

Lemma start_research_result_witness :
  let r := TechnologyTree_start_research "botany" tree_with_energy in
  r.1 = Ok true /\ current_research r.2 = Some "botany".
Proof.
  pose proof (start_research_result "botany" tree_with_energy
                (complete_research_consistent "basic_energy" fresh_tree
                   (init_consistent sample_technologies))) as H.
  vm_compute in H. cbv zeta. destruct H as (H1 & H2 & _).
  split; [vm_compute; exact H1|vm_compute; exact H2].
Defined.

Lemma complete_research_researched (id : string) (t : TechnologyTree) :
  researched_technologies (TechnologyTree_complete_research id t).2
  = if decide (is_Some (technologies t !! id))
    then {[id]} ∪ researched_technologies t
    else researched_technologies t.
Proof.
  unfold TechnologyTree_complete_research. rewrite bind_get.
  destruct (technologies t !! id) as [tech|] eqn:E.
  - rewrite !bind_modify. unfold modify. cbn [snd].
    rewrite decide_True by eauto.
    unfold TechnologyTree__update_availability. cbn [researched_technologies set_technologies].
    destruct (bool_decide _); reflexivity.
  - rewrite decide_False by (intros [x Hx]; discriminate). reflexivity.
Qed.

Lemma update_research_researched (sp dt : Q) (t : TechnologyTree) :
  researched_technologies t
  ⊆ researched_technologies (TechnologyTree_update_research sp dt t).2.
Proof.
  unfold TechnologyTree_update_research. rewrite bind_get.
  destruct (negb (truthy (current_research t))); [reflexivity|].
  destruct (technologies t !! default "" (current_research t)) as [tech|] eqn:E;
    [|reflexivity].
  cbv zeta. destruct (Qeq_bool _ 0); [reflexivity|].
  rewrite !bind_modify.
  destruct (Qgeb _ 100.0); [|reflexivity].
  rewrite complete_research_researched. cbn [technologies set_current set_technologies
                                             researched_technologies].
  destruct (decide _); [apply union_subseteq_r|reflexivity].
Qed.

(** X23. Research is never lost. On a consistent tree, after
    [start_research], [update_research] or [complete_research] the
    researched set contains the researched set of before, and every
    technology flagged researched before is still in the table and still
    flagged. *)
Theorem research_is_never_lost (t t' : TechnologyTree) :
  tree_consistent t ->
  (exists id, t' = (TechnologyTree_start_research id t).2) \/
  (exists sp dt, t' = (TechnologyTree_update_research sp dt t).2) \/
  (exists id, t' = (TechnologyTree_complete_research id t).2) ->
  researched_technologies t ⊆ researched_technologies t' /\
  forall j tech, technologies t !! j = Some tech -> is_researched tech = true ->
    exists tech', technologies t' !! j = Some tech' /\ is_researched tech' = true.
Proof.
  intros Hcons Hop.
  assert (Hfacts : tree_consistent t' /\
                   dom (technologies t') = dom (technologies t) /\
                   researched_technologies t ⊆ researched_technologies t').
  { destruct Hop as [[id ->]|[(sp & dt & ->)|[id ->]]].
    - split; [apply start_research_consistent; exact Hcons|].
      split; [apply dom_start_research|].
      destruct (start_research_effect id t) as (_ & -> & _). reflexivity.
    - split; [apply update_research_consistent; exact Hcons|].
      split; [apply dom_update_research|apply update_research_researched].
    - split; [apply complete_research_consistent; exact Hcons|].
      split; [apply dom_complete_research|].
      rewrite complete_research_researched.
      destruct (decide _); [apply union_subseteq_r|reflexivity]. }
  destruct Hfacts as (Hcons' & Hdom & Hsub). split; [exact Hsub|].
  intros j tech Hj Hflag.
  assert (His : is_Some (technologies t' !! j)).
  { apply elem_of_dom. rewrite Hdom. apply elem_of_dom. eauto. }
  destruct His as [tech' Hj']. exists tech'. split; [exact Hj'|].
  destruct Hcons as (_ & H2 & _). destruct Hcons' as (_ & H2' & _).
  apply (H2' j tech' Hj'). apply Hsub. apply (H2 j tech Hj). exact Hflag.
Qed.

Lemma research_is_never_lost_witness :
  researched_technologies tree_with_energy
  ⊆ researched_technologies (TechnologyTree_start_research "botany" tree_with_energy).2.
Proof.
  apply (research_is_never_lost tree_with_energy).
  - apply complete_research_consistent, init_consistent.
  - left. exists "botany". reflexivity.
Defined.

(** X24. One step of research. With a current technology of the table whose
    science cost (100 when the key is absent) is at least 10^-6, a progress
    so far between 0 and 100, and a science rate and an elapsed time between
    0 and 10^12 (no overflow), [update_research] returns normally and adds
    [science_points / cost * 100 * dt] to the technology's progress. When the
    new progress stays below 100 by more than rounding (a margin of 10^-9)
    it is stored in the technology and mirrored in the tree, the rest
    unchanged; when it passes 100 by more than rounding the research
    completes: the technology is flagged researched with progress 100, its
    id joins the researched set, and the tree has no current research and
    progress 0. Within rounding of 100 the outcome is the one or the other,
    as the doubles fall. *)
Theorem update_research_step (sp dt : Q) (t : TechnologyTree) (c : string)
    (tech : Technology) :
  current_research t = Some c -> c <> "" ->
  technologies t !! c = Some tech ->
  1 # 1000000 <= dict_get_default (cost tech) "science" 100 ->
  0 <= tech_research_progress tech <= 100 ->
  0 <= sp <= 1000000000000 -> 0 <= dt <= 1000000000000 ->
  let progress :=
    tech_research_progress tech
    + sp / dict_get_default (cost tech) "science" 100 * 100 * dt in
  let r := TechnologyTree_update_research sp dt t in
  r.1 = Ok tt /\
  (progress <= 100 - (1 # 1000000000) ->
   current_research r.2 = Some c /\
   research_progress r.2 = progress /\
   technologies r.2 !! c = Some (set_tech_progress progress tech) /\
   researched_technologies r.2 = researched_technologies t) /\
  (100 + (1 # 1000000000) <= progress ->
   current_research r.2 = None /\
   research_progress r.2 = 0.0 /\
   c ∈ researched_technologies r.2 /\
   exists tech', technologies r.2 !! c = Some tech' /\
                 is_researched tech' = true /\
                 tech_research_progress tech' = 100.0).
Proof.
  intros Hc Hne Htech Hcost _ _ _. cbv zeta.
  set (progress := tech_research_progress tech + _).
  assert (Htruthy : truthy (current_research t) = true).
  { rewrite Hc. simpl. apply negb_true_iff, String.eqb_neq. exact Hne. }
  assert (Hz : Qeq_bool (dict_get_default (cost tech) "science" 100) 0 = false).
  { destruct (Qeq_bool _ 0) eqn:Ez; [|reflexivity].
    apply Qeq_bool_iff in Ez. rewrite Ez in Hcost. exfalso.
    apply (Qle_not_lt _ _ Hcost). reflexivity. }
  assert (Hcases : forall P : Res unit * TechnologyTree -> Prop,
            (Qgeb progress 100.0 = true ->
             P (TechnologyTree_complete_research c
                  (set_current (Some c) progress
                     (set_technologies
                        (<[c := set_tech_progress progress tech]> (technologies t)) t)))) ->
            (Qgeb progress 100.0 = false ->
             P (Ok tt, set_current (Some c) progress
                  (set_technologies
                     (<[c := set_tech_progress progress tech]> (technologies t)) t))) ->
            P (TechnologyTree_update_research sp dt t)).
  { intros P Hyes Hno.
    unfold TechnologyTree_update_research. rewrite bind_get.
    rewrite Htruthy, Hc. change (negb true) with false.
    change (default "" (Some c)) with c. cbv iota zeta. rewrite Htech, Hz.
    fold progress. rewrite !bind_modify.
    destruct (Qgeb progress 100.0) eqn:Eg; [apply Hyes|apply Hno]; reflexivity. }
  assert (E100 : 100.0 == 100) by reflexivity.
  apply Hcases; intros Eg.
  - apply Qgeb_le in Eg.
    unfold TechnologyTree_complete_research. rewrite bind_get.
    cbn [technologies set_current set_technologies].
    rewrite lookup_insert_eq. rewrite !bind_modify. unfold modify. cbn [fst snd].
    split; [reflexivity|]. split.
    + intros Hlt. exfalso. lra.
    + intros _.
      unfold TechnologyTree__update_availability.
      cbn [technologies set_current set_technologies researched_technologies
           current_research research_progress set_researched].
      rewrite bool_decide_eq_true_2 by reflexivity.
      cbn [technologies set_current set_technologies researched_technologies
           current_research research_progress set_researched].
      split; [reflexivity|]. split; [reflexivity|].
      split; [apply elem_of_union; left; apply elem_of_singleton; reflexivity|].
      rewrite lookup_fmap, lookup_insert_eq. simpl.
      eexists. split; [reflexivity|]. split; reflexivity.
  - split; [reflexivity|]. split.
    + intros _. cbn. rewrite lookup_insert_eq. repeat split.
    + intros Hge. exfalso.
      assert (Hg : Qgeb progress 100.0 = true) by (apply Qgeb_le; lra).
      congruence.
Qed.

(** Botany has no [cost] key, so it costs 100 science: at 2 science per
    second, 60 seconds complete it with room to spare. *)
Lemma update_research_step_witness :
  let started := (TechnologyTree_start_research "botany" tree_with_energy).2 in
  let r := TechnologyTree_update_research 2 60 started in
  r.1 = Ok tt /\ current_research r.2 = None /\ "botany" ∈ researched_technologies r.2.
Proof.
  cbv zeta.
  destruct (update_research_step 2 60
              (TechnologyTree_start_research "botany" tree_with_energy).2 "botany"
              (set_tech_progress 0.0
                 (default (Technology_init "" (Build_TechData None None None None None None))
                    (technologies tree_with_energy !! "botany"))))
    as (Hr & _ & Hdone).
  - vm_compute. reflexivity.
  - discriminate.
  - vm_compute. reflexivity.
  - vm_compute. discriminate.
  - split; vm_compute; discriminate.
  - split; discriminate.
  - split; discriminate.
  - destruct Hdone as (Hcur & _ & Hin & _); [vm_compute; discriminate|].
    split; [exact Hr|]. split; [exact Hcur|exact Hin].
Defined.

(** X25. A building type is unlocked exactly when some technology of the
    table that is flagged researched lists it among its [unlocks]. *)
Theorem building_unlocked_iff (t : TechnologyTree) (bt : string) :
  TechnologyTree_is_building_unlocked t bt = true <->
  exists id tech, technologies t !! id = Some tech /\
                  is_researched tech = true /\ bt ∈ unlocks tech.
Proof.
  unfold TechnologyTree_is_building_unlocked, TechnologyTree_get_unlocked_buildings,
    TechnologyTree_get_researched_technologies.
  rewrite bool_decide_eq_true, elem_of_remove_dups, list_elem_of_In, in_concat.
  split.
  - intros (l & Hl & Hbt). apply list_elem_of_In, list_elem_of_fmap in Hl.
    destruct Hl as (tech & -> & Htech).
    apply list_elem_of_filter in Htech. destruct Htech as [Hflag Htech].
    apply list_elem_of_fmap in Htech. destruct Htech as ([id tech0] & -> & Hin).
    apply elem_of_map_to_list in Hin. simpl in *.
    exists id, tech0. split; [exact Hin|]. split; [exact Hflag|].
    apply list_elem_of_In. exact Hbt.
  - intros (id & tech & Hl & Hflag & Hbt).
    exists (unlocks tech). split; [|apply list_elem_of_In; exact Hbt].
    apply list_elem_of_In, list_elem_of_fmap. exists tech. split; [reflexivity|].
    apply list_elem_of_filter. split; [exact Hflag|].
    apply list_elem_of_fmap. exists (id, tech). split; [reflexivity|].
    apply elem_of_map_to_list. exact Hl.
Qed.

(** *** The engine *)

(** On an engine whose stats hold the counter, the engine with its stats
    dict does what the engine with the counter does. *)
Lemma build_structure_with_counter (g : GameEngine) (bt : string) (count : Z) :
  let r := GameEngine_build_structure g bt count in
  let r' := Stats.GameEngine_build_structure (with_counter g) bt count in
  r'.1 = Ok r.1 /\
  Stats.current_planet r'.2 = current_planet r.2 /\
  Stats.resource_manager r'.2 = engine_resource_manager r.2 /\
  Stats.technology_tree r'.2 = technology_tree r.2 /\
  exists n, Stats.game_stats r'.2 !! "buildings_built" = Some n /\
            n == inject_Z (buildings_built r.2).
Proof.
  cbv zeta.
  unfold Stats.GameEngine_build_structure, GameEngine_build_structure, with_counter.
  cbn [Stats.current_planet Stats.resource_manager Stats.technology_tree
       Stats.game_stats].
  assert (Hsame : exists n,
            ({[ "buildings_built" := inject_Z (buildings_built g) ]} : gmap string Q)
              !! "buildings_built" = Some n /\ n == inject_Z (buildings_built g)).
  { eexists. split; [apply lookup_singleton_eq|reflexivity]. }
  assert (Hnone : forall cp, cp = current_planet g ->
            let r : bool * GameEngine := (false, g) in
            let r' : Res bool * Stats.GameEngine :=
              (Ok false,
               {| Stats.current_planet := cp;
                  Stats.resource_manager := engine_resource_manager g;
                  Stats.technology_tree := technology_tree g;
                  Stats.game_stats :=
                    {[ "buildings_built" := inject_Z (buildings_built g) ]} |}) in
            r'.1 = Ok r.1 /\
            Stats.current_planet r'.2 = current_planet r.2 /\
            Stats.resource_manager r'.2 = engine_resource_manager r.2 /\
            Stats.technology_tree r'.2 = technology_tree r.2 /\
            exists n, Stats.game_stats r'.2 !! "buildings_built" = Some n /\
                      n == inject_Z (buildings_built r.2)).
  { intros cp ->. cbn. repeat (split; [reflexivity|]). exact Hsame. }
  destruct (current_planet g) as [p|] eqn:Ep; [|apply (Hnone None); reflexivity].
  destruct (negb (TechnologyTree_is_building_unlocked (technology_tree g) bt));
    [apply (Hnone (Some p)); reflexivity|].
  destruct (building_costs !! bt) as [base|]; [|apply (Hnone (Some p)); reflexivity].
  cbv zeta.
  destruct (negb (ResourceManager_spend_resources (engine_resource_manager g)
                    ((fun c => c * inject_Z count) <$> base)).1);
    [apply (Hnone (Some p)); reflexivity|].
  rewrite lookup_singleton_eq. cbn. repeat (split; [reflexivity|]).
  eexists. split; [apply lookup_insert_eq|].
  rewrite inject_Z_plus. reflexivity.
Qed.

(** X26. [build_structure] on an engine with any stats dict. It returns false
    exactly when the build is not possible, and then leaves the engine as it
    was. The build is possible when there is a planet, the type is unlocked,
    the type is in the cost table, credits and energy cover [count] times
    the base cost and the science stock is not negative. A possible build
    takes exactly that cost from credits and energy, leaves science and the
    tree alone and adds the buildings to the planet; it then returns true
    and adds [count] to the counter when [game_stats] has the key
    [buildings_built], and raises [KeyError], with the resources spent and
    the buildings added, when [game_stats] lacks it. *)
Theorem build_structure_result (g : Stats.GameEngine) (bt : string) (count : Z) :
  let r := Stats.GameEngine_build_structure g bt count in
  let rm := Stats.resource_manager g in
  let rm' := Stats.resource_manager r.2 in
  let possible :=
    exists p base_cost,
      Stats.current_planet g = Some p /\
      TechnologyTree_is_building_unlocked (Stats.technology_tree g) bt = true /\
      building_costs !! bt = Some base_cost /\
      dict_get_default base_cost "credits" 0 * inject_Z count <= credits rm /\
      dict_get_default base_cost "energy" 0 * inject_Z count <= energy rm /\
      0 <= science rm in
  (r.1 = Ok false <-> ~ possible) /\
  (r.1 = Ok false -> r.2 = g) /\
  (r.1 = Ok true <-> possible /\ is_Some (Stats.game_stats g !! "buildings_built")) /\
  (r.1 = Raise KeyError <-> possible /\ Stats.game_stats g !! "buildings_built" = None) /\
  (possible ->
   forall p base_cost,
     Stats.current_planet g = Some p -> building_costs !! bt = Some base_cost ->
     Stats.current_planet r.2 = Some (Planet_add_building p bt count) /\
     credits rm' == credits rm - dict_get_default base_cost "credits" 0 * inject_Z count /\
     energy rm' == energy rm - dict_get_default base_cost "energy" 0 * inject_Z count /\
     science rm' == science rm /\
     Stats.technology_tree r.2 = Stats.technology_tree g /\
     Stats.game_stats r.2
     = match Stats.game_stats g !! "buildings_built" with
       | Some n => <["buildings_built" := n + inject_Z count]> (Stats.game_stats g)
       | None => Stats.game_stats g
       end).
Proof.
  intros r rm rm' possible.
  assert (Hfails : forall (r0 : Res bool * Stats.GameEngine) (P : Prop),
            r0 = (Ok false, g) -> ~ possible ->
            (r0.1 = Ok false <-> ~ possible) /\
            (r0.1 = Ok false -> r0.2 = g) /\
            (r0.1 = Ok true <->
             possible /\ is_Some (Stats.game_stats g !! "buildings_built")) /\
            (r0.1 = Raise KeyError <->
             possible /\ Stats.game_stats g !! "buildings_built" = None) /\
            (possible -> P)).
  { intros r0 P -> Hno. cbn [fst snd].
    split; [split; [intros _; exact Hno|reflexivity]|].
    split; [reflexivity|].
    split; [split; [discriminate|intros [Hb _]; contradiction]|].
    split; [split; [discriminate|intros [Hb _]; contradiction]|].
    intros Hb. contradiction. }
  assert (Hr : r = Stats.GameEngine_build_structure g bt count) by reflexivity.
  subst rm'. clearbody r. subst rm.
  unfold Stats.GameEngine_build_structure in Hr.
  destruct (Stats.current_planet g) as [p|] eqn:Ep.
  2:{ apply Hfails; [exact Hr|]. intros (p & b & H & _). discriminate. }
  destruct (TechnologyTree_is_building_unlocked (Stats.technology_tree g) bt) eqn:Eu.
  2:{ apply Hfails; [exact Hr|]. intros (p' & b & _ & H & _). discriminate. }
  destruct (building_costs !! bt) as [base|] eqn:Eb.
  2:{ apply Hfails; [exact Hr|]. intros (p' & b & _ & _ & H & _). discriminate. }
  destruct (building_costs_positive _ _ Eb) as (_ & _ & Hsci).
  pose proof (scaled_cost_get base count "credits") as Hc.
  pose proof (scaled_cost_get base count "energy") as He.
  assert (Hs : dict_get_default ((fun c => c * inject_Z count) <$> base) "science" 0 = 0).
  { unfold dict_get_default. rewrite lookup_fmap, Hsci. reflexivity. }
  change (negb true) with false in Hr. cbv iota zeta in Hr.
  unfold ResourceManager_spend_resources in Hr.
  destruct (ResourceManager_can_afford (Stats.resource_manager g)
              ((fun c => c * inject_Z count) <$> base)) eqn:Ea.
  2:{ apply Hfails; [exact Hr|].
      intros (p' & base' & _ & _ & Hb' & Hc1 & Hc2 & Hc3).
      assert (base' = base) as -> by congruence.
      assert (ResourceManager_can_afford (Stats.resource_manager g)
                ((fun c => c * inject_Z count) <$> base) = true); [|congruence].
      apply can_afford_spec. rewrite Hs, Hc, He. auto. }
  clear Hfails.
  apply can_afford_spec in Ea. rewrite Hs in Ea. destruct Ea as (Ha1 & Ha2 & Ha3).
  assert (Hyes : possible).
  { exists p, base. repeat split; try reflexivity;
      [rewrite <- Hc|rewrite <- He|]; assumption. }
  cbn [negb fst snd] in Hr. rewrite Hs in Hr.
  destruct (Stats.game_stats g !! "buildings_built") as [n|] eqn:En; subst r;
    cbn [fst snd Stats.current_planet Stats.resource_manager Stats.technology_tree
         Stats.game_stats].
  - split; [split; [discriminate|intros Hn; contradiction]|].
    split; [discriminate|].
    split; [split; [intros _; split; [exact Hyes|eauto]|reflexivity]|].
    split; [split; [discriminate|intros [_ H]; discriminate]|].
    intros _ p' base' Hp' Hb'.
    assert (p' = p) as -> by congruence. assert (base' = base) as -> by congruence.
    cbn [credits energy science set_stocks].
    split; [reflexivity|]. split; [rewrite Hc; reflexivity|].
    split; [rewrite He; reflexivity|]. split; [ring|]. split; reflexivity.
  - split; [split; [discriminate|intros Hn; contradiction]|].
    split; [discriminate|].
    split; [split; [discriminate|intros [_ [x Hx]]; discriminate]|].
    split; [split; [intros _; split; [exact Hyes|reflexivity]|reflexivity]|].
    intros _ p' base' Hp' Hb'.
    assert (p' = p) as -> by congruence. assert (base' = base) as -> by congruence.
    cbn [credits energy science set_stocks].
    split; [reflexivity|]. split; [rewrite Hc; reflexivity|].
    split; [rewrite He; reflexivity|]. split; [ring|]. split; reflexivity.
Qed.

(** Building one solar panel on the engine loaded without stats: the call
    raises [KeyError] with the 100 credits spent and the panel on the planet. *)
Lemma build_structure_on_loaded_engine :
  let r := Stats.GameEngine_build_structure loaded_engine "solar_panel" 1 in
  r.1 = Raise KeyError /\
  credits (Stats.resource_manager r.2) == 900 /\
  (buildings <$> Stats.current_planet r.2) = Some [("solar_panel", 1%Z)].
Proof. cbv zeta. repeat split; vm_compute; reflexivity. Qed.

(** X27. [set_simulation_speed] keeps the speed between 0.1 and 5: a speed in
    that range is stored as given, a lower one as 0.1, a higher one as 5, and
    nothing else of the engine changes. *)
Theorem set_simulation_speed_clamps (s : Simulation) (speed : Q) :
  let s' := GameEngine_set_simulation_speed s speed in
  0.1 <= simulation_speed s' <= 5 /\
  (0.1 <= speed <= 5 -> simulation_speed s' == speed) /\
  (speed < 0.1 -> simulation_speed s' == 0.1) /\
  (5 < speed -> simulation_speed s' == 5) /\
  s' = set_simulation_speed_field (simulation_speed s') s.
Proof.
  cbv zeta. unfold GameEngine_set_simulation_speed. cbn [simulation_speed
    set_simulation_speed_field].
  assert (E5 : 5.0 == 5) by reflexivity.
  destruct (py_min_cases 5.0 speed) as [[H1 E1]|[H1 E1]];
    destruct (py_max_cases 0.1 (py_min 5.0 speed)) as [[H2 E2]|[H2 E2]];
    rewrite ?E2, ?E1 in *; repeat split; intros; try lra; reflexivity.
Qed.

Lemma keeps_bind {S A B V} (obs : S -> V) (m : M S A) (k : A -> M S B) :
  (forall s, obs (m s).2 = obs s) -> (forall a s, obs (k a s).2 = obs s) ->
  forall s, obs (bind m k s).2 = obs s.
Proof.
  intros Hm Hk s. unfold bind. specialize (Hm s).
  destruct (m s) as [[a|e] s1]; simpl in *.
  - rewrite Hk. exact Hm.
  - exact Hm.
Qed.

(** The components of a tick after the clock fields are written. *)
Lemma tick_components_keep {V} (obs : Simulation -> V) (dt : Q) :
  (forall A (m : M World A) s, obs (in_world m s).2 = obs s) ->
  (forall A (m : M TechnologyTree A) s, obs (in_tree m s).2 = obs s) ->
  (forall em s, obs (set_tick_events em s) = obs s) ->
  forall s,
    obs ((in_world (modify (fun w =>
            on_resource_manager (fun rm =>
              ResourceManager_calculate_production rm (planet w) (buildings (planet w))) w)) ;;;
          in_world (Planet_update dt) ;;;
          in_world (in_resource_manager (ResourceManager_update dt)) ;;;
          s1 <- get ;;
          in_tree (TechnologyTree_update_research
                     (science_per_second (resource_manager (tick_world s1))) dt) ;;;
          s2 <- get ;;
          em <- in_world (EventManager_update (tick_events s2) dt) ;;
          modify (set_tick_events em)) s).2
    = obs s.
Proof.
  intros Hw Ht He.
  apply keeps_bind; [apply Hw|]. intros _.
  apply keeps_bind; [apply Hw|]. intros _.
  apply keeps_bind; [apply Hw|]. intros _.
  apply keeps_bind; [reflexivity|]. intros s1.
  apply keeps_bind; [apply Ht|]. intros _.
  apply keeps_bind; [reflexivity|]. intros s2.
  apply keeps_bind; [apply Hw|]. intros em s. apply He.
Qed.

(** X28. The clock of a tick. When the engine is stopped, paused or has no
    planet, [update_simulation] returns at once and changes nothing: the
    clock is not read and [last_update_time] stays where it was. Otherwise,
    whether the components return or raise, the tick stores its reading of
    the clock in [last_update_time] and adds
    [(reading - old last_update_time) * simulation_speed] to [game_time], so
    the first tick after a pause counts the time of the pause as elapsed.
    The flags and the speed are never written. *)
Theorem update_simulation_clock (s : Simulation) :
  let r := GameEngine_update_simulation s in
  let now := time_time (tick_world s) (clock_reads (tick_world s)) in
  engine_flags r.2 = engine_flags s /\
  if negb (is_running s) || is_paused s || negb (has_planet s)
  then r = (Ok tt, s)
  else
    last_update_time r.2 = now /\
    game_time r.2 = game_time s + (now - last_update_time s) * simulation_speed s.
Proof.
  cbv zeta.
  destruct (negb (is_running s) || is_paused s || negb (has_planet s)) eqn:E.
  { unfold GameEngine_update_simulation. rewrite bind_get, E. split; reflexivity. }
  assert (Hr : forall V (obs : Simulation -> V),
             (forall A (m : M World A) s, obs (in_world m s).2 = obs s) ->
             (forall A (m : M TechnologyTree A) s, obs (in_tree m s).2 = obs s) ->
             (forall em s, obs (set_tick_events em s) = obs s) ->
             obs (GameEngine_update_simulation s).2
             = obs (set_clock_fields
                      (time_time (tick_world s) (clock_reads (tick_world s)))
                      (game_time s
                       + (time_time (tick_world s) (clock_reads (tick_world s))
                          - last_update_time s) * simulation_speed s)
                      (in_world py_time s).2)).
  { intros V obs Hw Ht He.
    unfold GameEngine_update_simulation. rewrite bind_get, E.
    unfold bind at 1. unfold in_world at 1. cbn [py_time fst snd].
    rewrite bind_modify. apply tick_components_keep; assumption. }
  split; [|split].
  - rewrite (Hr _ engine_flags); reflexivity.
  - rewrite (Hr _ last_update_time); reflexivity.
  - rewrite (Hr _ game_time); reflexivity.
Qed.

(** X29. Saving and loading the resource manager loses the rates and nothing
    else: the loaded manager is the saved one with the four rates back at 0,
    so its net production reads 0 on every line. The next
    [calculate_production], with which every tick starts, makes the loaded
    manager equal to what it makes of the saved one. *)
Theorem resource_snapshot_loses_only_rates
    (rm : ResourceManager) (p : Planet) (b : odict Z) :
  let rm' := ResourceManager_from_dict (ResourceManager_to_dict rm) in
  rm' = set_rates 0.0 0.0 0.0 0.0 rm /\
  ResourceManager_get_net_production rm' = (0.0, 0.0 - 0.0, 0.0) /\
  ResourceManager_calculate_production rm' p b
  = ResourceManager_calculate_production rm p b.
Proof.
  cbv zeta.
  assert (E : ResourceManager_from_dict (ResourceManager_to_dict rm)
              = set_rates 0.0 0.0 0.0 0.0 rm) by reflexivity.
  rewrite E. split; [reflexivity|]. split; [reflexivity|].
  unfold ResourceManager_calculate_production.
  destruct (fold_left _ _ _) as [[[a c] d] e]. reflexivity.
Qed.

(** X30. Pausing twice resumes: [pause_simulation] flips the pause flag and
    nothing else, so a second call gives back the engine as it was; and on
    whichever of the two states is the paused one, [update_simulation]
    returns at once and changes nothing. *)
Theorem pause_simulation_toggles (s : Simulation) :
  GameEngine_pause_simulation (GameEngine_pause_simulation s) = s /\
  is_paused (GameEngine_pause_simulation s) = negb (is_paused s) /\
  let paused := if is_paused s then s else GameEngine_pause_simulation s in
  GameEngine_update_simulation paused = (Ok tt, paused).
Proof.
  split; [|split].
  - destruct s as [run pau sp gt lu hp w t em].
    unfold GameEngine_pause_simulation. cbn. rewrite negb_involutive. reflexivity.
  - reflexivity.
  - cbv zeta. unfold GameEngine_update_simulation. rewrite bind_get.
    destruct (is_paused s) eqn:E.
    + rewrite E, orb_true_r. reflexivity.
    + cbn [is_paused is_running has_planet GameEngine_pause_simulation].
      rewrite E. cbn [negb]. rewrite orb_true_r. reflexivity.
Qed.

(** *** The snapshot round trip *)

Lemma update_availability_from_file (file : gmap string TechData) (t : TechnologyTree) :
  (forall id tech, technologies t !! id = Some tech ->
     (exists data, file !! id = Some data /\
                   tech_fixed tech = tech_fixed (Technology_init id data)) /\
     (is_researched tech = true <-> id ∈ researched_technologies t)) ->
  from_file file (TechnologyTree__update_availability t).
Proof.
  intros H id tech'. unfold TechnologyTree__update_availability. simpl.
  rewrite lookup_fmap.
  destruct (technologies t !! id) as [tech|] eqn:E; [|discriminate].
  simpl. intros Heq. injection Heq as <-.
  destruct (H id tech E) as [(data & Hf & Hfix) Hflag].
  destruct (is_researched tech) eqn:Er; simpl.
  - split; [exists data; split; [exact Hf|exact Hfix]|].
    rewrite Er. split; [exact Hflag|discriminate].
  - split; [exists data; split; [exact Hf|exact Hfix]|].
    rewrite Er. split; [exact Hflag|]. intros _. reflexivity.
Qed.

Lemma static_from_file (file : gmap string TechData) (t t' : TechnologyTree) :
  from_file file t -> static_equal t t' ->
  researched_technologies t' = researched_technologies t ->
  from_file file t'.
Proof.
  intros H Hs Hr id tech' Hl.
  destruct (static_lookup _ _ _ _ Hs Hl) as (tech & Hl0 & E).
  destruct (H id tech Hl0) as ((data & Hf & Hfix) & H2 & H3).
  pose proof (f_equal tech_fixed E) as Efix.
  pose proof (f_equal is_researched E) as E1.
  pose proof (f_equal is_available E) as E2.
  pose proof (f_equal prerequisites E) as E3. simpl in E1, E2, E3.
  split; [exists data; split; [exact Hf|]|split].
  - transitivity (tech_fixed tech); [symmetry; exact Efix|exact Hfix].
  - rewrite Hr, <- E1. exact H2.
  - rewrite Hr, <- E1, <- E2, <- E3. exact H3.
Qed.

Lemma init_lookup (file : gmap string TechData) (id : string) :
  technologies (TechnologyTree_init file) !! id
  = (fun data =>
       let tech := Technology_init id data in
       set_is_available (bool_decide (prerequisites tech ⊆ ∅)) tech) <$> (file !! id).
Proof.
  unfold TechnologyTree_init, TechnologyTree__update_availability. simpl.
  rewrite lookup_fmap, map_lookup_imap. destruct (file !! id); reflexivity.
Qed.

Lemma init_from_file (file : gmap string TechData) :
  from_file file (TechnologyTree_init file).
Proof.
  unfold TechnologyTree_init. apply update_availability_from_file. simpl.
  intros id tech. rewrite map_lookup_imap.
  destruct (file !! id) as [data|]; simpl; [|discriminate].
  intros H. injection H as <-. split; [eauto|]. simpl.
  split; [discriminate|]. intros Hin. apply elem_of_empty in Hin. contradiction.
Qed.

(** Restoring the flags: a technology whose id is in the saved set is
    flagged, any other keeps its own flag. *)
Lemma set_fold_researched_lookup (techs : gmap string Technology) (R : gset string)
    (id : string) :
  set_fold (update_if_present (set_is_researched true)) techs R !! id
  = (fun tech => if bool_decide (id ∈ R) then set_is_researched true tech else tech)
      <$> (techs !! id).
Proof.
  pose (P := fun (r : gmap string Technology) (X : gset string) =>
    r !! id = (fun tech => if bool_decide (id ∈ X) then set_is_researched true tech
                           else tech) <$> (techs !! id)).
  apply (set_fold_ind_L P); unfold P.
  - destruct (techs !! id); [|reflexivity]. simpl.
    rewrite bool_decide_eq_false_2 by apply not_elem_of_empty. reflexivity.
  - intros x X r Hx IH. unfold update_if_present.
    destruct (decide (x = id)) as [->|Hne].
    + destruct (techs !! id) as [tech|]; simpl in *; rewrite IH; [|exact IH].
      rewrite lookup_insert_eq.
      rewrite (bool_decide_eq_false_2 (id ∈ X)) by exact Hx.
      rewrite bool_decide_eq_true_2; [reflexivity|].
      apply elem_of_union. left. apply elem_of_singleton. reflexivity.
    + assert (Hb : bool_decide (id ∈ {[x]} ∪ X) = bool_decide (id ∈ X)).
      { apply bool_decide_ext. rewrite elem_of_union, elem_of_singleton.
        split; [intros [Heq|Hin]; [congruence|exact Hin]|auto]. }
      rewrite Hb. destruct (r !! x); [rewrite lookup_insert_ne by exact Hne|]; exact IH.
Qed.

(** Restoring the progress, with the whole technology in view. *)
Lemma map_fold_progress_lookup (techs : gmap string Technology) (tp : gmap string Q)
    (id : string) :
  map_fold (fun id progress => update_if_present (set_tech_progress progress) id)
    techs tp !! id
  = (fun tech => match tp !! id with
                 | Some q => set_tech_progress q tech
                 | None => tech
                 end) <$> (techs !! id).
Proof.
  apply (map_fold_weak_ind (fun r m =>
    r !! id = (fun tech => match m !! id with
                           | Some q => set_tech_progress q tech
                           | None => tech
                           end) <$> (techs !! id))).
  - rewrite lookup_empty. destruct (techs !! id); reflexivity.
  - intros i q m r Hi IH. unfold update_if_present.
    destruct (decide (i = id)) as [->|Hne].
    + rewrite lookup_insert_eq. rewrite Hi in IH.
      destruct (techs !! id) as [tech|]; simpl in *; rewrite IH; [|exact IH].
      rewrite lookup_insert_eq. reflexivity.
    + rewrite (lookup_insert_ne m) by exact Hne.
      destruct (r !! i); [rewrite lookup_insert_ne by exact Hne|]; exact IH.
Qed.

Lemma from_dict_from_file (data : TechnologyDict) (file : gmap string TechData) :
  from_file file (TechnologyTree_from_dict data file).
Proof.
  unfold TechnologyTree_from_dict. cbv zeta.
  apply update_availability_from_file.
  intros id tech. cbn [technologies researched_technologies].
  rewrite map_fold_progress_lookup, set_fold_researched_lookup, init_lookup.
  destruct (file !! id) as [d|]; simpl; [|discriminate].
  intros H. injection H as <-.
  split.
  - exists d. split; [reflexivity|].
    destruct (default ∅ (tdict_technology_progress data) !! id);
      destruct (bool_decide (id ∈ _)); reflexivity.
  - destruct (default ∅ (tdict_technology_progress data) !! id);
      destruct (bool_decide (id ∈ list_to_set _)) eqn:Eb; simpl;
      first [ apply bool_decide_eq_true in Eb; split; [intros _; exact Eb|reflexivity]
            | apply bool_decide_eq_false in Eb;
              split; [discriminate|intros Hin; contradiction] ].
Qed.

Lemma complete_research_from_file (file : gmap string TechData) (id : string)
    (t : TechnologyTree) :
  from_file file t -> from_file file (TechnologyTree_complete_research id t).2.
Proof.
  intros H. unfold TechnologyTree_complete_research. rewrite bind_get.
  destruct (technologies t !! id) as [tech|] eqn:E; [|exact H].
  rewrite !bind_modify. unfold modify. cbn [snd].
  apply update_availability_from_file.
  intros j tech'.
  assert (Hl : forall s : TechnologyTree,
            technologies (if bool_decide (current_research s = Some id)
                          then set_current None 0.0 s else s) = technologies s
            /\ researched_technologies (if bool_decide (current_research s = Some id)
                          then set_current None 0.0 s else s)
               = researched_technologies s).
  { intros s. destruct (bool_decide _); split; reflexivity. }
  match goal with |- technologies ?x !! j = _ -> _ =>
    match x with (if bool_decide (current_research ?s = _) then _ else _) =>
      destruct (Hl s) as [-> ->]
    end
  end.
  simpl. destruct (decide (id = j)) as [<-|Hne].
  - rewrite lookup_insert_eq. intros Heq. injection Heq as <-.
    destruct (H id tech E) as (Hfile & _). split; [exact Hfile|]. simpl.
    split; [intros _|reflexivity].
    apply elem_of_union. left. apply elem_of_singleton. reflexivity.
  - rewrite lookup_insert_ne by exact Hne. intros Hj.
    destruct (H j tech' Hj) as (Hfile & H2 & _). split; [exact Hfile|].
    rewrite H2, elem_of_union, elem_of_singleton.
    split; [auto|]. intros [Heq|Hin]; [congruence|exact Hin].
Qed.

Lemma update_research_from_file (file : gmap string TechData) (sp dt : Q)
    (t : TechnologyTree) :
  from_file file t -> from_file file (TechnologyTree_update_research sp dt t).2.
Proof.
  intros H. unfold TechnologyTree_update_research. rewrite bind_get.
  destruct (negb (truthy (current_research t))); [exact H|].
  destruct (technologies t !! default "" (current_research t)) as [tech|] eqn:E;
    [|exact H].
  destruct (Qeq_bool _ 0); [exact H|].
  rewrite !bind_modify.
  set (progress := tech_research_progress tech + _).
  set (t2 := set_current (current_research t) progress
               (set_technologies
                  (<[default "" (current_research t) := set_tech_progress progress tech]>
                     (technologies t)) t)).
  assert (H2 : from_file file t2).
  { apply (static_from_file file t); [exact H| |reflexivity].
    intros j. unfold t2. simpl. apply insert_progress_static. exact E. }
  destruct (Qgeb progress 100.0).
  - apply complete_research_from_file. exact H2.
  - exact H2.
Qed.

Lemma reachable_from_file (file : gmap string TechData) (t : TechnologyTree) :
  tree_reachable file t -> from_file file t.
Proof.
  induction 1 as [|t id _ IH|t sp dt _ IH|t id _ IH|data].
  - apply init_from_file.
  - destruct (start_research_effect id t) as (Hs & Hr & _).
    exact (static_from_file file t _ IH Hs Hr).
  - apply update_research_from_file. exact IH.
  - apply complete_research_from_file. exact IH.
  - apply from_dict_from_file.
Qed.

(** Two tables built for one file, with the same researched set and the same
    progress values, show the same. *)
Lemma from_file_same_table (file : gmap string TechData) (t' t : TechnologyTree) :
  from_file file t' -> from_file file t ->
  dom (technologies t') = dom (technologies t) ->
  researched_technologies t' = researched_technologies t ->
  (forall id, tech_research_progress <$> (technologies t' !! id)
              = tech_research_progress <$> (technologies t !! id)) ->
  same_table t' t.
Proof.
  intros H' H Hdom Hr Hp id. specialize (Hp id).
  destruct (technologies t' !! id) as [a|] eqn:Ea;
    destruct (technologies t !! id) as [b|] eqn:Eb; try discriminate; [|exact I].
  destruct (H' id a Ea) as ((da & Hfa & Hfixa) & Ha2 & Ha3).
  destruct (H id b Eb) as ((db & Hfb & Hfixb) & Hb2 & Hb3).
  assert (db = da) as -> by congruence.
  assert (Hfix : tech_fixed a = tech_fixed b) by congruence.
  assert (Hflag : is_researched a = is_researched b).
  { rewrite Hr in Ha2. destruct (is_researched a), (is_researched b); try reflexivity.
    - symmetry. apply Hb2, Ha2. reflexivity.
    - apply Ha2, Hb2. reflexivity. }
  pose proof (f_equal prerequisites Hfix) as Hpre. simpl in Hpre.
  unfold same_technology.
  split; [exact (f_equal tech_id Hfix)|]. split; [exact (f_equal tech_name Hfix)|].
  split; [exact (f_equal tech_description Hfix)|].
  split; [exact (f_equal tech_icon Hfix)|]. split; [exact (f_equal cost Hfix)|].
  split; [exact Hpre|]. split; [exact (f_equal unlocks Hfix)|].
  split; [exact Hflag|]. split; [simpl in Hp; congruence|].
  intros Hnr. rewrite Ha3 by congruence. rewrite Hb3 by exact Hnr.
  rewrite Hpre, Hr. reflexivity.
Qed.

Lemma building_unlocked_spec (t : TechnologyTree) (bt : string) :
  TechnologyTree_is_building_unlocked t bt = true <->
  exists id tech, technologies t !! id = Some tech /\
                  is_researched tech = true /\ In bt (unlocks tech).
Proof.
  unfold TechnologyTree_is_building_unlocked, TechnologyTree_get_unlocked_buildings,
    TechnologyTree_get_researched_technologies.
  rewrite bool_decide_eq_true, elem_of_remove_dups, list_elem_of_In, in_concat.
  split.
  - intros (l & Hl & Hbt). apply list_elem_of_In, list_elem_of_fmap in Hl.
    destruct Hl as (tech & -> & Htech).
    apply list_elem_of_filter in Htech. destruct Htech as [Hflag Htech].
    apply list_elem_of_fmap in Htech. destruct Htech as ([id tech0] & -> & Hin).
    apply elem_of_map_to_list in Hin. simpl in *. eauto.
  - intros (id & tech & Hl & Hflag & Hbt).
    exists (unlocks tech). split; [|exact Hbt].
    apply list_elem_of_In, list_elem_of_fmap. exists tech. split; [reflexivity|].
    apply list_elem_of_filter. split; [exact Hflag|].
    apply list_elem_of_fmap. exists (id, tech). split; [reflexivity|].
    apply elem_of_map_to_list. exact Hl.
Qed.

Lemma same_table_unlocked (t' t : TechnologyTree) (bt : string) :
  same_table t' t ->
  TechnologyTree_is_building_unlocked t bt = true ->
  TechnologyTree_is_building_unlocked t' bt = true.
Proof.
  intros Hsame Hu. apply building_unlocked_spec in Hu.
  destruct Hu as (id & b & Hl & Hflag & Hbt).
  apply building_unlocked_spec. specialize (Hsame id). rewrite Hl in Hsame.
  destruct (technologies t' !! id) as [a|] eqn:Ea; [|contradiction].
  destruct Hsame as (_ & _ & _ & _ & _ & _ & Hun & Hres & _).
  exists id, a. split; [exact Ea|]. split; [congruence|]. rewrite Hun. exact Hbt.
Qed.

Lemma same_table_sym (t' t : TechnologyTree) : same_table t' t -> same_table t t'.
Proof.
  intros H id. specialize (H id).
  destruct (technologies t' !! id) as [a|], (technologies t !! id) as [b|];
    try exact H.
  destruct H as (H1 & H2 & H3 & H4 & H5 & H6 & H7 & H8 & H9 & H10).
  unfold same_technology. repeat split; try (symmetry; assumption).
  intros Hnr. symmetry. apply H10. congruence.
Qed.

(** C6. Saving and loading reproduces the observable state. For every planet
    the loaded planet has the same name, temperature, pressure, oxygen,
    buildings mapping and history. For every resource manager the loaded one
    has the same credits, energy and science, the same caps and the same
    history. For every reachable technology tree, loaded with the same
    technologies file, the researched set, the current research and the
    tree's progress are the saved ones, and the table has the same ids with,
    under each, the same fixed fields, the same researched flag, the same
    progress and, for an unresearched technology, the same availability; so
    the same buildings are unlocked. *)
Theorem snapshot_round_trip :
  (forall (p : Planet) (planet_data : PlanetData),
     exists p', Planet_from_dict (Planet_to_dict p) planet_data = Ok p' /\
                name p' = name p /\
                temperature p' = temperature p /\ pressure p' = pressure p /\
                oxygen p' = oxygen p /\
                buildings p' = buildings p /\ history p' = history p) /\
  (forall rm : ResourceManager,
     let rm' := ResourceManager_from_dict (ResourceManager_to_dict rm) in
     credits rm' = credits rm /\ energy rm' = energy rm /\ science rm' = science rm /\
     max_energy rm' = max_energy rm /\ max_science rm' = max_science rm /\
     rm_history rm' = rm_history rm) /\
  (forall (file : gmap string TechData) (t : TechnologyTree),
     tree_reachable file t ->
     let t' := TechnologyTree_from_dict (TechnologyTree_to_dict t) file in
     researched_technologies t' = researched_technologies t /\
     current_research t' = current_research t /\
     research_progress t' = research_progress t /\
     same_table t' t /\
     forall bt, TechnologyTree_is_building_unlocked t' bt
                = TechnologyTree_is_building_unlocked t bt).
Proof.
  split; [|split].
  - intros p planet_data. unfold Planet_from_dict, Planet_to_dict. simpl.
    eexists. split; [reflexivity|].
    unfold Planet__update_modifiers. simpl.
    destruct (fold_left _ _ _) as [[tm pm] om]. simpl. repeat split.
  - intros rm. cbv zeta. unfold ResourceManager_from_dict, ResourceManager_to_dict.
    simpl. repeat split.
  - intros file t Hreach. cbv zeta.
    destruct (proj2 (proj2 round_trip_listed) file t Hreach) as (Hr & Hc & Hp & Hprog).
    assert (Hsame : same_table
                      (TechnologyTree_from_dict (TechnologyTree_to_dict t) file) t).
    { apply (from_file_same_table file).
      - apply from_dict_from_file.
      - apply reachable_from_file. exact Hreach.
      - rewrite dom_from_dict. symmetry. apply reachable_dom. exact Hreach.
      - exact Hr.
      - exact Hprog. }
    split; [exact Hr|]. split; [exact Hc|]. split; [exact Hp|].
    split; [exact Hsame|].
    intros bt.
    set (t' := TechnologyTree_from_dict (TechnologyTree_to_dict t) file) in *.
    destruct (TechnologyTree_is_building_unlocked t bt) eqn:E.
    + apply (same_table_unlocked t' t); assumption.
    + destruct (TechnologyTree_is_building_unlocked t' bt) eqn:E'; [|reflexivity].
      apply (same_table_unlocked t t') in E'; [congruence|].
      apply same_table_sym. exact Hsame.
Qed.

(** The round trip on the tree in which [basic_energy] is researched and
    [botany] is half done. *)
Lemma snapshot_round_trip_witness :
  let t := tree_in_research in
  let t' := TechnologyTree_from_dict (TechnologyTree_to_dict t) sample_technologies in
  ("basic_energy" ∈ researched_technologies t /\
   current_research t = Some "botany" /\ research_progress t == 50) /\
  researched_technologies t' = researched_technologies t /\
  current_research t' = current_research t /\
  research_progress t' = research_progress t /\
  same_table t' t /\
  forall bt, TechnologyTree_is_building_unlocked t' bt
             = TechnologyTree_is_building_unlocked t bt.
Proof.
  split.
  - split; [apply (bool_decide_unpack _); vm_compute; exact I|].
    split; vm_compute; reflexivity.
  - apply (proj2 (proj2 snapshot_round_trip) sample_technologies).
    apply reach_update_research, reach_start_research, reach_complete_research,
      reach_init.
Defined.
